(** * Source adapters of hianime-cli: a shallow embedding

    The two scrapers of the repository,
    [src/mov_cli_hianime/scraper.py] (class [HiAnimeScraper], the JSON-API
    adapter) and [src/myanimeplugin/animepahe/scraper.py] (class
    [AnimePaheScraper], the HTML-scraping adapter), are translated method by
    method.  The Python they are written in is dynamically typed and every
    upstream document is an arbitrary decoded JSON value, so the embedding
    carries the run-time behaviour of the operators the methods use
    (truthiness, [in], subscripting, slicing, iteration, comparison) together
    with the exceptions they raise.

    Strings are sequences of code points below 256. *)

From Stdlib Require Import ZArith List String Ascii Bool Lia DecimalString DecimalPos.
From Stdlib Require Import Floats.SpecFloat.
Import ListNotations.
Open Scope string_scope.
Open Scope Z_scope.
Set Warnings "-register-all".

(** ** Python values and operators *)

Module Py.

(** Exceptions that the adapters can let escape.  [External] stands for any
    exception raised by the HTTP client or by a decoder; it carries the text
    [str(e)]. *)
Inductive exn : Type :=
| KeyError
| TypeError
| IndexError
| AttributeError
| ValueError (msg : string)
| External (msg : string).

Inductive result (A : Type) : Type :=
| Ok (a : A)
| Raise (e : exn).
Arguments Ok {A} a.
Arguments Raise {A} e.

(** What [json.loads] produces: [None], [bool], [int], [float], [str],
    [list] and [dict] (string keys, in document order). *)
Inductive json : Type :=
| JNull
| JBool (b : bool)
| JInt (z : Z)
| JFloat (f : spec_float)
| JStr (s : string)
| JList (l : list json)
| JDict (d : list (string * json)).

(** *** Numbers *)

(** A number is [m * 2^e], an infinity or a NaN; [bool] is a subtype of
    [int]. *)
Inductive num : Type :=
| NFin (m e : Z)
| NInf (neg : bool)
| NNan.

Definition to_num (v : json) : option num :=
  match v with
  | JBool b => Some (NFin (if b then 1 else 0) 0)
  | JInt z => Some (NFin z 0)
  | JFloat (S754_zero _) => Some (NFin 0 0)
  | JFloat (S754_infinity s) => Some (NInf s)
  | JFloat S754_nan => Some NNan
  | JFloat (S754_finite s m e) => Some (NFin (if s then Z.neg m else Z.pos m) e)
  | _ => None
  end.

(** Exact comparison, as Python does between [int] and [float]; [None] when
    a NaN takes part. *)
Definition num_cmp (a b : num) : option comparison :=
  match a, b with
  | NNan, _ | _, NNan => None
  | NInf s, NInf t => Some (if Bool.eqb s t then Eq else if s then Lt else Gt)
  | NInf s, NFin _ _ => Some (if s then Lt else Gt)
  | NFin _ _, NInf t => Some (if t then Gt else Lt)
  | NFin m1 e1, NFin m2 e2 =>
      let e := Z.min e1 e2 in
      Some (m1 * 2 ^ (e1 - e) ?= m2 * 2 ^ (e2 - e))
  end.

(** [v == n] for an [int] [n]; never raises. *)
Definition eq_int (v : json) (n : Z) : bool :=
  match to_num v with
  | Some a => match num_cmp a (NFin n 0) with Some Eq => true | _ => false end
  | None => false
  end.

(** [v > n] for an [int] [n]; a [TypeError] on a value that is no number. *)
Definition gt_int (v : json) (n : Z) : result bool :=
  match to_num v with
  | Some a => Ok (match num_cmp a (NFin n 0) with Some Gt => true | _ => false end)
  | None => Raise TypeError
  end.

(** *** Truth value, [in], subscripts, slices, iteration *)

Definition truthy (v : json) : bool :=
  match v with
  | JNull => false
  | JBool b => b
  | JInt z => negb (z =? 0)
  | JFloat (S754_zero _) => false
  | JFloat _ => true
  | JStr s => negb (s =? "")%string
  | JList l => match l with [] => false | _ => true end
  | JDict d => match d with [] => false | _ => true end
  end.

Fixpoint dict_get (d : list (string * json)) (k : string) : option json :=
  match d with
  | [] => None
  | (k', v) :: d' => if (k' =? k)%string then Some v else dict_get d' k
  end.

Definition starts_with (p s : string) : bool := String.prefix p s.

Fixpoint is_infix (p s : string) : bool :=
  starts_with p s ||
  match s with
  | EmptyString => false
  | String _ s' => is_infix p s'
  end.

Definition str_eq (k : string) (v : json) : bool :=
  match v with
  | JStr s => (s =? k)%string
  | _ => false
  end.

(** [k in v] for a string [k]. *)
Definition contains (k : string) (v : json) : result bool :=
  match v with
  | JDict d => Ok (match dict_get d k with Some _ => true | None => false end)
  | JList l => Ok (existsb (str_eq k) l)
  | JStr s => Ok (is_infix k s)
  | _ => Raise TypeError
  end.

Definition not_in (k : string) (v : json) : result bool :=
  match contains k v with
  | Ok b => Ok (negb b)
  | Raise e => Raise e
  end.

(** [v[k]] for a string [k]. *)
Definition getitem (v : json) (k : string) : result json :=
  match v with
  | JDict d => match dict_get d k with Some x => Ok x | None => Raise KeyError end
  | _ => Raise TypeError
  end.

Definition str_chars (s : string) : list json :=
  map (fun c => JStr (String c EmptyString)) (list_ascii_of_string s).

(** [v[0]]. *)
Definition getitem0 (v : json) : result json :=
  match v with
  | JList (x :: _) => Ok x
  | JList [] => Raise IndexError
  | JStr (String c _) => Ok (JStr (String c EmptyString))
  | JStr EmptyString => Raise IndexError
  | JDict _ => Raise KeyError
  | _ => Raise TypeError
  end.

(** The number of items [seq[:k]] keeps out of [len]. *)
Definition slice_len (len : nat) (k : Z) : nat :=
  if 0 <=? k then Nat.min (Z.to_nat k) len else Z.to_nat (Z.of_nat len + k).

Definition string_firstn (n : nat) (s : string) : string :=
  string_of_list_ascii (firstn n (list_ascii_of_string s)).

(** [v[:k]].  A [dict] refuses a slice ([TypeError] up to Python 3.11,
    [KeyError] since). *)
Definition slice_to (v : json) (k : Z) : result json :=
  match v with
  | JList l => Ok (JList (firstn (slice_len (List.length l) k) l))
  | JStr s => Ok (JStr (string_firstn (slice_len (String.length s) k) s))
  | _ => Raise TypeError
  end.

(** The items a [for] loop over [v] visits. *)
Definition iter (v : json) : result (list json) :=
  match v with
  | JList l => Ok l
  | JDict d => Ok (map (fun kv => JStr (fst kv)) d)
  | JStr s => Ok (str_chars s)
  | _ => Raise TypeError
  end.

(** [v.get(k, default)]: only a [dict] has the method. *)
Definition dict_get_default (v : json) (k : string) (default : json) : result json :=
  match v with
  | JDict d => Ok (match dict_get d k with Some x => x | None => default end)
  | _ => Raise AttributeError
  end.

(** *** Dictionaries built by the adapters *)

Definition hashable (v : json) : bool :=
  match v with
  | JList _ | JDict _ => false
  | _ => true
  end.

(** Equality of dictionary keys: numbers by value ([1], [1.0] and [True] are
    one key), the decoder's single NaN object by identity. *)
Definition key_eq (a b : json) : bool :=
  match a, b with
  | JNull, JNull => true
  | JStr s, JStr t => (s =? t)%string
  | JFloat S754_nan, JFloat S754_nan => true
  | _, _ =>
      match to_num a, to_num b with
      | Some x, Some y => match num_cmp x y with Some Eq => true | _ => false end
      | _, _ => false
      end
  end.

(** [d[k] = v] on an insertion-ordered dictionary: an existing key keeps its
    place (and its first spelling). *)
Fixpoint dict_set {V : Type} (d : list (json * V)) (k : json) (v : V) : list (json * V) :=
  match d with
  | [] => [(k, v)]
  | (k', v') :: d' => if key_eq k' k then (k', v) :: d' else (k', v') :: dict_set d' k v
  end.

Definition setitem {V : Type} (d : list (json * V)) (k : json) (v : V)
  : result (list (json * V)) :=
  if hashable k then Ok (dict_set d k v) else Raise TypeError.

(** *** Text *)

Definition str_of_int (z : Z) : string := NilZero.string_of_int (Z.to_int z).

Definition is_digit (c : ascii) : bool :=
  let n := nat_of_ascii c in (48 <=? n)%nat && (n <=? 57)%nat.

Fixpoint take_digits (s : string) : string :=
  match s with
  | String c s' => if is_digit c then String c (take_digits s') else EmptyString
  | EmptyString => EmptyString
  end.

Fixpoint strip_prefix (p s : string) : option string :=
  match p, s with
  | EmptyString, _ => Some s
  | String a p', String b s' => if Ascii.eqb a b then strip_prefix p' s' else None
  | String _ _, EmptyString => None
  end.

(** [re.search(r"Episode (\d+)", s)]: group 1 of the leftmost match, [None]
    without a match. *)
Fixpoint search_episode (s : string) : option string :=
  let here :=
    match strip_prefix "Episode " s with
    | Some rest => match take_digits rest with
                   | EmptyString => None
                   | ds => Some ds
                   end
    | None => None
    end in
  match here with
  | Some ds => Some ds
  | None => match s with
            | String _ s' => search_episode s'
            | EmptyString => None
            end
  end.

Definition digit_val (c : ascii) : Z := Z.of_nat (nat_of_ascii c) - 48.

Definition int_of_digits (ds : string) : Z :=
  fold_left (fun acc c => 10 * acc + digit_val c) (list_ascii_of_string ds) 0.

(** CPython refuses to convert more than this many digits
    ([sys.int_max_str_digits], default value). *)
Definition int_max_str_digits : nat := 4300.

(** [int(ds)] on a run of decimal digits. *)
Definition int_of_str (ds : string) : result Z :=
  if (int_max_str_digits <? String.length ds)%nat
  then Raise (ValueError "Exceeds the limit for integer string conversion")
  else Ok (int_of_digits ds).

(** [int(re.search(r"Episode (\d+)", v).group(1))]: [re.search] wants a
    string, and [.group] fails on the [None] of a failed search. *)
Definition episode_number (v : json) : result Z :=
  match v with
  | JStr s => match search_episode s with
              | Some ds => int_of_str ds
              | None => Raise AttributeError
              end
  | _ => Raise TypeError
  end.

(** *** [urllib.parse.quote_plus] *)

Definition hex_digit (n : nat) : ascii :=
  ascii_of_nat (if (n <? 10)%nat then 48 + n else 55 + n).

Definition percent_byte (n : nat) : string :=
  String "%" (String (hex_digit (n / 16)) (String (hex_digit (n mod 16)) EmptyString)).

Definition is_unreserved (c : ascii) : bool :=
  let n := nat_of_ascii c in
  ((48 <=? n) && (n <=? 57) || (65 <=? n) && (n <=? 90) || (97 <=? n) && (n <=? 122)
   || (n =? 95) || (n =? 46) || (n =? 45) || (n =? 126))%nat.

(** One character: kept, turned into ["+"], or its UTF-8 bytes
    percent-encoded. *)
Definition quote_char (c : ascii) : string :=
  let n := nat_of_ascii c in
  if is_unreserved c then String c EmptyString
  else if (n =? 32)%nat then "+"
  else if (n <? 128)%nat then percent_byte n
  else percent_byte (192 + n / 64) ++ percent_byte (128 + n mod 64).

Definition quote_plus (s : string) : string :=
  concat "" (map quote_char (list_ascii_of_string s)).

(** *** The pattern of [_parse_kwik_link] *)

(** [\w] on a string: letters, digits (superscripts and fractions
    included) and the underscore. *)
Definition is_word (c : ascii) : bool :=
  let n := nat_of_ascii c in
  ((48 <=? n) && (n <=? 57) || (65 <=? n) && (n <=? 90) || (97 <=? n) && (n <=? 122)
   || (n =? 95) || (n =? 170) || (n =? 178) || (n =? 179) || (n =? 181)
   || (n =? 185) || (n =? 186) || (188 <=? n) && (n <=? 190)
   || (192 <=? n) && (n <=? 214) || (216 <=? n) && (n <=? 246)
   || (248 <=? n) && (n <=? 255))%nat.

Fixpoint take_word (s : string) : string :=
  match s with
  | String c s' => if is_word c then String c (take_word s') else EmptyString
  | EmptyString => EmptyString
  end.

Definition kwik_prefix : string := "https://kwik.si/f/".

(** [re.search(r"https://kwik\.si/f/\w+", s)]: the text of the leftmost
    match, [None] without a match. *)
Fixpoint search_kwik (s : string) : option string :=
  let here :=
    match strip_prefix kwik_prefix s with
    | Some rest => match take_word rest with
                   | EmptyString => None
                   | w => Some (kwik_prefix ++ w)
                   end
    | None => None
    end in
  match here with
  | Some m => Some m
  | None => match s with
            | String _ s' => search_kwik s'
            | EmptyString => None
            end
  end.

(** [d.get(k)] on a dictionary built by [dict_set]. *)
Fixpoint dict_lookup {V : Type} (d : list (json * V)) (k : json) : option V :=
  match d with
  | [] => None
  | (k', v) :: d' => if key_eq k' k then Some v else dict_lookup d' k
  end.

End Py.
Import Py.

(** ** The host's data types ([mov_cli]) *)

Module Host.

Inductive MetadataType : Type := SINGLE | MULTI.

Definition is_multi (t : MetadataType) : bool :=
  match t with MULTI => true | SINGLE => false end.

(** [Metadata(id, title, type, year=None)]; the fields hold whatever the
    adapter stored. *)
Record Metadata : Type := mkMetadata {
  id : json;
  title : json;
  type : MetadataType;
  year : json
}.

Record EpisodeSelector : Type := mkSelector {
  episode : Z;
  season : Z
}.

(** A keyword argument of a constructor call, passed or left to its
    default. *)
Inductive kwarg (A : Type) : Type :=
| Omitted
| Given (a : A).
Arguments Omitted {A}.
Arguments Given {A} a.

(** What the adapters pass as [subtitles]. *)
Inductive subtitles : Type :=
| SubsNone
| SubsDict (d : list (json * json))
| SubsList (l : list json).

(** The two source descriptors of [mov_cli], as the constructor calls that
    build them: [url] and [title] are always passed, the other arguments
    are keyword arguments with the default [None].  The selector is the
    caller's object, [None] included. *)
Inductive Media : Type :=
| Multi (url title : json) (referrer : kwarg string)
        (episode : option EpisodeSelector) (subs : kwarg subtitles)
| Single (url title : json) (referrer : kwarg string)
         (year : kwarg json) (subs : kwarg subtitles).

Definition media_referrer (m : Media) : kwarg string :=
  match m with Multi _ _ r _ _ | Single _ _ r _ _ => r end.

Definition media_subtitles (m : Media) : kwarg subtitles :=
  match m with Multi _ _ _ _ s | Single _ _ _ _ s => s end.

Definition is_Multi (m : Media) : bool :=
  match m with Multi _ _ _ _ _ => true | Single _ _ _ _ _ => false end.

(** [episode.episode]: an attribute of the selector, which [None] lacks. *)
Definition selector_episode (sel : option EpisodeSelector) : result Z :=
  match sel with
  | Some s => Ok (episode s)
  | None => Raise AttributeError
  end.

(** [episode.episode if episode and episode.episode else 1] *)
Definition requested_episode (sel : option EpisodeSelector) : Z :=
  match sel with
  | Some s => if episode s =? 0 then 1 else episode s
  | None => 1
  end.

End Host.
Import Host.

(** ** The HTML tree ([bs4]) *)

Module Html.

Inductive node : Type :=
| Tag (name : string) (attrs : list (string * string)) (children : list node)
| Text (s : string).

(** All nodes below [n], in document order. *)
Fixpoint descendants (n : node) : list node :=
  match n with
  | Tag _ _ cs =>
      (fix walk (l : list node) : list node :=
         match l with
         | [] => []
         | c :: l' => c :: descendants c ++ walk l'
         end) cs
  | Text _ => []
  end.

Fixpoint attr_get (attrs : list (string * string)) (a : string) : option string :=
  match attrs with
  | [] => None
  | (k, v) :: rest => if (k =? a)%string then Some v else attr_get rest a
  end.

Definition has_attr (attrs : list (string * string)) (want : string * string) : bool :=
  match attr_get attrs (fst want) with
  | Some v => (v =? snd want)%string
  | None => false
  end.

Definition matches (name : string) (want : list (string * string)) (n : node) : bool :=
  match n with
  | Tag nm attrs _ => (nm =? name)%string && forallb (has_attr attrs) want
  | Text _ => false
  end.

(** [n.findAll(name, attrs)] *)
Definition findAll (n : node) (name : string) (want : list (string * string)) : list node :=
  filter (matches name want) (descendants n).

(** [n.find(name, attrs)] *)
Definition find (n : node) (name : string) (want : list (string * string)) : option node :=
  hd_error (findAll n name want).

(** [n.get(a)]: the attribute's value or [None]. *)
Definition get (n : node) (a : string) : json :=
  match n with
  | Tag _ attrs _ => match attr_get attrs a with Some v => JStr v | None => JNull end
  | Text _ => JNull
  end.

(** [n.string]: the text of a node whose only child is a text, or whose
    only child has such a text; [None] otherwise. *)
Fixpoint node_string (n : node) : option string :=
  match n with
  | Text s => Some s
  | Tag _ _ [c] => node_string c
  | Tag _ _ _ => None
  end.

End Html.

(** ** Effects: requests, log records and yielded entries *)

Module Eff.

Inductive level : Type := ERROR | WARNING.

Inductive event : Type :=
| Get (url : string) (headers : list (string * string))
| Log (lvl : level) (msg : string)
| Yield (m : Metadata).

(** The collaborators an adapter is instantiated with: the HTTP client
    ([inl] is the text of the exception it raised, [inr] the body), the JSON
    decoder, the HTML parser and [repr] (used by [str] on floats and
    containers). *)
Record Runtime : Type := mkRuntime {
  http_get : string -> list (string * string) -> string + string;
  json_loads : string -> string + json;
  html_parser : string -> Html.node;
  py_repr : json -> string
}.

(** A run: the events in the order they happened, then a value or the
    exception that ended it. *)
Definition M (A : Type) : Type := (list event * result A)%type.

Definition ret {A : Type} (a : A) : M A := ([], Ok a).

Definition raise {A : Type} (e : exn) : M A := ([], Raise e).

Definition bind {A B : Type} (m : M A) (f : A -> M B) : M B :=
  match m with
  | (t, Ok a) => let (t', r) := f a in ((t ++ t')%list, r)
  | (t, Raise e) => (t, Raise e)
  end.

Definition lift {A : Type} (r : result A) : M A := ([], r).

Definition emit (e : event) : M unit := ([e], Ok tt).

Definition log (lvl : level) (msg : string) : M unit := emit (Log lvl msg).

Definition trace {A : Type} (m : M A) : list event := fst m.

Definition outcome {A : Type} (m : M A) : result A := snd m.

Definition yielded (t : list event) : list Metadata :=
  flat_map (fun e => match e with Yield m => [m] | _ => [] end) t.

Definition requests (t : list event) : list string :=
  flat_map (fun e => match e with Get u _ => [u] | _ => [] end) t.

Definition logged (t : list event) : list (level * string) :=
  flat_map (fun e => match e with Log l m => [(l, m)] | _ => [] end) t.

(** A run that sends no request. *)
Definition quiet {A : Type} (m : M A) : Prop := requests (trace m) = [].

End Eff.
Import Eff.

Coercion Eff.lift : result >-> M.

Declare Scope eff_scope.
Delimit Scope eff_scope with eff.
Notation "x <- c1 ;; c2" := (bind c1 (fun x => c2))
  (at level 61, c1 at next level, right associativity) : eff_scope.
Notation "c1 ;; c2" := (bind c1 (fun _ => c2))
  (at level 61, right associativity) : eff_scope.
Open Scope eff_scope.

Module Run.

(** [a or b] on conditions that may raise. *)
Definition orelse (a b : M bool) : M bool :=
  x <- a ;; if (x : bool) then ret true else b.

Fixpoint for_each {A : Type} (items : list A) (body : A -> M unit) : M unit :=
  match items with
  | [] => ret tt
  | x :: rest => body x ;; for_each rest body
  end.

Fixpoint for_fold {A S : Type} (items : list A) (s : S) (body : S -> A -> M S) : M S :=
  match items with
  | [] => ret s
  | x :: rest => s' <- body s x ;; for_fold rest s' body
  end.

(** [self.http_client.get(url, headers=...)] then [.text] *)
Definition http_client_get (rt : Runtime) (url : string)
           (headers : list (string * string)) : M string :=
  emit (Get url headers) ;;
  match http_get rt url headers with
  | inl msg => raise (External msg)
  | inr text => ret text
  end.

(** [json.loads(text)] *)
Definition loads (rt : Runtime) (text : string) : M json :=
  match json_loads rt text with
  | inl msg => raise (External msg)
  | inr v => ret v
  end.

(** The body of a [try] whose statements are the request and the decoding:
    the decoded document, or the text of the exception either raised. *)
Definition fetch (rt : Runtime) (url : string)
           (headers : list (string * string)) : string + json :=
  match http_get rt url headers with
  | inl msg => inl msg
  | inr text => json_loads rt text
  end.

(** The same two steps outside a [try]: the exception is raised. *)
Definition fetched (r : string + json) : result json :=
  match r with
  | inl msg => Raise (External msg)
  | inr doc => Ok doc
  end.

(** [str(v)], as an f-string formats a value. *)
Definition py_str (rt : Runtime) (v : json) : string :=
  match v with
  | JStr s => s
  | JInt z => str_of_int z
  | JBool true => "True"
  | JBool false => "False"
  | JNull => "None"
  | _ => py_repr rt v
  end.

End Run.
Import Run.
Notation "a ||| b" := (orelse a b) (at level 50, left associativity) : eff_scope.

(** ** The JSON-API adapter: [src/mov_cli_hianime/scraper.py] *)

Module HiAnimeScraper.

Definition base_url : string := "https://aniwatch-api-7ehn.onrender.com/api/v2/hianime".
Definition search_url : string := base_url ++ "/search".
Definition anime_url : string := base_url ++ "/anime".
Definition episode_url : string := base_url ++ "/episode/sources".
Definition player_url : string := "https://ubel.to/?url=".

(** [_request]: any exception of the request or of the decoding is logged
    and replaced by the document [{"data": {}}]. *)
Definition _request (rt : Runtime) (url : string) : M json :=
  emit (Get url []) ;;
  match fetch rt url [] with
  | inr v => ret v
  | inl e =>
      log ERROR ("Error making request to " ++ url ++ ": " ++ e) ;;
      ret (JDict [("data", JDict [])])
  end.

(** [not doc or "data" not in doc or key not in doc["data"]] *)
Definition lacks (doc : json) (key : string) : M bool :=
  ret (negb (truthy doc)) |||
  not_in "data" doc |||
  (data <- getitem doc "data" ;; not_in key data).

(** [doc["data"][key]] *)
Definition data_of (doc : json) (key : string) : M json :=
  data <- getitem doc "data" ;; getitem data key.

(** The body of the [for] loop of [search]. *)
Definition search_item (anime : json) : M unit :=
  i <- getitem anime "id" ;;
  t <- getitem anime "name" ;;
  eps <- getitem anime "episodes" ;;
  sub <- getitem eps "sub" ;;
  multi <- gt_int sub 1 ;;
  emit (Yield (mkMetadata i t (if (multi : bool) then MULTI else SINGLE) JNull)).

(** [search] is a generator: its [return []] only ends the iteration, and
    the entries it produces are the [Yield] events of the run. *)
Definition search (rt : Runtime) (query : string) (limit : option Z) : M unit :=
  if negb (truthy (JStr query)) then
    log ERROR "No search query provided"
  else
    response <- _request rt (search_url ++ "?q=" ++ quote_plus query) ;;
    nothing <- lacks response "animes" ;;
    if (nothing : bool) then
      log WARNING ("No results found for query: " ++ query)
    else
      animes <- data_of response "animes" ;;
      animes <- match limit with
                | Some k => lift (slice_to animes k)
                | None => ret animes
                end ;;
      items <- iter animes ;;
      for_each items search_item.

Definition sentinel : list (json * Z) := [(JNull, 1)].

(** [f"{self.anime_url}/{metadata.id}/episodes"] *)
Definition listing_url (rt : Runtime) (metadata : Metadata) : string :=
  anime_url ++ "/" ++ py_str rt (id metadata) ++ "/episodes".

(** [f"{self.episode_url}?animeEpisodeId={target_episode['episodeId']}"] *)
Definition sources_url (rt : Runtime) (episode_id : json) : string :=
  episode_url ++ "?animeEpisodeId=" ++ py_str rt episode_id.

(** The body of the loop of [scrape_episodes]. *)
Definition add_number (episode_map : list (json * Z)) (ep : json) : M (list (json * Z)) :=
  n <- getitem ep "number" ;; lift (setitem episode_map n 1).

Definition scrape_episodes (rt : Runtime) (metadata : Metadata) : M (list (json * Z)) :=
  anime_details <- _request rt (listing_url rt metadata) ;;
  failed <- lacks anime_details "episodes" ;;
  if (failed : bool) then
    log ERROR ("Failed to fetch episodes for anime ID: " ++ py_str rt (id metadata)) ;;
    ret sentinel
  else
    episodes <- data_of anime_details "episodes" ;;
    items <- iter episodes ;;
    episode_map <- for_fold items [] add_number ;;
    match episode_map with
    | [] => ret sentinel
    | _ => ret episode_map
    end.

(** The [for ... break] of [scrape]: the first item whose number is the
    requested one, [None] when the loop runs out. *)
Fixpoint find_episode (items : list json) (episode_num : Z) : M json :=
  match items with
  | [] => ret JNull
  | ep :: rest =>
      n <- getitem ep "number" ;;
      if eq_int n episode_num then ret ep else find_episode rest episode_num
  end.

Definition placeholder_single (metadata : Metadata) : Media :=
  Single (JStr "") (title metadata) (Given "") (Given (year metadata)) Omitted.

Definition placeholder_multi (metadata : Metadata) (episode : option EpisodeSelector) : Media :=
  Multi (JStr "") (title metadata) (Given "") episode (Given SubsNone).

(** The placeholder "based on type" of lines 146-161. *)
Definition placeholder (metadata : Metadata) (episode : option EpisodeSelector) : Media :=
  if is_multi (type metadata)
  then placeholder_multi metadata episode
  else placeholder_single metadata.

(** The body of the loop over the tracks. *)
Definition add_track (subtitles : list (json * json)) (track : json)
  : M (list (json * json)) :=
  kind <- getitem track "kind" ;;
  if str_eq "captions" kind then
    file <- getitem track "file" ;;
    label <- getitem track "label" ;;
    lift (setitem subtitles label file)
  else ret subtitles.

(** Lines 141-187: the sources of the target episode and the descriptor. *)
Definition scrape_sources (rt : Runtime) (metadata : Metadata)
           (episode : option EpisodeSelector) (target_episode : json) : M Media :=
  episode_id <- getitem target_episode "episodeId" ;;
  sources_response <- _request rt (sources_url rt episode_id) ;;
  failed <- lacks sources_response "sources" ;;
  if (failed : bool) then
    log ERROR ("Failed to fetch sources for episode ID: " ++ py_str rt episode_id) ;;
    ret (placeholder metadata episode)
  else
    sources <- data_of sources_response "sources" ;;
    first <- getitem0 sources ;;
    video_url <- getitem first "url" ;;
    data <- getitem sources_response "data" ;;
    has_tracks <- contains "tracks" data ;;
    subtitles <- (if (has_tracks : bool) then
                    tracks <- getitem data "tracks" ;;
                    items <- iter tracks ;;
                    for_fold items [] add_track
                  else ret []) ;;
    if is_multi (type metadata) then
      number <- getitem target_episode "number" ;;
      ret (Multi video_url
                 (JStr (py_str rt (title metadata) ++ " - Episode " ++ py_str rt number))
                 (Given "https://hianime.to") episode (Given (SubsDict subtitles)))
    else
      ret (Single video_url (title metadata) (Given "https://hianime.to")
                  (Given (year metadata)) Omitted).

Definition scrape (rt : Runtime) (metadata : Metadata)
           (episode : option EpisodeSelector) : M Media :=
  anime_details <- _request rt (listing_url rt metadata) ;;
  failed <- lacks anime_details "episodes" ;;
  if (failed : bool) then
    log ERROR ("Failed to fetch episodes for anime ID: " ++ py_str rt (id metadata)) ;;
    ret (placeholder_single metadata)
  else
    episodes <- data_of anime_details "episodes" ;;
    if is_multi (type metadata) then
      let episode_num := requested_episode episode in
      items <- iter episodes ;;
      target_episode <- find_episode items episode_num ;;
      if negb (truthy target_episode) then
        log ERROR ("Episode " ++ str_of_int episode_num ++ " not found for anime ID: "
                   ++ py_str rt (id metadata)) ;;
        ret (placeholder_multi metadata episode)
      else scrape_sources rt metadata episode target_episode
    else
      if truthy episodes then
        target_episode <- getitem0 episodes ;;
        scrape_sources rt metadata episode target_episode
      else
        log ERROR ("No episodes found for anime ID: " ++ py_str rt (id metadata)) ;;
        ret (placeholder_single metadata).

End HiAnimeScraper.

(** ** The HTML-scraping adapter: [src/myanimeplugin/animepahe/scraper.py] *)

Module AnimePaheScraper.

Definition base_url : string := "https://animepahe.ru".
Definition api_url : string := base_url ++ "/api".
Definition search_url : string := api_url ++ "?m=search&q=".
Definition release_url : string := api_url ++ "?m=release&id=".
Definition play_url : string := base_url ++ "/play".
Definition headers : list (string * string) := [("Referer", base_url)].

(** [f"{self.play_url}/{metadata.id}/{episode_session}"] *)
Definition page_url (rt : Runtime) (metadata : Metadata) (episode_session : json) : string :=
  play_url ++ "/" ++ py_str rt (id metadata) ++ "/" ++ py_str rt episode_session.

(** Nothing is caught here: an exception of the client or of the decoder
    leaves the method that called. *)
Definition _request (rt : Runtime) (url : string) : M json :=
  response <- http_client_get rt url headers ;;
  loads rt response.

Definition _request_html (rt : Runtime) (url : string) : M string :=
  http_client_get rt url headers.

Definition search_item (anime : json) : M unit :=
  i <- getitem anime "session" ;;
  t <- getitem anime "title" ;;
  eps <- getitem anime "episodes" ;;
  multi <- gt_int eps 1 ;;
  emit (Yield (mkMetadata i t (if (multi : bool) then MULTI else SINGLE) JNull)).

(** A generator, as in the other adapter; it has no test of the query. *)
Definition search (rt : Runtime) (query : string) (limit : option Z) : M unit :=
  response <- _request rt (search_url ++ quote_plus query) ;;
  animes <- dict_get_default response "data" (JList []) ;;
  animes <- match limit with
            | Some k => lift (slice_to animes k)
            | None => ret animes
            end ;;
  items <- iter animes ;;
  for_each items search_item.

Definition sentinel : list (json * Z) := [(JNull, 1)].

(** [int(re.search(r"Episode (\d+)", ep.get("episode", "Episode 1")).group(1))] *)
Definition parsed_number (ep : json) : M Z :=
  label <- dict_get_default ep "episode" (JStr "Episode 1") ;;
  lift (episode_number label).

Definition listing_url (rt : Runtime) (metadata : Metadata) : string :=
  release_url ++ py_str rt (id metadata) ++ "&sort=episode_asc&page=1".

(** The body of the loop of [scrape_episodes]: the key is the constant 1. *)
Definition add_episode (episode_map : list (json * Z)) (ep : json) : M (list (json * Z)) :=
  episode_number <- parsed_number ep ;;
  lift (setitem episode_map (JInt 1) episode_number).

Definition scrape_episodes (rt : Runtime) (metadata : Metadata) : M (list (json * Z)) :=
  response <- _request rt (listing_url rt metadata) ;;
  episodes <- dict_get_default response "data" (JList []) ;;
  items <- iter episodes ;;
  episode_map <- for_fold items [] add_episode ;;
  match episode_map with
  | [] => ret sentinel
  | _ => ret episode_map
  end.

(** The stub of the repository: the link is returned as it came. *)
Definition _extract_stream_url (kwik_url : json) : json := kwik_url.

Fixpoint find_episode (items : list json) (episode_num : Z) : M json :=
  match items with
  | [] => ret JNull
  | ep :: rest =>
      ep_num <- parsed_number ep ;;
      if ep_num =? episode_num then ret ep else find_episode rest episode_num
  end.

(** [soup.find("div", {"id": ident}).findAll(tag)]: [find] gives [None]
    when no such [div] exists, and [None] has no [findAll]. *)
Definition container (soup : Html.node) (ident tag : string) : M (list Html.node) :=
  match Html.find soup "div" [("id", ident)] with
  | Some div => ret (Html.findAll div tag [])
  | None => raise AttributeError
  end.

(** Lines 118-161: the playback page of the target and the descriptor. *)
Definition scrape_page (rt : Runtime) (metadata : Metadata)
           (episode : option EpisodeSelector) (target_episode : json) : M Media :=
  episode_session <- getitem target_episode "session" ;;
  let episode_page_url := page_url rt metadata episode_session in
  episode_page_html <- _request_html rt episode_page_url ;;
  let soup := html_parser rt episode_page_html in
  download_options <- container soup "pickDownload" "a" ;;
  embed_sources <- container soup "resolutionMenu" "button" ;;
  match download_options with
  | [] => raise (ValueError "No download options found")
  | option0 :: _ =>
      let download_url := Html.get option0 "href" in
      embed_url <- match embed_sources with
                   | button0 :: _ => ret (Html.get button0 "data-src")
                   | [] => raise IndexError
                   end ;;
      let video_url := _extract_stream_url download_url in
      let subtitles : list json := [] in
      n <- selector_episode episode ;;
      episode_title <- dict_get_default target_episode "episode"
                         (JStr ("Episode " ++ str_of_int n)) ;;
      if is_multi (type metadata) then
        ret (Multi video_url
                   (JStr (py_str rt (title metadata) ++ " - " ++ py_str rt episode_title))
                   Omitted episode (Given (SubsList subtitles)))
      else
        ret (Single video_url (title metadata) Omitted Omitted
                    (Given (SubsList subtitles)))
  end.

Definition scrape (rt : Runtime) (metadata : Metadata)
           (episode : option EpisodeSelector) : M Media :=
  response <- _request rt (listing_url rt metadata) ;;
  episodes_data <- dict_get_default response "data" (JList []) ;;
  target_episode <-
    (if is_multi (type metadata) then
       let episode_num := requested_episode episode in
       items <- iter episodes_data ;;
       find_episode items episode_num
     else
       if truthy episodes_data then lift (getitem0 episodes_data) else ret JNull) ;;
  if negb (truthy target_episode) then
    n <- selector_episode episode ;;
    raise (ValueError ("Episode " ++ str_of_int n ++ " not found"))
  else scrape_page rt metadata episode target_episode.

(** [_parse_kwik_link]: the page is fetched, and the pattern is searched in
    the text of its first [script]; [None] has no [.string], and
    [re.search] refuses the [None] of a script without a single text. *)
Definition _parse_kwik_link (rt : Runtime) (url : string) : M json :=
  html <- _request_html rt url ;;
  let soup := html_parser rt html in
  match Html.find soup "script" [] with
  | None => raise AttributeError
  | Some script_tag =>
      match Html.node_string script_tag with
      | None => raise TypeError
      | Some text =>
          ret (match search_kwik text with
               | Some link => JStr link
               | None => JNull
               end)
      end
  end.

End AnimePaheScraper.

(** ** Canned upstreams for the concrete runs *)

Module Fixture.

Fixpoint lookup {A : Type} (table : list (string * A)) (k : string) : option A :=
  match table with
  | [] => None
  | (k', v) :: rest => if (k' =? k)%string then Some v else lookup rest k
  end.

Definition known {A : Type} (table : list (string * A)) (k : string) : bool :=
  match lookup table k with Some _ => true | None => false end.

(** An upstream that serves the JSON documents [site] and the HTML pages
    [pages], each under its URL; the body of a resource is named by the URL,
    and the decoders read it back from the tables.  Any other URL fails. *)
Definition serve (site : list (string * json)) (pages : list (string * Html.node)) : Runtime :=
  mkRuntime
    (fun url _ => if known site url || known pages url then inr url
                  else inl "404 Not Found")
    (fun text => match lookup site text with
                 | Some v => inr v
                 | None => inl "Expecting value: line 1 column 1 (char 0)"
                 end)
    (fun text => match lookup pages text with
                 | Some n => n
                 | None => Html.Tag "[document]" [] []
                 end)
    (fun _ => "...").

Definition obj (fields : list (string * json)) : json := JDict fields.

Definition naruto : Metadata := mkMetadata (JStr "naruto-677") (JStr "naruto") MULTI JNull.
Definition movie : Metadata := mkMetadata (JStr "your-name-10") (JStr "Your Name") SINGLE JNull.
Definition ep (n : Z) : option EpisodeSelector := Some (mkSelector n 1).

End Fixture.

(** ** The upstream documents of the two sites

    The shapes the adapters read, as decoders that tell a conforming
    document from any other. *)

Module Shape.

(** [doc] is an object whose ["data"] is missing, or is an object without
    [key]. *)
Definition misses (doc : json) (key : string) : bool :=
  match doc with
  | JDict d =>
      match dict_get d "data" with
      | None => true
      | Some (JDict d') => match dict_get d' key with None => true | Some _ => false end
      | Some _ => false
      end
  | _ => false
  end.

(** [{data: {key: [...]}}], the list under [key]. *)
Definition listing (doc : json) (key : string) : option (list json) :=
  match doc with
  | JDict d =>
      match dict_get d "data" with
      | Some (JDict d') => match dict_get d' key with Some (JList l) => Some l | _ => None end
      | _ => None
      end
  | _ => None
  end.

(** [{data: [...]}], the list of the second site. *)
Definition data_list (doc : json) : option (list json) :=
  match doc with
  | JDict d => match dict_get d "data" with Some (JList l) => Some l | _ => None end
  | _ => None
  end.

(** An object without ["data"]. *)
Definition no_data (doc : json) : bool :=
  match doc with
  | JDict d => match dict_get d "data" with None => true | Some _ => false end
  | _ => false
  end.

Definition field (v : json) (k : string) : option json :=
  match v with
  | JDict d => dict_get d k
  | _ => None
  end.

(** A search result: identifier, title and episode count. *)
Record entry : Type := mkEntry {
  entry_id : json;
  entry_title : json;
  entry_count : Z
}.

(** [{id, name, episodes: {sub}}] *)
Definition hianime_entry (a : json) : option entry :=
  match field a "id", field a "name", field a "episodes" with
  | Some i, Some t, Some eps =>
      match field eps "sub" with
      | Some (JInt c) => Some (mkEntry i t c)
      | _ => None
      end
  | _, _, _ => None
  end.

(** [{session, title, episodes}] *)
Definition animepahe_entry (a : json) : option entry :=
  match field a "session", field a "title", field a "episodes" with
  | Some i, Some t, Some (JInt c) => Some (mkEntry i t c)
  | _, _, _ => None
  end.

(** The catalog entry a search result stands for: [Multi] when it counts
    more than one episode. *)
Definition metadata_of (e : entry) : Metadata :=
  mkMetadata (entry_id e) (entry_title e)
             (if 1 <? entry_count e then MULTI else SINGLE) JNull.

(** The mapping with every number of a listing sent to group 1. *)
Definition number_map (numbers : list json) : list (json * Z) :=
  fold_left (fun d n => dict_set d n 1) numbers [].


(** A mapping of the HTML-scraping adapter that was built from the listing
    the site served: the one key 1, sent to the number of the last item. *)
Definition animepahe_populated (rt : Runtime) (metadata : Metadata)
           (m : list (json * Z)) : Prop :=
  exists doc items numbers,
    fetch rt (AnimePaheScraper.listing_url rt metadata) AnimePaheScraper.headers = inr doc
    /\ data_list doc = Some items
    /\ Forall2 (fun ep n => AnimePaheScraper.parsed_number ep = ret n) items numbers
    /\ numbers <> []
    /\ m = [(JInt 1, last numbers 0)].

(** The mapping of the HTML-scraping adapter between two turns of its loop:
    empty, or the key 1 alone. *)
Definition one_key (m : list (json * Z)) : Prop :=
  m = [] \/ exists x, m = [(JInt 1, x)].

(** The same mapping after the loop has parsed [numbers], from [s]. *)
Definition after_loop (s : list (json * Z)) (numbers : list Z) : list (json * Z) :=
  match numbers with
  | [] => s
  | _ => [(JInt 1, last numbers 0)]
  end.

(** A listing element of the JSON-API adapter whose number is not [n]. *)
Definition other_number (n : Z) (ep : json) : Prop :=
  exists v, field ep "number" = Some v /\ eq_int v n = false.

(** A listing element of the HTML-scraping adapter whose title parses to a
    number that is not [n]. *)
Definition other_episode (n : Z) (ep : json) : Prop :=
  exists k, AnimePaheScraper.parsed_number ep = ret k /\ k <> n.

(** An entry of an adapter stands for a result of the site. *)
Definition stands_for (m : Metadata) (e : entry) : Prop :=
  id m = entry_id e /\ title m = entry_title e
  /\ (type m = MULTI <-> 1 < entry_count e).

(** The entries a search keeps: all of them, or the first [k]. *)
Definition truncate {A : Type} (limit : option Z) (l : list A) : list A :=
  match limit with
  | Some k => firstn (Z.to_nat k) l
  | None => l
  end.

End Shape.

(** ** Concrete upstreams *)

Module Scenario.
Import Fixture.

(** Every request fails. *)
Definition down : Runtime := serve [] [].

Definition naruto_listing : string * json :=
  (HiAnimeScraper.anime_url ++ "/naruto-677/episodes",
   obj [("data", obj [("episodes",
     JList [obj [("number", JInt 1); ("episodeId", JStr "abc")];
            obj [("number", JInt 2); ("episodeId", JStr "def")]])])]).

Definition movie_listing : string * json :=
  (HiAnimeScraper.anime_url ++ "/your-name-10/episodes",
   obj [("data", obj [("episodes",
     JList [obj [("number", JInt 1); ("episodeId", JStr "yn1")]])])]).

Definition sources_of (episode_id : string) (doc : json) : string * json :=
  (HiAnimeScraper.episode_url ++ "?animeEpisodeId=" ++ episode_id, doc).

(** The site of the scenario of the specification. *)
Definition hianime : Runtime :=
  serve
    [(HiAnimeScraper.search_url ++ "?q=naruto",
      obj [("data", obj [("animes",
        JList [obj [("id", JStr "naruto-677"); ("name", JStr "naruto");
                    ("episodes", obj [("sub", JInt 500)])];
               obj [("id", JStr "your-name-10"); ("name", JStr "Your Name");
                    ("episodes", obj [("sub", JInt 1)])]])])]);
     naruto_listing; movie_listing;
     sources_of "abc"
       (obj [("data", obj [("sources", JList [obj [("url", JStr "https://x/vid.m3u8")]]);
                           ("tracks", JList [])])]);
     sources_of "yn1"
       (obj [("data", obj [("sources", JList [obj [("url", JStr "https://x/yn.m3u8")]])])])]
    [].

(** The sources document has an empty list of sources. *)
Definition hianime_empty_sources : Runtime :=
  serve [naruto_listing; sources_of "abc" (obj [("data", obj [("sources", JList [])])])] [].

(** The sources document has no ["sources"]. *)
Definition hianime_no_sources : Runtime :=
  serve [naruto_listing; movie_listing;
         sources_of "abc" (obj [("data", obj [])]);
         sources_of "yn1" (obj [("data", obj [])])] [].

(** The documents have no list at all. *)
Definition hianime_bare : Runtime :=
  serve [(HiAnimeScraper.search_url ++ "?q=naruto", obj [("data", obj [])]);
         (HiAnimeScraper.anime_url ++ "/naruto-677/episodes", obj [("status", JInt 200)])] [].

(** A search result without its ["id"]. *)
Definition hianime_entry_without_id : Runtime :=
  serve [(HiAnimeScraper.search_url ++ "?q=naruto",
          obj [("data", obj [("animes",
            JList [obj [("name", JStr "naruto"); ("episodes", obj [("sub", JInt 500)])]])])])] [].

Definition pahe_listing (id : string) (eps : list json) : string * json :=
  (AnimePaheScraper.release_url ++ id ++ "&sort=episode_asc&page=1",
   obj [("data", JList eps)]).

Definition pahe_page (id session : string) (children : list Html.node)
  : string * Html.node :=
  (AnimePaheScraper.play_url ++ "/" ++ id ++ "/" ++ session,
   Html.Tag "[document]" [] children).

Definition download_div : Html.node :=
  Html.Tag "div" [("id", "pickDownload")]
    [Html.Tag "a" [("href", "https://kwik.si/f/x1")] [Html.Text "720p"]].

Definition resolution_div : Html.node :=
  Html.Tag "div" [("id", "resolutionMenu")]
    [Html.Tag "button" [("data-src", "https://kwik.si/e/x1")] [Html.Text "720p"]].

(** The second site: a search answer for the empty query, two listings and
    their playback pages. *)
Definition animepahe : Runtime :=
  serve
    [(AnimePaheScraper.search_url,
      obj [("data", JList [obj [("session", JStr "naruto-677"); ("title", JStr "naruto");
                                ("episodes", JInt 500)]])]);
     (AnimePaheScraper.search_url ++ "naruto",
      obj [("data", JList [obj [("session", JStr "naruto-677"); ("title", JStr "naruto");
                                ("episodes", JInt 500)];
                           obj [("session", JStr "your-name-10"); ("title", JStr "Your Name");
                                ("episodes", JInt 1)]])]);
     pahe_listing "naruto-677"
       [obj [("session", JStr "e2"); ("episode", JStr "Episode 2")];
        obj [("session", JStr "e3"); ("episode", JStr "Episode 3")]];
     pahe_listing "your-name-10" [obj [("session", JStr "m1"); ("episode", JStr "Episode 1")]]]
    [pahe_page "naruto-677" "e2" [download_div; resolution_div];
     pahe_page "your-name-10" "m1" [download_div; resolution_div]].

(** An episode whose title is not of the form ["Episode N"]. *)
Definition animepahe_special : Runtime :=
  serve [pahe_listing "naruto-677" [obj [("session", JStr "sp"); ("episode", JStr "Special")]]] [].

(** A playback page without the download container. *)
Definition animepahe_no_container : Runtime :=
  serve [pahe_listing "naruto-677" [obj [("session", JStr "e2"); ("episode", JStr "Episode 2")]]]
        [pahe_page "naruto-677" "e2" [resolution_div]].

(** Documents without ["data"]. *)
Definition animepahe_bare : Runtime :=
  serve [(AnimePaheScraper.search_url ++ "naruto", obj [("total", JInt 0)]);
         pahe_listing "naruto-677" [];
         (AnimePaheScraper.release_url ++ "your-name-10&sort=episode_asc&page=1",
          obj [("total", JInt 0)])] [].

End Scenario.


(** ** Vocabulary for the behaviour of the operations *)

Module Behaviour.
Import Shape.

Definition all_chars (p : ascii -> bool) (s : string) : bool :=
  forallb p (list_ascii_of_string s).

(** A character that has no meaning of its own in a query string: an
    unreserved one, the ["+"] of a space, or part of a percent escape. *)
Definition url_safe (c : ascii) : bool :=
  is_unreserved c || Ascii.eqb c "+" || Ascii.eqb c "%".

(** The results [search] loops over: all of them, or the slice
    [animes[:k]]. *)
Definition kept (limit : option Z) (animes : list json) : list json :=
  match limit with
  | Some k => firstn (slice_len (List.length animes) k) animes
  | None => animes
  end.

(** Every request of a trace carries the headers [hs]. *)
Definition sent_with (hs : list (string * string)) (t : list event) : Prop :=
  Forall (fun ev => match ev with Get _ h => h = hs | _ => True end) t.

(** Every request of a run carries the headers [hs]. *)
Definition sends {A : Type} (hs : list (string * string)) (m : M A) : Prop :=
  sent_with hs (trace m).

(** A run that sends no request, or one request, whose URL is among [P]. *)
Definition one_more {A : Type} (P : string -> Prop) (m : M A) : Prop :=
  requests (trace m) = [] \/ exists url, P url /\ requests (trace m) = [url].

(** The URLs of the sources requests and of the playback pages. *)
Definition is_sources_url (rt : Runtime) (url : string) : Prop :=
  exists episode_id, url = HiAnimeScraper.sources_url rt episode_id.

Definition is_page_url (rt : Runtime) (metadata : Metadata) (url : string) : Prop :=
  exists session, url = AnimePaheScraper.page_url rt metadata session.

(** The element of the listing [doc] that [scrape] of the JSON-API adapter
    goes on with: the first one for a film, the first one whose number
    equals the requested one for a series. *)
Definition hianime_target (metadata : Metadata) (episode : option EpisodeSelector)
           (doc target : json) : Prop :=
  match type metadata with
  | SINGLE => exists rest, listing doc "episodes" = Some (target :: rest)
  | MULTI =>
      exists before after number,
        listing doc "episodes" = Some (before ++ target :: after)%list
        /\ Forall (other_number (requested_episode episode)) before
        /\ field target "number" = Some number
        /\ eq_int number (requested_episode episode) = true
  end.

(** The element of the listing [doc] that [scrape] of the HTML-scraping
    adapter goes on with: the first one for a film, the first one whose
    title parses to the requested number for a series. *)
Definition animepahe_target (metadata : Metadata) (episode : option EpisodeSelector)
           (doc target : json) : Prop :=
  match type metadata with
  | SINGLE => exists rest, data_list doc = Some (target :: rest)
  | MULTI =>
      exists before after,
        data_list doc = Some (before ++ target :: after)%list
        /\ Forall (other_episode (requested_episode episode)) before
        /\ AnimePaheScraper.parsed_number target = ret (requested_episode episode)
  end.

(** The label of an episode in a title: the ["episode"] of the element, or
    ["Episode N"] for the selector's [N]. *)
Definition episode_label (target : json) (selector : EpisodeSelector) : json :=
  match field target "episode" with
  | Some label => label
  | None => JStr ("Episode " ++ str_of_int (episode selector))
  end.

(** The descriptor with another selector in it. *)
Definition with_selector (sel : option EpisodeSelector) (d : Media) : Media :=
  match d with
  | Multi u t r _ s => Multi u t r sel s
  | Single u t r y s => Single u t r y s
  end.

(** The run with its result mapped. *)
Definition fmap {A B : Type} (f : A -> B) (m : M A) : M B :=
  (trace m, match outcome m with Ok a => Ok (f a) | Raise e => Raise e end).

(** The tracks of a sources document: none when the key is absent. *)
Definition tracks_of (doc : json) : option (list json) :=
  match field doc "data" with
  | Some data =>
      match data with
      | JDict d =>
          match dict_get d "tracks" with
          | None => Some []
          | Some (JList l) => Some l
          | Some _ => None
          end
      | _ => None
      end
  | None => None
  end.

(** What a well-formed track adds to the subtitles: its label and file when
    its kind is ["captions"], nothing otherwise. *)
Definition caption (track : json) : option (option (json * json)) :=
  match field track "kind" with
  | Some kind =>
      if str_eq "captions" kind then
        match field track "file", field track "label" with
        | Some file, Some label =>
            if hashable label then Some (Some (label, file)) else None
        | _, _ => None
        end
      else Some None
  | None => None
  end.

Definition add_caption (d : list (json * json)) (c : option (json * json))
  : list (json * json) :=
  match c with
  | Some (label, file) => dict_set d label file
  | None => d
  end.

(** The subtitles built from the captions, in their order. *)
Definition subtitles_of (captions : list (option (json * json))) : list (json * json) :=
  fold_left add_caption captions [].

End Behaviour.

(** ** More concrete upstreams *)

Module Cases.
Import Fixture Scenario.

Definition result_of (ident name : string) (count : json) : json :=
  obj [("id", JStr ident); ("name", JStr name); ("episodes", obj [("sub", count)])].

(** Three results, the second of which has no count. *)
Definition hianime_second_malformed : Runtime :=
  serve [(HiAnimeScraper.search_url ++ "?q=naruto",
          obj [("data", obj [("animes",
            JList [result_of "naruto-677" "naruto" (JInt 500);
                   obj [("id", JStr "boruto-1"); ("name", JStr "boruto")];
                   result_of "your-name-10" "Your Name" (JInt 1)])])])] [].

(** Three conforming results. *)
Definition hianime_three : Runtime :=
  serve [(HiAnimeScraper.search_url ++ "?q=naruto",
          obj [("data", obj [("animes",
            JList [result_of "naruto-677" "naruto" (JInt 500);
                   result_of "boruto-1" "boruto" (JInt 293);
                   result_of "your-name-10" "Your Name" (JInt 1)])])])] [].

Definition three_entries : list Shape.entry :=
  [Shape.mkEntry (JStr "naruto-677") (JStr "naruto") 500;
   Shape.mkEntry (JStr "boruto-1") (JStr "boruto") 293;
   Shape.mkEntry (JStr "your-name-10") (JStr "Your Name") 1].

(** A sources document with two caption tracks around a track of
    thumbnails. *)
Definition subtitled_sources : json :=
  obj [("data", obj [("sources", JList [obj [("url", JStr "https://x/vid.m3u8")];
                                       obj [("url", JStr "https://y/vid.m3u8")]]);
                     ("tracks",
                      JList [obj [("kind", JStr "captions"); ("label", JStr "English");
                                  ("file", JStr "https://x/en.vtt")];
                             obj [("kind", JStr "thumbnails");
                                  ("file", JStr "https://x/thumbs.vtt")];
                             obj [("kind", JStr "captions"); ("label", JStr "Spanish");
                                  ("file", JStr "https://x/es.vtt")]])])].

Definition hianime_subtitled : Runtime :=
  serve [naruto_listing; movie_listing;
         sources_of "def" subtitled_sources; sources_of "yn1" subtitled_sources] [].

(** A listing with a repeated number and a number written as a float. *)
Definition hianime_repeated : Runtime :=
  serve [(HiAnimeScraper.anime_url ++ "/naruto-677/episodes",
          obj [("data", obj [("episodes",
            JList [obj [("number", JInt 1); ("episodeId", JStr "abc")];
                   obj [("number", JInt 2); ("episodeId", JStr "def")];
                   obj [("number", JFloat (S754_finite false 1 0));
                        ("episodeId", JStr "abc-dub")]])])])] [].

(** The site answers with JSON that is no object: [null] for the search,
    the number 404 for the listing. *)
Definition hianime_scalars : Runtime :=
  serve [(HiAnimeScraper.search_url ++ "?q=naruto", JNull);
         (HiAnimeScraper.anime_url ++ "/naruto-677/episodes", JInt 404);
         (HiAnimeScraper.anime_url ++ "/your-name-10/episodes",
          obj [("data", obj [("episodes", JList [])])])] [].

(** Playback pages with a part missing: no anchor in the download
    container, no button in the resolution menu, no page at all. *)
Definition empty_download_div : Html.node := Html.Tag "div" [("id", "pickDownload")] [].

Definition empty_resolution_div : Html.node := Html.Tag "div" [("id", "resolutionMenu")] [].

Definition animepahe_partial : Runtime :=
  serve [pahe_listing "naruto-677"
           [obj [("session", JStr "e1"); ("episode", JStr "Episode 1")];
            obj [("session", JStr "e2"); ("episode", JStr "Episode 2")];
            obj [("session", JStr "e3"); ("episode", JStr "Episode 3")]];
         pahe_listing "your-name-10" [obj [("session", JStr "m1")]]]
        [pahe_page "naruto-677" "e1" [empty_download_div; resolution_div];
         pahe_page "naruto-677" "e2" [download_div; empty_resolution_div];
         pahe_page "your-name-10" "m1" [download_div; resolution_div]].

(** Pages for [_parse_kwik_link]: a link in the first script; an external
    script before the script with the link; no script. *)
Definition kwik_pages : Runtime :=
  serve []
    [("https://pahe.win/a",
      Html.Tag "[document]" []
        [Html.Tag "script" []
           [Html.Text "var u = 'https://kwik.si/f/Ab3_x9-z'; go(u);"]]);
     ("https://pahe.win/b",
      Html.Tag "[document]" []
        [Html.Tag "script" [("src", "/app.js")] [];
         Html.Tag "script" [] [Html.Text "var u = 'https://kwik.si/f/Ab3_x9';"]]);
     ("https://pahe.win/c",
      Html.Tag "[document]" [] [Html.Tag "p" [] [Html.Text "https://kwik.si/f/Ab3_x9"]])].

End Cases.
(** * Properties *)

(** ** Runs *)

Section RunFacts.
Context {A B : Type}.

Lemma bind_ret_l (a : A) (f : A -> M B) : bind (ret a) f = f a.
Proof. unfold bind, ret. destruct (f a). reflexivity. Qed.

Lemma bind_lift_ok (a : A) (f : A -> M B) : bind (lift (Ok a)) f = f a.
Proof. apply bind_ret_l. Qed.

Lemma bind_lift_raise (e : exn) (f : A -> M B) : bind (lift (Raise e)) f = raise e.
Proof. reflexivity. Qed.

Lemma bind_raise (e : exn) (f : A -> M B) : bind (raise e) f = raise e.
Proof. reflexivity. Qed.

Lemma bind_emit (ev : event) (f : unit -> M B) :
  bind (emit ev) f = (ev :: trace (f tt), outcome (f tt)).
Proof. unfold bind, emit, trace, outcome. destruct (f tt). reflexivity. Qed.

Lemma outcome_bind (m : M A) (f : A -> M B) :
  outcome (bind m f) =
  match outcome m with
  | Ok a => outcome (f a)
  | Raise e => Raise e
  end.
Proof.
  unfold bind. destruct m as [t [a | e]]; simpl; [| reflexivity].
  destruct (f a); reflexivity.
Qed.

Lemma trace_bind (m : M A) (f : A -> M B) :
  trace (bind m f) =
  match outcome m with
  | Ok a => (trace m ++ trace (f a))%list
  | Raise _ => trace m
  end.
Proof.
  unfold bind. destruct m as [t [a | e]]; simpl; [| reflexivity].
  destruct (f a); reflexivity.
Qed.

Lemma outcome_bind_ok (m : M A) (f : A -> M B) (b : B) :
  outcome (bind m f) = Ok b ->
  exists a, outcome m = Ok a /\ outcome (f a) = Ok b.
Proof.
  rewrite outcome_bind. destruct (outcome m) as [a | e]; [eauto | discriminate].
Qed.

Lemma bind_ok (t : list event) (a : A) (f : A -> M B) :
  bind (t, Ok a) f = ((t ++ trace (f a))%list, outcome (f a)).
Proof. unfold bind, trace, outcome. destruct (f a). reflexivity. Qed.

Lemma outcome_bind_run (t : list event) (a : A) (f : A -> M B) :
  outcome (bind (t, Ok a) f) = outcome (f a).
Proof. rewrite bind_ok. reflexivity. Qed.

Lemma trace_bind_prefix (m : M A) (f : A -> M B) :
  exists rest, trace (bind m f) = (trace m ++ rest)%list.
Proof.
  rewrite trace_bind. destruct (outcome m).
  - eexists; reflexivity.
  - exists []. symmetry. apply app_nil_r.
Qed.

End RunFacts.

Lemma run_eta {A : Type} (m : M A) : m = (trace m, outcome m).
Proof. destruct m; reflexivity. Qed.

Lemma outcome_lift {A : Type} (r : result A) : outcome (lift r) = r.
Proof. reflexivity. Qed.

Lemma outcome_ret {A : Type} (a : A) : outcome (ret a) = Ok a.
Proof. reflexivity. Qed.

Lemma requests_app (s t : list event) :
  requests (s ++ t) = (requests s ++ requests t)%list.
Proof. unfold requests. apply flat_map_app. Qed.

Lemma yielded_app (s t : list event) :
  yielded (s ++ t) = (yielded s ++ yielded t)%list.
Proof. unfold yielded. apply flat_map_app. Qed.

(** ** Values *)

Lemma gt_int_JInt (c n : Z) : gt_int (JInt c) n = Ok (n <? c).
Proof.
  unfold gt_int; simpl. rewrite !Z.mul_1_r. f_equal.
  destruct (Z.compare_spec c n), (Z.ltb_spec n c); try reflexivity; lia.
Qed.

Lemma eq_int_JInt (c n : Z) : eq_int (JInt c) n = (c =? n).
Proof.
  unfold eq_int; simpl. rewrite !Z.mul_1_r.
  destruct (Z.compare_spec c n), (Z.eqb_spec c n); try reflexivity; lia.
Qed.

Lemma dict_get_truthy (d : list (string * json)) (k : string) (v : json) :
  dict_get d k = Some v -> truthy (JDict d) = true.
Proof. destruct d; [discriminate | reflexivity]. Qed.

Lemma field_getitem (v : json) (k : string) (x : json) :
  Shape.field v k = Some x -> getitem v k = Ok x.
Proof.
  destruct v; simpl; try discriminate. intros ->. reflexivity.
Qed.

Lemma field_truthy (v : json) (k : string) (x : json) :
  Shape.field v k = Some x -> truthy v = true.
Proof.
  destruct v; simpl; try discriminate. apply dict_get_truthy.
Qed.

Lemma getitem_field (v : json) (k : string) (x : json) :
  getitem v k = Ok x -> Shape.field v k = Some x.
Proof.
  destruct v; simpl; try discriminate.
  destruct (dict_get d k); [intros [= ->]; reflexivity | discriminate].
Qed.

Lemma slice_len_nonneg (len : nat) (k : Z) :
  0 <= k -> slice_len len k = Nat.min (Z.to_nat k) len.
Proof. intros H. unfold slice_len. destruct (Z.leb_spec 0 k); [reflexivity | lia]. Qed.

Lemma firstn_min {A : Type} (n : nat) (l : list A) :
  firstn (Nat.min n (List.length l)) l = firstn n l.
Proof.
  destruct (Nat.le_ge_cases n (List.length l)) as [H | H].
  - rewrite Nat.min_l by exact H. reflexivity.
  - rewrite Nat.min_r by exact H. rewrite firstn_all.
    symmetry. apply firstn_all2. exact H.
Qed.

Lemma slice_to_list (l : list json) (k : Z) :
  0 <= k -> slice_to (JList l) k = Ok (JList (firstn (Z.to_nat k) l)).
Proof.
  intros H. unfold slice_to. rewrite slice_len_nonneg by exact H.
  rewrite firstn_min. reflexivity.
Qed.

(** ** The JSON-API adapter *)

Module HiAnimeFacts.
Import HiAnimeScraper.

Lemma request_ok (rt : Runtime) (url : string) (doc : json) :
  fetch rt url [] = inr doc -> _request rt url = ([Get url []], Ok doc).
Proof. intros H. unfold _request. rewrite H. reflexivity. Qed.

Lemma request_failed (rt : Runtime) (url msg : string) :
  fetch rt url [] = inl msg ->
  _request rt url =
  ([Get url []; Log ERROR ("Error making request to " ++ url ++ ": " ++ msg)],
   Ok (JDict [("data", JDict [])])).
Proof. intros H. unfold _request. rewrite H. reflexivity. Qed.

(** [_request] never raises, and asks for [url] once. *)
Lemma request_total (rt : Runtime) (url : string) :
  exists doc logs,
    _request rt url = (Get url [] :: logs, Ok doc) /\ requests logs = [].
Proof.
  unfold _request. destruct (fetch rt url []) as [msg | doc].
  - eexists _, _. split; reflexivity.
  - eexists _, _. split; reflexivity.
Qed.

Lemma lacks_fallback (key : string) :
  lacks (JDict [("data", JDict [])]) key = ret true.
Proof. reflexivity. Qed.

Lemma lacks_misses (doc : json) (key : string) :
  Shape.misses doc key = true -> lacks doc key = ret true.
Proof.
  destruct doc as [ | | | | | | d]; try discriminate. simpl.
  unfold lacks, orelse. rewrite !bind_ret_l.
  destruct (truthy (JDict d)); [simpl | reflexivity].
  unfold not_in, contains, getitem.
  destruct (dict_get d "data") as [[ | | | | | | d'] |]; try discriminate;
    [| reflexivity].
  simpl. destruct (dict_get d' key); [discriminate | reflexivity].
Qed.

Lemma lacks_listing (doc : json) (key : string) (l : list json) :
  Shape.listing doc key = Some l -> lacks doc key = ret false.
Proof.
  destruct doc as [ | | | | | | d]; try discriminate. simpl.
  destruct (dict_get d "data") as [[ | | | | | | d'] |] eqn:E; try discriminate.
  destruct (dict_get d' key) as [[ | | | | | l' | ] |] eqn:E'; try discriminate.
  intros _. unfold lacks, orelse. rewrite !bind_ret_l.
  rewrite (dict_get_truthy _ _ _ E). simpl.
  unfold not_in, contains, getitem. rewrite E. simpl. rewrite E'. reflexivity.
Qed.

Lemma data_of_listing (doc : json) (key : string) (l : list json) :
  Shape.listing doc key = Some l -> data_of doc key = ret (JList l).
Proof.
  destruct doc as [ | | | | | | d]; try discriminate. simpl.
  destruct (dict_get d "data") as [[ | | | | | | d'] |] eqn:E; try discriminate.
  destruct (dict_get d' key) as [[ | | | | | l' | ] |] eqn:E'; try discriminate.
  intros [= ->]. unfold data_of, getitem. rewrite E. simpl. rewrite E'. reflexivity.
Qed.

End HiAnimeFacts.

(** ** The HTML-scraping adapter *)

Module AnimePaheFacts.
Import AnimePaheScraper.

(** [_request] asks for [url] once and hands on what the collaborators
    give, exception included. *)
Lemma request_run (rt : Runtime) (url : string) :
  _request rt url = ([Get url headers], fetched (fetch rt url headers)).
Proof.
  unfold _request, http_client_get, loads, fetch.
  rewrite bind_emit.
  destruct (http_get rt url headers) as [msg | text]; [reflexivity |].
  simpl. destruct (json_loads rt text); reflexivity.
Qed.

Lemma request_decoded (rt : Runtime) (url : string) (doc : json) :
  fetch rt url headers = inr doc -> _request rt url = ([Get url headers], Ok doc).
Proof. intros H. rewrite request_run, H. reflexivity. Qed.

End AnimePaheFacts.

Module HiAnimeSteps.
Import HiAnimeScraper HiAnimeFacts.

(** Step 1 of [scrape] when the listing cannot be had: the exit of lines
    96-104, whatever the kind of the entry. *)
Lemma scrape_listing_failed (rt : Runtime) (metadata : Metadata)
      (episode : option EpisodeSelector) (msg : string) :
  fetch rt (listing_url rt metadata) [] = inl msg ->
  outcome (scrape rt metadata episode) = Ok (placeholder_single metadata).
Proof.
  intros H. unfold scrape.
  rewrite (request_failed _ _ _ H). reflexivity.
Qed.

Lemma scrape_listing_missing (rt : Runtime) (metadata : Metadata)
      (episode : option EpisodeSelector) (doc : json) :
  fetch rt (listing_url rt metadata) [] = inr doc ->
  Shape.misses doc "episodes" = true ->
  outcome (scrape rt metadata episode) = Ok (placeholder_single metadata).
Proof.
  intros H Hm. unfold scrape.
  rewrite (request_ok _ _ _ H), outcome_bind_run.
  rewrite (lacks_misses _ _ Hm). reflexivity.
Qed.

Lemma scrape_sources_missing (rt : Runtime) (metadata : Metadata)
      (episode : option EpisodeSelector) (target episode_id doc : json) :
  Shape.field target "episodeId" = Some episode_id ->
  fetch rt (sources_url rt episode_id) [] = inr doc ->
  Shape.misses doc "sources" = true ->
  outcome (scrape_sources rt metadata episode target) = Ok (placeholder metadata episode).
Proof.
  intros Ht H Hm. unfold scrape_sources.
  rewrite (field_getitem _ _ _ Ht), bind_lift_ok.
  rewrite (request_ok _ _ _ H), outcome_bind_run.
  rewrite (lacks_misses _ _ Hm), bind_ret_l. reflexivity.
Qed.

(** A sources document with an empty list passes the test of line 144,
    and [sources[0]] raises. *)
Lemma scrape_sources_empty (rt : Runtime) (metadata : Metadata)
      (episode : option EpisodeSelector) (target episode_id doc : json) :
  Shape.field target "episodeId" = Some episode_id ->
  fetch rt (sources_url rt episode_id) [] = inr doc ->
  Shape.listing doc "sources" = Some [] ->
  outcome (scrape_sources rt metadata episode target) = Raise IndexError.
Proof.
  intros Ht H Hl. unfold scrape_sources.
  rewrite (field_getitem _ _ _ Ht), bind_lift_ok.
  rewrite (request_ok _ _ _ H), outcome_bind_run.
  rewrite (lacks_listing _ _ _ Hl), bind_ret_l.
  rewrite (data_of_listing _ _ _ Hl), bind_ret_l. reflexivity.
Qed.

Lemma scrape_sources_failed (rt : Runtime) (metadata : Metadata)
      (episode : option EpisodeSelector) (target episode_id : json) (msg : string) :
  Shape.field target "episodeId" = Some episode_id ->
  fetch rt (sources_url rt episode_id) [] = inl msg ->
  outcome (scrape_sources rt metadata episode target) = Ok (placeholder metadata episode).
Proof.
  intros Ht H. unfold scrape_sources.
  rewrite (field_getitem _ _ _ Ht), bind_lift_ok.
  rewrite (request_failed _ _ _ H). reflexivity.
Qed.

End HiAnimeSteps.


(** ** Search *)

Module SearchFacts.
Import Shape.

Lemma yielded_map_Yield (l : list Metadata) : yielded (map Yield l) = l.
Proof. induction l as [| m l IH]; simpl; [| rewrite IH]; reflexivity. Qed.

Lemma query_given (q : string) : q <> "" -> negb (truthy (JStr q)) = false.
Proof.
  intros H. simpl. destruct (String.eqb_spec q ""); [contradiction | reflexivity].
Qed.

Lemma hianime_item (a : json) (e : entry) :
  hianime_entry a = Some e ->
  HiAnimeScraper.search_item a = ([Yield (metadata_of e)], Ok tt).
Proof.
  unfold hianime_entry, HiAnimeScraper.search_item.
  destruct (field a "id") as [i |] eqn:Ei; [| discriminate].
  destruct (field a "name") as [t |] eqn:Et; [| discriminate].
  destruct (field a "episodes") as [eps |] eqn:Ee; [| discriminate].
  destruct (field eps "sub") as [[ | | c | | | | ] |] eqn:Es; try discriminate.
  intros [= <-].
  rewrite (field_getitem _ _ _ Ei), bind_lift_ok.
  rewrite (field_getitem _ _ _ Et), bind_lift_ok.
  rewrite (field_getitem _ _ _ Ee), bind_lift_ok.
  rewrite (field_getitem _ _ _ Es), bind_lift_ok.
  rewrite gt_int_JInt, bind_lift_ok. reflexivity.
Qed.

Lemma animepahe_item (a : json) (e : entry) :
  animepahe_entry a = Some e ->
  AnimePaheScraper.search_item a = ([Yield (metadata_of e)], Ok tt).
Proof.
  unfold animepahe_entry, AnimePaheScraper.search_item.
  destruct (field a "session") as [i |] eqn:Ei; [| discriminate].
  destruct (field a "title") as [t |] eqn:Et; [| discriminate].
  destruct (field a "episodes") as [[ | | c | | | | ] |] eqn:Ee; try discriminate.
  intros [= <-].
  rewrite (field_getitem _ _ _ Ei), bind_lift_ok.
  rewrite (field_getitem _ _ _ Et), bind_lift_ok.
  rewrite (field_getitem _ _ _ Ee), bind_lift_ok.
  rewrite gt_int_JInt, bind_lift_ok. reflexivity.
Qed.

(** A loop whose every turn yields one entry yields them in order. *)
Lemma for_each_yield (decode : json -> option entry) (body : json -> M unit) :
  (forall a e, decode a = Some e -> body a = ([Yield (metadata_of e)], Ok tt)) ->
  forall items entries,
    map decode items = map Some entries ->
    for_each items body = (map Yield (map metadata_of entries), Ok tt).
Proof.
  intros Hbody. induction items as [| a items IH]; intros [| e entries] H;
    try discriminate; [reflexivity |].
  injection H as Ha Hrest. simpl.
  rewrite (Hbody _ _ Ha), bind_ok, (IH _ Hrest). reflexivity.
Qed.

Lemma map_firstn_decode {A B : Type} (f : A -> B) (g : entry -> B)
      (items : list A) (entries : list entry) (n : nat) :
  map f items = map g entries ->
  map f (firstn n items) = map g (firstn n entries).
Proof. intros H. rewrite <- !firstn_map, H. reflexivity. Qed.

(** What the slice and the loop of [search] do with a list of conforming
    results. *)
Lemma limited_loop (decode : json -> option entry) (body : json -> M unit)
      (limit : option Z) (items : list json) (entries : list entry) :
  (forall a e, decode a = Some e -> body a = ([Yield (metadata_of e)], Ok tt)) ->
  match limit with Some k => 0 <= k | None => True end ->
  map decode items = map Some entries ->
  (animes <- match limit with
             | Some k => lift (slice_to (JList items) k)
             | None => ret (JList items)
             end ;;
   items' <- iter animes ;;
   for_each items' body)
  = (map Yield (map metadata_of (truncate limit entries)), Ok tt).
Proof.
  intros Hbody Hk H. destruct limit as [k |]; simpl truncate.
  - rewrite (slice_to_list _ _ Hk), bind_lift_ok. simpl iter. rewrite bind_lift_ok.
    apply (for_each_yield decode body Hbody). apply map_firstn_decode, H.
  - rewrite bind_ret_l. simpl iter. rewrite bind_lift_ok.
    apply (for_each_yield decode body Hbody), H.
Qed.

Lemma hianime_search (rt : Runtime) (q : string) (limit : option Z)
      (doc : json) (animes : list json) (entries : list entry) :
  q <> "" ->
  match limit with Some k => 0 <= k | None => True end ->
  fetch rt (HiAnimeScraper.search_url ++ "?q=" ++ quote_plus q) [] = inr doc ->
  listing doc "animes" = Some animes ->
  map hianime_entry animes = map Some entries ->
  HiAnimeScraper.search rt q limit
  = (Get (HiAnimeScraper.search_url ++ "?q=" ++ quote_plus q) []
       :: map Yield (map metadata_of (truncate limit entries)), Ok tt).
Proof.
  intros Hq Hk Hf Hl He. unfold HiAnimeScraper.search.
  rewrite (query_given _ Hq), (HiAnimeFacts.request_ok _ _ _ Hf), bind_ok.
  rewrite (HiAnimeFacts.lacks_listing _ _ _ Hl), bind_ret_l.
  rewrite (HiAnimeFacts.data_of_listing _ _ _ Hl), bind_ret_l.
  rewrite (limited_loop hianime_entry _ limit animes entries hianime_item Hk He).
  reflexivity.
Qed.

Lemma data_list_get (doc : json) (l : list json) :
  data_list doc = Some l -> dict_get_default doc "data" (JList []) = Ok (JList l).
Proof.
  destruct doc as [ | | | | | | d]; try discriminate. simpl.
  destruct (dict_get d "data") as [[ | | | | | l' | ] |]; try discriminate.
  intros [= ->]. reflexivity.
Qed.

Lemma no_data_get (doc : json) :
  no_data doc = true -> dict_get_default doc "data" (JList []) = Ok (JList []).
Proof.
  destruct doc as [ | | | | | | d]; try discriminate. simpl.
  destruct (dict_get d "data"); [discriminate | reflexivity].
Qed.

Lemma animepahe_search (rt : Runtime) (q : string) (limit : option Z)
      (doc : json) (animes : list json) (entries : list entry) :
  match limit with Some k => 0 <= k | None => True end ->
  fetch rt (AnimePaheScraper.search_url ++ quote_plus q) AnimePaheScraper.headers = inr doc ->
  data_list doc = Some animes ->
  map animepahe_entry animes = map Some entries ->
  AnimePaheScraper.search rt q limit
  = (Get (AnimePaheScraper.search_url ++ quote_plus q) AnimePaheScraper.headers
       :: map Yield (map metadata_of (truncate limit entries)), Ok tt).
Proof.
  intros Hk Hf Hl He. unfold AnimePaheScraper.search.
  rewrite (AnimePaheFacts.request_decoded _ _ _ Hf), bind_ok.
  rewrite (data_list_get _ _ Hl), bind_lift_ok.
  rewrite (limited_loop animepahe_entry _ limit animes entries animepahe_item Hk He).
  reflexivity.
Qed.

Lemma metadata_of_spec (e : entry) :
  id (metadata_of e) = entry_id e /\ title (metadata_of e) = entry_title e
  /\ (type (metadata_of e) = MULTI <-> 1 < entry_count e).
Proof.
  unfold metadata_of; simpl. repeat split.
  - destruct (Z.ltb_spec 1 (entry_count e)); [trivial | discriminate].
  - intros H. destruct (Z.ltb_spec 1 (entry_count e)); [reflexivity | lia].
Qed.

Lemma stands_for_all (entries : list entry) :
  Forall2 stands_for (map metadata_of entries) entries.
Proof.
  induction entries as [| e entries IH]; constructor; [apply metadata_of_spec | exact IH].
Qed.

End SearchFacts.

(** ** Episode mappings *)

Module EpisodeFacts.
Import Shape.

Lemma dict_set_nonempty {V : Type} (d : list (json * V)) (k : json) (v : V) :
  dict_set d k v <> [].
Proof. destruct d as [| [k' v'] d]; simpl; [| destruct (key_eq k' k)]; discriminate. Qed.

Lemma number_map_from (numbers : list json) (s : list (json * Z)) :
  s <> [] -> fold_left (fun d n => dict_set d n 1) numbers s <> [].
Proof.
  revert s. induction numbers as [| n numbers IH]; intros s Hs; simpl; [exact Hs |].
  apply IH, dict_set_nonempty.
Qed.

Lemma number_map_nonempty (numbers : list json) :
  numbers <> [] -> number_map numbers <> [].
Proof.
  destruct numbers as [| n numbers]; [contradiction |]. intros _.
  unfold number_map. simpl. apply number_map_from. discriminate.
Qed.

Lemma dict_set_values (d : list (json * Z)) (k : json) :
  Forall (fun kv => snd kv = 1) d -> Forall (fun kv => snd kv = 1) (dict_set d k 1).
Proof.
  induction 1 as [| [k' v'] d Hv Hd IH]; simpl.
  - repeat constructor.
  - destruct (key_eq k' k); constructor; auto.
Qed.

Lemma number_map_values (numbers : list json) :
  Forall (fun kv => snd kv = 1) (number_map numbers).
Proof.
  unfold number_map.
  assert (H : Forall (fun kv : json * Z => snd kv = 1) []) by constructor.
  revert H. generalize (@nil (json * Z)).
  induction numbers as [| n numbers IH]; intros s Hs; simpl; [exact Hs |].
  apply IH, dict_set_values, Hs.
Qed.

(** *** The JSON-API adapter *)


(** A loop that ran over a non-empty iterable and got something out of
    every item, where a string gives nothing, ran over a list. *)
Lemma iter_of_objects {N : Type} (R : json -> N -> Prop) (v : json)
      (items : list json) (numbers : list N) :
  (forall s n, ~ R (JStr s) n) ->
  iter v = Ok items ->
  Forall2 R items numbers ->
  numbers <> [] ->
  v = JList items.
Proof.
  intros Hstr Hv Hall Hne.
  destruct Hall as [| ep n items numbers Hep Hall]; [contradiction |].
  destruct v; simpl in Hv; try discriminate.
  - destruct s as [| c s]; [discriminate |]. injection Hv as <- _.
    exfalso. exact (Hstr _ _ Hep).
  - injection Hv as ->. reflexivity.
  - destruct d as [| kv d]; [discriminate |]. injection Hv as <- _.
    exfalso. exact (Hstr _ _ Hep).
Qed.


Lemma data_of_inv (doc : json) (key : string) (l : list json) :
  outcome (HiAnimeScraper.data_of doc key) = Ok (JList l) -> listing doc key = Some l.
Proof.
  unfold HiAnimeScraper.data_of. intros H.
  apply outcome_bind_ok in H as (data & Hd & H). rewrite outcome_lift in Hd, H.
  apply getitem_field in Hd, H.
  destruct doc; simpl in Hd; try discriminate. simpl. rewrite Hd.
  destruct data; simpl in H; try discriminate. rewrite H. reflexivity.
Qed.


Lemma hianime_fallback (rt : Runtime) (metadata : Metadata) :
  (forall msg,
     fetch rt (HiAnimeScraper.listing_url rt metadata) [] = inl msg ->
     outcome (HiAnimeScraper.scrape_episodes rt metadata) = Ok HiAnimeScraper.sentinel)
  /\ (forall doc,
     fetch rt (HiAnimeScraper.listing_url rt metadata) [] = inr doc ->
     misses doc "episodes" = true \/ listing doc "episodes" = Some [] ->
     outcome (HiAnimeScraper.scrape_episodes rt metadata) = Ok HiAnimeScraper.sentinel).
Proof.
  split.
  - intros msg Hf. unfold HiAnimeScraper.scrape_episodes.
    rewrite (HiAnimeFacts.request_failed _ _ _ Hf). reflexivity.
  - intros doc Hf [Hm | Hl]; unfold HiAnimeScraper.scrape_episodes;
      rewrite (HiAnimeFacts.request_ok _ _ _ Hf), outcome_bind_run.
    + rewrite (HiAnimeFacts.lacks_misses _ _ Hm). reflexivity.
    + rewrite (HiAnimeFacts.lacks_listing _ _ _ Hl), bind_ret_l.
      rewrite (HiAnimeFacts.data_of_listing _ _ _ Hl). reflexivity.
Qed.

(** *** The HTML-scraping adapter *)

Lemma parsed_number_pure (ep : json) :
  AnimePaheScraper.parsed_number ep = lift (outcome (AnimePaheScraper.parsed_number ep)).
Proof.
  unfold AnimePaheScraper.parsed_number.
  destruct (dict_get_default ep "episode" (JStr "Episode 1")) as [label | e];
    [rewrite bind_lift_ok | reflexivity].
  reflexivity.
Qed.

Lemma parsed_number_ok (ep : json) (n : Z) :
  outcome (AnimePaheScraper.parsed_number ep) = Ok n ->
  AnimePaheScraper.parsed_number ep = ret n.
Proof. intros H. rewrite parsed_number_pure, H. reflexivity. Qed.

Lemma parsed_number_string (s : string) (n : Z) :
  AnimePaheScraper.parsed_number (JStr s) <> ret n.
Proof. discriminate. Qed.

Lemma add_episode_run (m : list (json * Z)) (ep : json) (n : Z) :
  AnimePaheScraper.parsed_number ep = ret n ->
  one_key m ->
  AnimePaheScraper.add_episode m ep = ret [(JInt 1, n)].
Proof.
  intros Hn Hm. unfold AnimePaheScraper.add_episode. rewrite Hn, bind_ret_l.
  destruct Hm as [-> | [x ->]]; reflexivity.
Qed.

Lemma animepahe_loop (items : list json) (numbers : list Z) :
  Forall2 (fun ep n => AnimePaheScraper.parsed_number ep = ret n) items numbers ->
  forall s, one_key s ->
    for_fold items s AnimePaheScraper.add_episode = ret (after_loop s numbers).
Proof.
  induction 1 as [| ep n items numbers Hn Hall IH]; intros s Hs; [reflexivity |].
  simpl for_fold. rewrite (add_episode_run _ _ _ Hn Hs), bind_ret_l.
  rewrite IH by (right; eexists; reflexivity).
  destruct numbers; reflexivity.
Qed.

Lemma animepahe_loop_inv (items : list json) :
  forall s m,
    outcome (for_fold items s AnimePaheScraper.add_episode) = Ok m ->
    exists numbers,
      Forall2 (fun ep n => AnimePaheScraper.parsed_number ep = ret n) items numbers.
Proof.
  induction items as [| ep items IH]; intros s m H; simpl in H.
  - exists []. constructor.
  - apply outcome_bind_ok in H as (s' & Hs' & H).
    unfold AnimePaheScraper.add_episode in Hs'.
    apply outcome_bind_ok in Hs' as (n & Hn & _).
    destruct (IH _ _ H) as (numbers & Hall).
    exists (n :: numbers). constructor; [apply parsed_number_ok, Hn | exact Hall].
Qed.

Lemma data_list_of_get (doc : json) (items : list json) :
  dict_get_default doc "data" (JList []) = Ok (JList items) ->
  items <> [] ->
  data_list doc = Some items.
Proof.
  destruct doc as [ | | | | | | d]; try discriminate. simpl.
  destruct (dict_get d "data") as [v |].
  - intros [= ->] _. reflexivity.
  - intros [= <-] H. contradiction.
Qed.

Lemma animepahe_returns (rt : Runtime) (metadata : Metadata) (m : list (json * Z)) :
  outcome (AnimePaheScraper.scrape_episodes rt metadata) = Ok m ->
  m = AnimePaheScraper.sentinel \/ animepahe_populated rt metadata m.
Proof.
  unfold AnimePaheScraper.scrape_episodes. rewrite AnimePaheFacts.request_run.
  destruct (fetch rt (AnimePaheScraper.listing_url rt metadata) AnimePaheScraper.headers)
    as [msg | doc] eqn:Hf; [discriminate |].
  simpl fetched. rewrite outcome_bind_run. intros H.
  apply outcome_bind_ok in H as (episodes & He & H). rewrite outcome_lift in He.
  apply outcome_bind_ok in H as (items & Hi & H). rewrite outcome_lift in Hi.
  apply outcome_bind_ok in H as (episode_map & Hloop & H).
  destruct (animepahe_loop_inv _ _ _ Hloop) as (numbers & Hall).
  rewrite (animepahe_loop _ _ Hall [] (or_introl eq_refl)) in Hloop.
  injection Hloop as <-.
  destruct numbers as [| n numbers].
  - injection H as <-. left; reflexivity.
  - assert (Hne : n :: numbers <> []) by discriminate.
    assert (episodes = JList items) as ->
      by exact (iter_of_objects _ _ _ _ parsed_number_string Hi Hall Hne).
    assert (Hitems : items <> []) by (inversion Hall; discriminate).
    injection H as <-. right. exists doc, items, (n :: numbers).
    repeat split; auto using data_list_of_get.
Qed.

Lemma animepahe_fallback (rt : Runtime) (metadata : Metadata) (doc : json) :
  fetch rt (AnimePaheScraper.listing_url rt metadata) AnimePaheScraper.headers = inr doc ->
  no_data doc = true \/ data_list doc = Some [] ->
  outcome (AnimePaheScraper.scrape_episodes rt metadata) = Ok AnimePaheScraper.sentinel.
Proof.
  intros Hf H. unfold AnimePaheScraper.scrape_episodes.
  rewrite (AnimePaheFacts.request_decoded _ _ _ Hf), outcome_bind_run.
  assert (Hd : dict_get_default doc "data" (JList []) = Ok (JList [])).
  { destruct H as [H | H]; [apply SearchFacts.no_data_get | apply SearchFacts.data_list_get];
      exact H. }
  rewrite Hd. reflexivity.
Qed.

Lemma animepahe_populates (rt : Runtime) (metadata : Metadata) (doc : json)
      (items : list json) (numbers : list Z) :
  fetch rt (AnimePaheScraper.listing_url rt metadata) AnimePaheScraper.headers = inr doc ->
  data_list doc = Some items ->
  Forall2 (fun ep n => AnimePaheScraper.parsed_number ep = ret n) items numbers ->
  numbers <> [] ->
  outcome (AnimePaheScraper.scrape_episodes rt metadata) = Ok [(JInt 1, last numbers 0)].
Proof.
  intros Hf Hd Hall Hne. unfold AnimePaheScraper.scrape_episodes.
  rewrite (AnimePaheFacts.request_decoded _ _ _ Hf), outcome_bind_run.
  rewrite (SearchFacts.data_list_get _ _ Hd), bind_lift_ok.
  simpl iter. rewrite bind_lift_ok.
  rewrite (animepahe_loop _ _ Hall [] (or_introl eq_refl)), bind_ret_l.
  destruct numbers; [contradiction | reflexivity].
Qed.

End EpisodeFacts.

(** ** Dictionaries keyed by numbers *)

Module DictFacts.

Lemma num_cmp_refl (a : num) : a <> NNan -> num_cmp a a = Some Eq.
Proof.
  destruct a as [m e | s |]; intros H; simpl.
  - rewrite Z.compare_refl. reflexivity.
  - rewrite Bool.eqb_reflx. reflexivity.
  - contradiction.
Qed.

(** A key is equal to itself. *)
Lemma key_eq_refl (k : json) : hashable k = true -> key_eq k k = true.
Proof.
  destruct k as [ | b | z | f | s | l | d]; try discriminate; intros _.
  - reflexivity.
  - destruct b; reflexivity.
  - change (key_eq (JInt z) (JInt z))
      with (match num_cmp (NFin z 0) (NFin z 0) with Some Eq => true | _ => false end).
    rewrite num_cmp_refl by discriminate. reflexivity.
  - destruct f as [s | s | | s m e]; try reflexivity.
    + destruct s; reflexivity.
    + change (key_eq (JFloat (S754_finite s m e)) (JFloat (S754_finite s m e)))
        with (match num_cmp (NFin (if s then Z.neg m else Z.pos m) e)
                            (NFin (if s then Z.neg m else Z.pos m) e)
              with Some Eq => true | _ => false end).
      rewrite num_cmp_refl by discriminate. reflexivity.
  - simpl. apply String.eqb_refl.
Qed.

(** What was stored under a key is found under it. *)
Lemma lookup_set_same {V : Type} (d : list (json * V)) (k : json) (v : V) :
  key_eq k k = true -> dict_lookup (dict_set d k v) k = Some v.
Proof.
  intros Hk. induction d as [| [k' v'] d IH]; simpl.
  - rewrite Hk. reflexivity.
  - destruct (key_eq k' k) eqn:E; simpl; rewrite E; [reflexivity | exact IH].
Qed.

(** Storing 1 under a key keeps the keys that hold 1. *)
Lemma lookup_set_keeps (d : list (json * Z)) (k n : json) :
  dict_lookup d n = Some 1 -> dict_lookup (dict_set d k 1) n = Some 1.
Proof.
  induction d as [| [k' v'] d IH]; simpl; [discriminate |].
  destruct (key_eq k' k); simpl; destruct (key_eq k' n); auto.
Qed.

Lemma lookup_number_from (numbers : list json) (n : json) :
  hashable n = true ->
  forall s,
    In n numbers \/ dict_lookup s n = Some 1 ->
    dict_lookup (fold_left (fun d x => dict_set d x 1) numbers s) n = Some 1.
Proof.
  intros Hn. induction numbers as [| x numbers IH]; intros s H; simpl.
  - destruct H as [[] | H]; exact H.
  - apply IH. destruct H as [[-> | H] | H].
    + right. apply lookup_set_same, key_eq_refl, Hn.
    + left; exact H.
    + right. apply lookup_set_keeps, H.
Qed.

Lemma dict_set_length {V : Type} (d : list (json * V)) (k : json) (v : V) :
  (List.length (dict_set d k v) <= S (List.length d))%nat.
Proof.
  induction d as [| [k' v'] d IH]; simpl; [lia |].
  destruct (key_eq k' k); simpl; lia.
Qed.

Lemma number_map_length_from (numbers : list json) :
  forall s : list (json * Z),
    (List.length (fold_left (fun d x => dict_set d x 1%Z) numbers s)
     <= List.length s + List.length numbers)%nat.
Proof.
  induction numbers as [| x numbers IH]; intros s; simpl; [lia |].
  specialize (IH (dict_set s x 1)). pose proof (dict_set_length s x 1). lia.
Qed.

(** The loop of [scrape_episodes] over items that have hashable numbers. *)
Lemma hianime_loop (items numbers : list json) :
  Forall2 (fun ep n => Shape.field ep "number" = Some n) items numbers ->
  forallb hashable numbers = true ->
  forall s,
    for_fold items s HiAnimeScraper.add_number
    = ret (fold_left (fun d x => dict_set d x 1) numbers s).
Proof.
  induction 1 as [| ep n items numbers Hn Hall IH]; intros Hh s; [reflexivity |].
  simpl in Hh. apply andb_prop in Hh as [Hhn Hh].
  simpl for_fold. unfold HiAnimeScraper.add_number at 1.
  rewrite (field_getitem _ _ _ Hn), bind_lift_ok.
  unfold setitem. rewrite Hhn, bind_lift_ok. apply IH, Hh.
Qed.

End DictFacts.

(** ** Series entries *)

Module SeriesFacts.
Import Shape.

Lemma hianime_find_step (ep : json) (items : list json) (episode_num : Z) :
  HiAnimeScraper.find_episode (ep :: items) episode_num
  = (n <- getitem ep "number" ;;
     if eq_int n episode_num then ret ep
     else HiAnimeScraper.find_episode items episode_num).
Proof. reflexivity. Qed.

(** The loop stops at the first element that has the requested number. *)
Lemma hianime_find_first (before after : list json) (target v : json) (n : Z) :
  Forall (other_number n) before ->
  field target "number" = Some v ->
  eq_int v n = true ->
  HiAnimeScraper.find_episode (before ++ target :: after)%list n = ret target.
Proof.
  intros Hb Ht Hv. induction Hb as [| ep before (w & Hw & Hne) Hb IH].
  - simpl app. rewrite hianime_find_step, (field_getitem _ _ _ Ht), bind_lift_ok, Hv.
    reflexivity.
  - rewrite <- app_comm_cons, hianime_find_step.
    rewrite (field_getitem _ _ _ Hw), bind_lift_ok, Hne. exact IH.
Qed.

Lemma hianime_find_none (items : list json) (n : Z) :
  Forall (other_number n) items ->
  HiAnimeScraper.find_episode items n = ret JNull.
Proof.
  induction 1 as [| ep items (w & Hw & Hne) Hall IH]; [reflexivity |].
  rewrite hianime_find_step, (field_getitem _ _ _ Hw), bind_lift_ok, Hne. exact IH.
Qed.

(** For a series the JSON-API adapter goes on with the first element of the
    listing that has the requested number. *)
Lemma hianime_scrape_series_found (rt : Runtime) (metadata : Metadata)
      (episode : option EpisodeSelector) (doc target v : json)
      (before after : list json) :
  type metadata = MULTI ->
  fetch rt (HiAnimeScraper.listing_url rt metadata) [] = inr doc ->
  listing doc "episodes" = Some (before ++ target :: after)%list ->
  Forall (other_number (requested_episode episode)) before ->
  field target "number" = Some v ->
  eq_int v (requested_episode episode) = true ->
  HiAnimeScraper.scrape rt metadata episode
  = (Get (HiAnimeScraper.listing_url rt metadata) []
       :: trace (HiAnimeScraper.scrape_sources rt metadata episode target),
     outcome (HiAnimeScraper.scrape_sources rt metadata episode target)).
Proof.
  intros Hty Hf Hl Hb Ht Hv. unfold HiAnimeScraper.scrape.
  rewrite (HiAnimeFacts.request_ok _ _ _ Hf), bind_ok.
  rewrite (HiAnimeFacts.lacks_listing _ _ _ Hl), bind_ret_l.
  rewrite (HiAnimeFacts.data_of_listing _ _ _ Hl), bind_ret_l.
  rewrite Hty. simpl is_multi. cbv iota. simpl iter. rewrite bind_lift_ok.
  rewrite (hianime_find_first _ _ _ _ _ Hb Ht Hv), bind_ret_l.
  rewrite (field_truthy _ _ _ Ht). reflexivity.
Qed.

(** Without such an element it returns the [Multi] placeholder. *)
Lemma hianime_scrape_series_absent (rt : Runtime) (metadata : Metadata)
      (episode : option EpisodeSelector) (doc : json) (items : list json) :
  type metadata = MULTI ->
  fetch rt (HiAnimeScraper.listing_url rt metadata) [] = inr doc ->
  listing doc "episodes" = Some items ->
  Forall (other_number (requested_episode episode)) items ->
  outcome (HiAnimeScraper.scrape rt metadata episode)
  = Ok (HiAnimeScraper.placeholder_multi metadata episode).
Proof.
  intros Hty Hf Hl Hall. unfold HiAnimeScraper.scrape.
  rewrite (HiAnimeFacts.request_ok _ _ _ Hf), outcome_bind_run.
  rewrite (HiAnimeFacts.lacks_listing _ _ _ Hl), bind_ret_l.
  rewrite (HiAnimeFacts.data_of_listing _ _ _ Hl), bind_ret_l.
  rewrite Hty. simpl is_multi. cbv iota. simpl iter. rewrite bind_lift_ok.
  rewrite (hianime_find_none _ _ Hall), bind_ret_l. reflexivity.
Qed.

Lemma animepahe_find_step (ep : json) (items : list json) (episode_num : Z) :
  AnimePaheScraper.find_episode (ep :: items) episode_num
  = (ep_num <- AnimePaheScraper.parsed_number ep ;;
     if ep_num =? episode_num then ret ep
     else AnimePaheScraper.find_episode items episode_num).
Proof. reflexivity. Qed.

Lemma animepahe_find_first (before after : list json) (target : json) (n : Z) :
  Forall (other_episode n) before ->
  AnimePaheScraper.parsed_number target = ret n ->
  AnimePaheScraper.find_episode (before ++ target :: after)%list n = ret target.
Proof.
  intros Hb Ht. induction Hb as [| ep before (k & Hk & Hne) Hb IH].
  - simpl app. rewrite animepahe_find_step, Ht, bind_ret_l, Z.eqb_refl. reflexivity.
  - rewrite <- app_comm_cons, animepahe_find_step, Hk, bind_ret_l.
    destruct (Z.eqb_spec k n); [contradiction | exact IH].
Qed.

Lemma animepahe_find_none (items : list json) (n : Z) :
  Forall (other_episode n) items ->
  AnimePaheScraper.find_episode items n = ret JNull.
Proof.
  induction 1 as [| ep items (k & Hk & Hne) Hall IH]; [reflexivity |].
  rewrite animepahe_find_step, Hk, bind_ret_l.
  destruct (Z.eqb_spec k n); [contradiction | exact IH].
Qed.

(** For a series the HTML-scraping adapter goes on with the first element
    of the listing whose title parses to the requested number. *)
Lemma animepahe_scrape_series_found (rt : Runtime) (metadata : Metadata)
      (episode : option EpisodeSelector) (doc target : json)
      (before after : list json) :
  type metadata = MULTI ->
  fetch rt (AnimePaheScraper.listing_url rt metadata) AnimePaheScraper.headers = inr doc ->
  data_list doc = Some (before ++ target :: after)%list ->
  Forall (other_episode (requested_episode episode)) before ->
  AnimePaheScraper.parsed_number target = ret (requested_episode episode) ->
  truthy target = true ->
  AnimePaheScraper.scrape rt metadata episode
  = (Get (AnimePaheScraper.listing_url rt metadata) AnimePaheScraper.headers
       :: trace (AnimePaheScraper.scrape_page rt metadata episode target),
     outcome (AnimePaheScraper.scrape_page rt metadata episode target)).
Proof.
  intros Hty Hf Hl Hb Ht Htrue. unfold AnimePaheScraper.scrape.
  rewrite (AnimePaheFacts.request_decoded _ _ _ Hf), bind_ok.
  rewrite (SearchFacts.data_list_get _ _ Hl), bind_lift_ok.
  rewrite Hty. simpl is_multi. cbv iota. simpl iter. rewrite bind_lift_ok.
  rewrite (animepahe_find_first _ _ _ _ Hb Ht), bind_ret_l, Htrue. reflexivity.
Qed.

(** Without such an element, and with a selector, it raises the error
    "not found". *)
Lemma animepahe_scrape_series_absent (rt : Runtime) (metadata : Metadata)
      (selector : EpisodeSelector) (doc : json) (items : list json) :
  type metadata = MULTI ->
  fetch rt (AnimePaheScraper.listing_url rt metadata) AnimePaheScraper.headers = inr doc ->
  data_list doc = Some items ->
  Forall (other_episode (requested_episode (Some selector))) items ->
  outcome (AnimePaheScraper.scrape rt metadata (Some selector))
  = Raise (ValueError ("Episode " ++ str_of_int (episode selector) ++ " not found")).
Proof.
  intros Hty Hf Hl Hall. unfold AnimePaheScraper.scrape.
  rewrite (AnimePaheFacts.request_decoded _ _ _ Hf), outcome_bind_run.
  rewrite (SearchFacts.data_list_get _ _ Hl), bind_lift_ok.
  rewrite Hty. simpl is_multi. cbv iota. simpl iter. rewrite bind_lift_ok.
  rewrite (animepahe_find_none _ _ Hall), bind_ret_l. reflexivity.
Qed.

(** Without a selector the message of that error cannot be built. *)
Lemma animepahe_scrape_series_absent_no_selector (rt : Runtime) (metadata : Metadata)
      (doc : json) (items : list json) :
  type metadata = MULTI ->
  fetch rt (AnimePaheScraper.listing_url rt metadata) AnimePaheScraper.headers = inr doc ->
  data_list doc = Some items ->
  Forall (other_episode 1) items ->
  outcome (AnimePaheScraper.scrape rt metadata None) = Raise AttributeError.
Proof.
  intros Hty Hf Hl Hall. unfold AnimePaheScraper.scrape.
  rewrite (AnimePaheFacts.request_decoded _ _ _ Hf), outcome_bind_run.
  rewrite (SearchFacts.data_list_get _ _ Hl), bind_lift_ok.
  rewrite Hty. simpl is_multi. cbv iota. simpl iter. rewrite bind_lift_ok.
  change (requested_episode None) with 1.
  rewrite (animepahe_find_none _ _ Hall), bind_ret_l. reflexivity.
Qed.

End SeriesFacts.
(** ** Failure exits of the JSON-API adapter *)

Section Claims_failure_exits.
Import Fixture Scenario.

(** Claim C1, at a series whose listing cannot be fetched.  The exit of
    lines 96-104 builds a [Single] for every entry: for the [MULTI] entry
    [naruto] asked for episode 3 the result is a [Single] placeholder, with
    the empty URL and the title of the entry, and the selector is not part
    of it. *)
Theorem scrape_unavailable_listing_of_series :
  type naruto = MULTI
  /\ outcome (HiAnimeScraper.scrape down naruto (ep 3))
     = Ok (Single (JStr "") (title naruto) (Given "") (Given JNull) Omitted)
  /\ is_Multi (Single (JStr "") (title naruto) (Given "") (Given JNull) Omitted) = false.
Proof. repeat split. Qed.

(** Claim C2, at a sources document whose list of sources is empty:
    [sources[0]] raises [IndexError] and the exception leaves [scrape]. *)
Theorem scrape_empty_sources_raises :
  HiAnimeScraper.scrape hianime_empty_sources naruto (ep 1)
  = ([Get (HiAnimeScraper.anime_url ++ "/naruto-677/episodes") [];
      Get (HiAnimeScraper.episode_url ++ "?animeEpisodeId=abc") []],
     Raise IndexError).
Proof. vm_compute. reflexivity. Qed.

(** Claim C3, at a series, no selector and a listing without episode 1 for
    the HTML-scraping adapter: the message of the error is built from
    [episode.episode], and the run ends with [AttributeError] where the
    error ["Episode 1 not found"] was due. *)
Theorem scrape_not_found_without_selector :
  outcome (AnimePaheScraper.scrape animepahe naruto None) = Raise AttributeError
  /\ outcome (AnimePaheScraper.scrape animepahe naruto (ep 1))
     = Raise (ValueError "Episode 1 not found")
  /\ requested_episode None = 1.
Proof. repeat split; vm_compute; reflexivity. Qed.

End Claims_failure_exits.

(** ** The empty query *)

Section Claims_empty_query.
Import Fixture Scenario.

(** Claim C4 does not hold of the HTML-scraping adapter: on the empty query
    it sends the search request and yields what the site answers. *)
Lemma animepahe_search_empty_query_asks_upstream :
  yielded (trace (AnimePaheScraper.search animepahe "" None))
  = [mkMetadata (JStr "naruto-677") (JStr "naruto") MULTI JNull]
  /\ requests (trace (AnimePaheScraper.search animepahe "" None))
     = [AnimePaheScraper.search_url].
Proof. split; vm_compute; reflexivity. Qed.

(** Claim C4, amended: on the empty query the JSON-API adapter logs an error
    and ends the iteration, with no entry and no request; the HTML-scraping
    adapter starts with the search request. *)
Theorem search_empty_query (rt : Runtime) (limit : option Z) :
  HiAnimeScraper.search rt "" limit = ([Log ERROR "No search query provided"], Ok tt)
  /\ yielded (trace (HiAnimeScraper.search rt "" limit)) = []
  /\ requests (trace (HiAnimeScraper.search rt "" limit)) = []
  /\ exists rest,
       trace (AnimePaheScraper.search rt "" limit)
       = Get AnimePaheScraper.search_url AnimePaheScraper.headers :: rest.
Proof.
  repeat split.
  unfold AnimePaheScraper.search. change (quote_plus "") with "".
  replace (AnimePaheScraper.search_url ++ "") with AnimePaheScraper.search_url
    by reflexivity.
  rewrite AnimePaheFacts.request_run.
  match goal with
  | |- exists rest, trace (bind ?m ?f) = _ =>
      destruct (trace_bind_prefix m f) as [rest Hrest]
  end.
  exists rest. exact Hrest.
Qed.

End Claims_empty_query.

(** ** Schema mismatches *)

Section Claims_schema.
Import Shape Fixture Scenario.

(** Claim C5 does not hold: a search result without its ["id"] ends the
    search of the JSON-API adapter with [KeyError]; an episode title that is
    not of the form ["Episode N"] ends [scrape_episodes] of the HTML-scraping
    adapter with [AttributeError]; and so does a playback page without the
    download container in its [scrape]. *)
Lemma schema_mismatch_escapes :
  outcome (HiAnimeScraper.search hianime_entry_without_id "naruto" None) = Raise KeyError
  /\ outcome (AnimePaheScraper.scrape_episodes animepahe_special naruto)
     = Raise AttributeError
  /\ outcome (AnimePaheScraper.scrape animepahe_no_container naruto (ep 2))
     = Raise AttributeError.
Proof. repeat split; vm_compute; reflexivity. Qed.

Lemma animepahe_search_no_data (rt : Runtime) (q : string) (limit : option Z) (doc : json) :
  fetch rt (AnimePaheScraper.search_url ++ quote_plus q) AnimePaheScraper.headers = inr doc ->
  no_data doc = true ->
  AnimePaheScraper.search rt q limit
  = ([Get (AnimePaheScraper.search_url ++ quote_plus q) AnimePaheScraper.headers], Ok tt).
Proof.
  intros Hf Hd. unfold AnimePaheScraper.search.
  rewrite (AnimePaheFacts.request_decoded _ _ _ Hf), bind_ok.
  rewrite (SearchFacts.no_data_get _ Hd), bind_lift_ok.
  destruct limit as [k |].
  - unfold slice_to. rewrite firstn_nil, bind_lift_ok. reflexivity.
  - rewrite bind_ret_l. reflexivity.
Qed.

Lemma hianime_search_missing (rt : Runtime) (q : string) (limit : option Z) (doc : json) :
  q <> "" ->
  fetch rt (HiAnimeScraper.search_url ++ "?q=" ++ quote_plus q) [] = inr doc ->
  misses doc "animes" = true ->
  HiAnimeScraper.search rt q limit
  = ([Get (HiAnimeScraper.search_url ++ "?q=" ++ quote_plus q) [];
      Log WARNING ("No results found for query: " ++ q)], Ok tt).
Proof.
  intros Hq Hf Hm. unfold HiAnimeScraper.search.
  rewrite (SearchFacts.query_given _ Hq), (HiAnimeFacts.request_ok _ _ _ Hf), bind_ok.
  rewrite (HiAnimeFacts.lacks_misses _ _ Hm), bind_ret_l. reflexivity.
Qed.

(** Claim C5, amended to the keys the adapters do test.  When the decoded
    document is an object without ["data"], or (JSON-API adapter) with a
    ["data"] object that lacks the list the operation reads, no exception
    leaves the operation: the search of either adapter yields nothing,
    [scrape_episodes] of either adapter returns [{None: 1}], [scrape] of the
    JSON-API adapter returns a placeholder, in its step 1 and in its
    sources step; and a listing element of the HTML-scraping adapter without
    ["episode"] is read as ["Episode 1"]. *)
Theorem missing_container_is_no_data (rt : Runtime) (metadata : Metadata)
        (episode : option EpisodeSelector) :
  (forall q limit doc,
     q <> "" ->
     fetch rt (HiAnimeScraper.search_url ++ "?q=" ++ quote_plus q) [] = inr doc ->
     misses doc "animes" = true ->
     yielded (trace (HiAnimeScraper.search rt q limit)) = []
     /\ outcome (HiAnimeScraper.search rt q limit) = Ok tt)
  /\ (forall doc,
     fetch rt (HiAnimeScraper.listing_url rt metadata) [] = inr doc ->
     misses doc "episodes" = true ->
     outcome (HiAnimeScraper.scrape_episodes rt metadata) = Ok HiAnimeScraper.sentinel
     /\ outcome (HiAnimeScraper.scrape rt metadata episode)
        = Ok (HiAnimeScraper.placeholder_single metadata))
  /\ (forall target episode_id doc,
     field target "episodeId" = Some episode_id ->
     fetch rt (HiAnimeScraper.sources_url rt episode_id) [] = inr doc ->
     misses doc "sources" = true ->
     outcome (HiAnimeScraper.scrape_sources rt metadata episode target)
     = Ok (HiAnimeScraper.placeholder metadata episode))
  /\ (forall q limit doc,
     fetch rt (AnimePaheScraper.search_url ++ quote_plus q) AnimePaheScraper.headers
     = inr doc ->
     no_data doc = true ->
     yielded (trace (AnimePaheScraper.search rt q limit)) = []
     /\ outcome (AnimePaheScraper.search rt q limit) = Ok tt)
  /\ (forall doc,
     fetch rt (AnimePaheScraper.listing_url rt metadata) AnimePaheScraper.headers
     = inr doc ->
     no_data doc = true ->
     outcome (AnimePaheScraper.scrape_episodes rt metadata) = Ok AnimePaheScraper.sentinel)
  /\ (forall d,
     dict_get d "episode" = None ->
     AnimePaheScraper.parsed_number (JDict d) = ret 1).
Proof.
  repeat apply conj.
  - intros q limit doc Hq Hf Hm. rewrite (hianime_search_missing _ _ _ _ Hq Hf Hm).
    split; reflexivity.
  - intros doc Hf Hm. split.
    + apply (proj2 (EpisodeFacts.hianime_fallback rt metadata) doc Hf). left; exact Hm.
    + exact (HiAnimeSteps.scrape_listing_missing _ _ _ _ Hf Hm).
  - intros target episode_id doc. apply HiAnimeSteps.scrape_sources_missing.
  - intros q limit doc Hf Hd. rewrite (animepahe_search_no_data _ _ _ _ Hf Hd).
    split; reflexivity.
  - intros doc Hf Hd. apply (EpisodeFacts.animepahe_fallback _ _ _ Hf). left; exact Hd.
  - intros d Hd. unfold AnimePaheScraper.parsed_number, dict_get_default.
    rewrite Hd. reflexivity.
Qed.

Lemma missing_container_is_no_data_witness :
  (yielded (trace (HiAnimeScraper.search hianime_bare "naruto" None)) = []
   /\ outcome (HiAnimeScraper.search hianime_bare "naruto" None) = Ok tt)
  /\ (outcome (HiAnimeScraper.scrape_episodes hianime_bare naruto) = Ok [(JNull, 1)]
      /\ outcome (HiAnimeScraper.scrape hianime_bare naruto (ep 1))
         = Ok (HiAnimeScraper.placeholder_single naruto))
  /\ outcome (HiAnimeScraper.scrape_sources hianime_no_sources naruto (ep 1)
                (obj [("number", JInt 1); ("episodeId", JStr "abc")]))
     = Ok (HiAnimeScraper.placeholder_multi naruto (ep 1))
  /\ (yielded (trace (AnimePaheScraper.search animepahe_bare "naruto" None)) = []
      /\ outcome (AnimePaheScraper.search animepahe_bare "naruto" None) = Ok tt)
  /\ outcome (AnimePaheScraper.scrape_episodes animepahe_bare movie) = Ok [(JNull, 1)]
  /\ AnimePaheScraper.parsed_number (obj [("session", JStr "e1")]) = ret 1.
Proof.
  destruct (missing_container_is_no_data hianime_bare naruto (ep 1))
    as (Hsearch & Hlisting & _).
  destruct (missing_container_is_no_data hianime_no_sources naruto (ep 1))
    as (_ & _ & Hsources & _).
  destruct (missing_container_is_no_data animepahe_bare movie (ep 1))
    as (_ & _ & _ & Hpahe & Hepisodes & Hlabel).
  repeat apply conj.
  - apply (Hsearch "naruto" None (obj [("data", obj [])]));
      [discriminate | reflexivity | reflexivity].
  - apply (Hsearch "naruto" None (obj [("data", obj [])]));
      [discriminate | reflexivity | reflexivity].
  - apply (Hlisting (obj [("status", JInt 200)])); reflexivity.
  - apply (Hlisting (obj [("status", JInt 200)])); reflexivity.
  - apply (Hsources _ (JStr "abc") (obj [("data", obj [])])); reflexivity.
  - apply (Hpahe "naruto" None (obj [("total", JInt 0)])); reflexivity.
  - apply (Hpahe "naruto" None (obj [("total", JInt 0)])); reflexivity.
  - apply (Hepisodes (obj [("total", JInt 0)])); reflexivity.
  - apply Hlabel. reflexivity.
Defined.

End Claims_schema.

(** ** Claims about search and episode mappings *)

Section Claims_listing.
Import Shape Fixture Scenario.

(** Claim C7.  For a non-empty query, a limit that is absent or not
    negative, and an answer of the site's shape whose results all conform
    (identifier, title and an integer episode count), the search of either
    adapter ends normally and yields one entry for each of the results it
    keeps, in their order: all of them, or the first [limit].  Each entry
    has the identifier and the title of its result, and is [MULTI] exactly
    when the count of the result is greater than 1. *)
Theorem search_kinds_and_order (rt : Runtime) (q : string) (limit : option Z) :
  q <> "" ->
  match limit with Some k => 0 <= k | None => True end ->
  (forall doc animes entries,
     fetch rt (HiAnimeScraper.search_url ++ "?q=" ++ quote_plus q) [] = inr doc ->
     listing doc "animes" = Some animes ->
     map hianime_entry animes = map Some entries ->
     outcome (HiAnimeScraper.search rt q limit) = Ok tt
     /\ Forall2 stands_for (yielded (trace (HiAnimeScraper.search rt q limit)))
                (truncate limit entries))
  /\ (forall doc animes entries,
     fetch rt (AnimePaheScraper.search_url ++ quote_plus q) AnimePaheScraper.headers
     = inr doc ->
     data_list doc = Some animes ->
     map animepahe_entry animes = map Some entries ->
     outcome (AnimePaheScraper.search rt q limit) = Ok tt
     /\ Forall2 stands_for (yielded (trace (AnimePaheScraper.search rt q limit)))
                (truncate limit entries)).
Proof.
  intros Hq Hk. split; intros doc animes entries Hf Hl He.
  - rewrite (SearchFacts.hianime_search _ _ _ _ _ _ Hq Hk Hf Hl He).
    split; [reflexivity |]. unfold trace, fst. simpl yielded.
    rewrite SearchFacts.yielded_map_Yield. apply SearchFacts.stands_for_all.
  - rewrite (SearchFacts.animepahe_search _ _ _ _ _ _ Hk Hf Hl He).
    split; [reflexivity |]. unfold trace, fst. simpl yielded.
    rewrite SearchFacts.yielded_map_Yield. apply SearchFacts.stands_for_all.
Qed.

Lemma search_kinds_and_order_witness :
  (outcome (HiAnimeScraper.search hianime "naruto" (Some 1)) = Ok tt
   /\ Forall2 stands_for (yielded (trace (HiAnimeScraper.search hianime "naruto" (Some 1))))
              [mkEntry (JStr "naruto-677") (JStr "naruto") 500])
  /\ (outcome (AnimePaheScraper.search animepahe "naruto" None) = Ok tt
      /\ Forall2 stands_for (yielded (trace (AnimePaheScraper.search animepahe "naruto" None)))
                 [mkEntry (JStr "naruto-677") (JStr "naruto") 500;
                  mkEntry (JStr "your-name-10") (JStr "Your Name") 1]).
Proof.
  split.
  - refine (proj1 (search_kinds_and_order hianime "naruto" (Some 1) _ _) _ _
                  [mkEntry (JStr "naruto-677") (JStr "naruto") 500;
                   mkEntry (JStr "your-name-10") (JStr "Your Name") 1] _ _ _);
      [discriminate | lia | reflexivity | reflexivity | reflexivity].
  - refine (proj2 (search_kinds_and_order animepahe "naruto" None _ _) _ _
                  [mkEntry (JStr "naruto-677") (JStr "naruto") 500;
                   mkEntry (JStr "your-name-10") (JStr "Your Name") 1] _ _ _);
      [discriminate | exact I | reflexivity | reflexivity | reflexivity].
Defined.



(** Claim C10.  A mapping returned by [scrape_episodes] of the
    HTML-scraping adapter has one key: it is [{None: 1}], which an empty
    listing gives, or [{1: n}]; and a non-empty listing whose items all
    parse gives [{1: n}] for the number [n] parsed from its last item,
    because every item is stored under the key 1. *)
Theorem animepahe_scrape_episodes_single_key (rt : Runtime) (metadata : Metadata) :
  (forall m,
     outcome (AnimePaheScraper.scrape_episodes rt metadata) = Ok m ->
     m = [(JNull, 1)] \/ exists n, m = [(JInt 1, n)])
  /\ (forall doc,
     fetch rt (AnimePaheScraper.listing_url rt metadata) AnimePaheScraper.headers
     = inr doc ->
     data_list doc = Some [] ->
     outcome (AnimePaheScraper.scrape_episodes rt metadata) = Ok [(JNull, 1)])
  /\ (forall doc items numbers,
     fetch rt (AnimePaheScraper.listing_url rt metadata) AnimePaheScraper.headers
     = inr doc ->
     data_list doc = Some items ->
     Forall2 (fun ep n => AnimePaheScraper.parsed_number ep = ret n) items numbers ->
     numbers <> [] ->
     outcome (AnimePaheScraper.scrape_episodes rt metadata)
     = Ok [(JInt 1, last numbers 0)]).
Proof.
  repeat apply conj.
  - intros m H. destruct (EpisodeFacts.animepahe_returns _ _ _ H) as [-> | Hp].
    + left; reflexivity.
    + destruct Hp as (doc & items & numbers & _ & _ & _ & _ & ->).
      right; eexists; reflexivity.
  - intros doc Hf Hd. apply (EpisodeFacts.animepahe_fallback _ _ _ Hf). right; exact Hd.
  - intros doc items numbers. apply EpisodeFacts.animepahe_populates.
Qed.

Lemma animepahe_scrape_episodes_single_key_witness :
  outcome (AnimePaheScraper.scrape_episodes animepahe naruto) = Ok [(JInt 1, 3)]
  /\ outcome (AnimePaheScraper.scrape_episodes animepahe_bare naruto) = Ok [(JNull, 1)].
Proof.
  split.
  - refine (proj2 (proj2 (animepahe_scrape_episodes_single_key animepahe naruto))
                  _ _ [2; 3] _ _ _ _);
      [reflexivity | reflexivity | repeat constructor | discriminate].
  - refine (proj1 (proj2 (animepahe_scrape_episodes_single_key animepahe_bare naruto))
                  _ _ _); reflexivity.
Defined.

End Claims_listing.

(** ** Runs without requests *)

Module QuietFacts.

Lemma quiet_ret {A : Type} (a : A) : quiet (ret a).
Proof. reflexivity. Qed.

Lemma quiet_raise {A : Type} (e : exn) : quiet (@raise A e).
Proof. reflexivity. Qed.

Lemma quiet_lift {A : Type} (r : result A) : quiet (lift r).
Proof. reflexivity. Qed.

Lemma quiet_log (lvl : level) (msg : string) : quiet (log lvl msg).
Proof. reflexivity. Qed.

Lemma quiet_bind {A B : Type} (m : M A) (f : A -> M B) :
  quiet m -> (forall a, quiet (f a)) -> quiet (bind m f).
Proof.
  unfold quiet. intros Hm Hf. rewrite trace_bind.
  destruct (outcome m) as [a | e]; [| exact Hm].
  rewrite requests_app, Hm, Hf. reflexivity.
Qed.

Lemma quiet_for_fold {A S : Type} (items : list A) (body : S -> A -> M S) :
  (forall s a, quiet (body s a)) -> forall s, quiet (for_fold items s body).
Proof.
  intros Hbody. induction items as [| a items IH]; intros s; simpl.
  - apply quiet_ret.
  - apply quiet_bind; [apply Hbody | exact IH].
Qed.

Lemma quiet_orelse (a b : M bool) : quiet a -> quiet b -> quiet (orelse a b).
Proof.
  intros Ha Hb. unfold orelse. apply quiet_bind; [exact Ha |].
  intros [|]; [apply quiet_ret | exact Hb].
Qed.

Lemma quiet_lacks (doc : json) (key : string) : quiet (HiAnimeScraper.lacks doc key).
Proof.
  unfold HiAnimeScraper.lacks.
  repeat apply quiet_orelse; try apply quiet_ret; try apply quiet_lift.
  apply quiet_bind; [apply quiet_lift | intros; apply quiet_lift].
Qed.

Lemma quiet_data_of (doc : json) (key : string) : quiet (HiAnimeScraper.data_of doc key).
Proof.
  unfold HiAnimeScraper.data_of.
  apply quiet_bind; [apply quiet_lift | intros; apply quiet_lift].
Qed.

Lemma quiet_add_track (subtitles : list (json * json)) (track : json) :
  quiet (HiAnimeScraper.add_track subtitles track).
Proof.
  unfold HiAnimeScraper.add_track.
  apply quiet_bind; [apply quiet_lift | intros kind].
  destruct (str_eq "captions" kind); [| apply quiet_ret].
  repeat (apply quiet_bind; [apply quiet_lift | intros ?]). apply quiet_lift.
Qed.

Lemma quiet_container (soup : Html.node) (ident tag : string) :
  quiet (AnimePaheScraper.container soup ident tag).
Proof.
  unfold AnimePaheScraper.container.
  destruct (Html.find soup "div" [("id", ident)]); [apply quiet_ret | apply quiet_raise].
Qed.

Lemma requests_cons_get (url : string) (hs : list (string * string)) (t : list event) :
  requests (Get url hs :: t) = url :: requests t.
Proof. reflexivity. Qed.

(** The sources step asks for the sources of its target and for nothing
    else. *)
Lemma scrape_sources_requests (rt : Runtime) (metadata : Metadata)
      (episode : option EpisodeSelector) (target episode_id : json) :
  Shape.field target "episodeId" = Some episode_id ->
  requests (trace (HiAnimeScraper.scrape_sources rt metadata episode target))
  = [HiAnimeScraper.sources_url rt episode_id].
Proof.
  intros Ht. unfold HiAnimeScraper.scrape_sources.
  rewrite (field_getitem _ _ _ Ht), bind_lift_ok.
  destruct (HiAnimeFacts.request_total rt (HiAnimeScraper.sources_url rt episode_id))
    as (doc & logs & -> & Hlogs).
  rewrite bind_ok. unfold trace at 1, fst.
  rewrite <- app_comm_cons, requests_cons_get, requests_app, Hlogs, app_nil_l.
  f_equal.
  apply quiet_bind; [apply quiet_lacks | intros failed].
  destruct failed.
  - apply quiet_bind; [apply quiet_log | intros; apply quiet_ret].
  - apply quiet_bind; [apply quiet_data_of | intros sources].
    do 3 (apply quiet_bind; [apply quiet_lift | intros ?]).
    apply quiet_bind; [apply quiet_lift | intros has_tracks].
    apply quiet_bind.
    + destruct has_tracks; [| apply quiet_ret].
      do 2 (apply quiet_bind; [apply quiet_lift | intros ?]).
      apply quiet_for_fold. apply quiet_add_track.
    + intros subtitles. destruct (is_multi (type metadata)); [| apply quiet_ret].
      apply quiet_bind; [apply quiet_lift | intros; apply quiet_ret].
Qed.

Lemma http_client_get_run (rt : Runtime) (url : string) (hs : list (string * string)) :
  http_client_get rt url hs
  = ([Get url hs],
     match http_get rt url hs with
     | inl msg => Raise (External msg)
     | inr text => Ok text
     end).
Proof.
  unfold http_client_get. rewrite bind_emit.
  destruct (http_get rt url hs); reflexivity.
Qed.

(** The page step asks for the playback page of its target and for nothing
    else. *)
Lemma scrape_page_requests (rt : Runtime) (metadata : Metadata)
      (episode : option EpisodeSelector) (target session : json) :
  Shape.field target "session" = Some session ->
  requests (trace (AnimePaheScraper.scrape_page rt metadata episode target))
  = [AnimePaheScraper.page_url rt metadata session].
Proof.
  intros Ht. unfold AnimePaheScraper.scrape_page.
  rewrite (field_getitem _ _ _ Ht), bind_lift_ok.
  unfold AnimePaheScraper._request_html. rewrite http_client_get_run.
  destruct (http_get rt (AnimePaheScraper.page_url rt metadata session)
                     AnimePaheScraper.headers) as [msg | text]; [reflexivity |].
  rewrite bind_ok. unfold trace at 1, fst.
  rewrite <- app_comm_cons, requests_cons_get, app_nil_l. f_equal.
  apply quiet_bind; [apply quiet_container | intros download_options].
  apply quiet_bind; [apply quiet_container | intros embed_sources].
  destruct download_options as [| option0 rest]; [apply quiet_raise |].
  apply quiet_bind.
  - destruct embed_sources; [apply quiet_raise | apply quiet_ret].
  - intros embed_url. apply quiet_bind; [apply quiet_lift | intros n].
    apply quiet_bind; [apply quiet_lift | intros episode_title].
    destruct (is_multi (type metadata)); apply quiet_ret.
Qed.

End QuietFacts.

(** ** Single entries *)

Section Claims_single.
Import Shape Fixture Scenario.

Lemma hianime_scrape_single (rt : Runtime) (metadata : Metadata)
      (episode : option EpisodeSelector) (doc first : json) (rest : list json) :
  type metadata = SINGLE ->
  fetch rt (HiAnimeScraper.listing_url rt metadata) [] = inr doc ->
  listing doc "episodes" = Some (first :: rest) ->
  HiAnimeScraper.scrape rt metadata episode
  = (Get (HiAnimeScraper.listing_url rt metadata) []
       :: trace (HiAnimeScraper.scrape_sources rt metadata episode first),
     outcome (HiAnimeScraper.scrape_sources rt metadata episode first)).
Proof.
  intros Hty Hf Hl. unfold HiAnimeScraper.scrape.
  rewrite (HiAnimeFacts.request_ok _ _ _ Hf), bind_ok.
  rewrite (HiAnimeFacts.lacks_listing _ _ _ Hl), bind_ret_l.
  rewrite (HiAnimeFacts.data_of_listing _ _ _ Hl), bind_ret_l.
  rewrite Hty. simpl is_multi. cbv iota. simpl truthy. cbv iota.
  simpl getitem0. rewrite bind_lift_ok. reflexivity.
Qed.

Lemma animepahe_scrape_single (rt : Runtime) (metadata : Metadata)
      (episode : option EpisodeSelector) (doc first session : json) (rest : list json) :
  type metadata = SINGLE ->
  fetch rt (AnimePaheScraper.listing_url rt metadata) AnimePaheScraper.headers = inr doc ->
  data_list doc = Some (first :: rest) ->
  field first "session" = Some session ->
  AnimePaheScraper.scrape rt metadata episode
  = (Get (AnimePaheScraper.listing_url rt metadata) AnimePaheScraper.headers
       :: trace (AnimePaheScraper.scrape_page rt metadata episode first),
     outcome (AnimePaheScraper.scrape_page rt metadata episode first)).
Proof.
  intros Hty Hf Hl Hs. unfold AnimePaheScraper.scrape.
  rewrite (AnimePaheFacts.request_decoded _ _ _ Hf), bind_ok.
  rewrite (SearchFacts.data_list_get _ _ Hl), bind_lift_ok.
  rewrite Hty. simpl is_multi. cbv iota. simpl truthy. cbv iota.
  simpl getitem0. rewrite bind_lift_ok.
  rewrite (field_truthy _ _ _ Hs). reflexivity.
Qed.

(** Claim C8.  For a [SINGLE] entry and any selector (none included), when
    the listing the site serves is a non-empty list, [scrape] of either
    adapter goes on with the first element of the list: the run is the
    listing request followed by the resolution of that element, and the
    second request is the one for the sources (JSON-API adapter) or for the
    playback page (HTML-scraping adapter, where the element is an object
    with a ["session"]) of that element. *)
Theorem scrape_single_targets_first (rt : Runtime) (metadata : Metadata)
        (episode : option EpisodeSelector) :
  type metadata = SINGLE ->
  (forall doc first rest,
     fetch rt (HiAnimeScraper.listing_url rt metadata) [] = inr doc ->
     listing doc "episodes" = Some (first :: rest) ->
     HiAnimeScraper.scrape rt metadata episode
     = (Get (HiAnimeScraper.listing_url rt metadata) []
          :: trace (HiAnimeScraper.scrape_sources rt metadata episode first),
        outcome (HiAnimeScraper.scrape_sources rt metadata episode first))
     /\ forall episode_id,
          field first "episodeId" = Some episode_id ->
          requests (trace (HiAnimeScraper.scrape rt metadata episode))
          = [HiAnimeScraper.listing_url rt metadata;
             HiAnimeScraper.sources_url rt episode_id])
  /\ (forall doc first rest session,
     fetch rt (AnimePaheScraper.listing_url rt metadata) AnimePaheScraper.headers
     = inr doc ->
     data_list doc = Some (first :: rest) ->
     field first "session" = Some session ->
     AnimePaheScraper.scrape rt metadata episode
     = (Get (AnimePaheScraper.listing_url rt metadata) AnimePaheScraper.headers
          :: trace (AnimePaheScraper.scrape_page rt metadata episode first),
        outcome (AnimePaheScraper.scrape_page rt metadata episode first))
     /\ requests (trace (AnimePaheScraper.scrape rt metadata episode))
        = [AnimePaheScraper.listing_url rt metadata;
           AnimePaheScraper.page_url rt metadata session]).
Proof.
  intros Hty. split.
  - intros doc first rest Hf Hl.
    pose proof (hianime_scrape_single _ _ episode _ _ _ Hty Hf Hl) as Hrun.
    split; [exact Hrun |]. intros episode_id Hid. rewrite Hrun.
    unfold trace at 1, fst. rewrite QuietFacts.requests_cons_get.
    rewrite (QuietFacts.scrape_sources_requests _ _ _ _ _ Hid). reflexivity.
  - intros doc first rest session Hf Hl Hs.
    pose proof (animepahe_scrape_single _ _ episode _ _ _ _ Hty Hf Hl Hs) as Hrun.
    split; [exact Hrun |]. rewrite Hrun.
    unfold trace at 1, fst. rewrite QuietFacts.requests_cons_get.
    rewrite (QuietFacts.scrape_page_requests _ _ _ _ _ Hs). reflexivity.
Qed.

Lemma scrape_single_targets_first_witness :
  requests (trace (HiAnimeScraper.scrape hianime movie (ep 7)))
  = [HiAnimeScraper.anime_url ++ "/your-name-10/episodes";
     HiAnimeScraper.episode_url ++ "?animeEpisodeId=yn1"]
  /\ requests (trace (AnimePaheScraper.scrape animepahe movie (ep 7)))
     = [AnimePaheScraper.release_url ++ "your-name-10&sort=episode_asc&page=1";
        AnimePaheScraper.play_url ++ "/your-name-10/m1"].
Proof.
  split.
  - refine (proj2 (proj1 (scrape_single_targets_first hianime movie (ep 7) _)
                         (snd movie_listing) _ [] _ _) (JStr "yn1") _);
      reflexivity.
  - refine (proj2 (proj2 (scrape_single_targets_first animepahe movie (ep 7) _)
                         _ _ [] (JStr "m1") _ _ _));
      reflexivity.
Defined.

End Claims_single.

(** ** Assembled descriptors *)

Section Claims_descriptor.
Import Shape Behaviour Fixture Scenario Cases.

Lemma outcome_after_log {A : Type} (lvl : level) (msg : string) (k : M A) :
  outcome (log lvl msg ;; k) = outcome k.
Proof. unfold log. rewrite bind_emit. reflexivity. Qed.

(** A loop whose first item is no string ran over a list: the items of a
    string and of a dictionary are strings. *)
Lemma iter_first_object (v x : json) (rest : list json) :
  iter v = Ok (x :: rest) ->
  (forall s, x <> JStr s) ->
  v = JList (x :: rest).
Proof.
  destruct v as [ | | | | s | l | d]; simpl; try discriminate.
  - destruct s as [| c s]; [discriminate |].
    intros [= <- _] H. exfalso. exact (H _ eq_refl).
  - intros [= ->] _. reflexivity.
  - destruct d as [| kv d]; [discriminate |].
    intros [= <- _] H. exfalso. exact (H _ eq_refl).
Qed.

(** What the loop of the JSON-API adapter leaves in [target_episode]:
    [None], or the first item that has the requested number. *)
Lemma hianime_find_episode_inv (items : list json) (episode_num : Z) (target : json) :
  outcome (HiAnimeScraper.find_episode items episode_num) = Ok target ->
  target = JNull
  \/ exists before after number,
       items = (before ++ target :: after)%list
       /\ Forall (other_number episode_num) before
       /\ field target "number" = Some number
       /\ eq_int number episode_num = true.
Proof.
  induction items as [| ep items IH]; intros H.
  - injection H as <-. left; reflexivity.
  - rewrite SeriesFacts.hianime_find_step in H.
    apply outcome_bind_ok in H as (n & Hn & H). rewrite outcome_lift in Hn.
    apply getitem_field in Hn.
    destruct (eq_int n episode_num) eqn:E.
    + injection H as <-. right. exists [], items, n. repeat split; auto.
    + destruct (IH H) as [-> | (before & after & number & -> & Hb & Hnum & Heq)];
        [left; reflexivity |].
      right. exists (ep :: before), after, number. repeat split; auto.
      constructor; [exists n; split; assumption | exact Hb].
Qed.

(** The same for the HTML-scraping adapter: [None], or the first item
    whose title parses to the requested number. *)
Lemma animepahe_find_episode_inv (items : list json) (episode_num : Z) (target : json) :
  outcome (AnimePaheScraper.find_episode items episode_num) = Ok target ->
  target = JNull
  \/ exists before after,
       items = (before ++ target :: after)%list
       /\ Forall (other_episode episode_num) before
       /\ AnimePaheScraper.parsed_number target = ret episode_num.
Proof.
  induction items as [| ep items IH]; intros H.
  - injection H as <-. left; reflexivity.
  - rewrite SeriesFacts.animepahe_find_step in H.
    apply outcome_bind_ok in H as (k & Hk & H).
    apply EpisodeFacts.parsed_number_ok in Hk.
    destruct (Z.eqb_spec k episode_num) as [-> | Hne].
    + injection H as <-. right. exists [], items. repeat split; auto.
    + destruct (IH H) as [-> | (before & after & -> & Hb & Hnum)];
        [left; reflexivity |].
      right. exists (ep :: before), after. repeat split; auto.
      constructor; [exists k; split; assumption | exact Hb].
Qed.

Lemma scrape_sources_inv (rt : Runtime) (metadata : Metadata)
      (episode : option EpisodeSelector) (target : json) (d : Media) :
  outcome (HiAnimeScraper.scrape_sources rt metadata episode target) = Ok d ->
  d = HiAnimeScraper.placeholder metadata episode
  \/ match type metadata with
     | MULTI =>
         exists url number subtitles,
           field target "number" = Some number
           /\ d = Multi url
                        (JStr (py_str rt (title metadata) ++ " - Episode "
                               ++ py_str rt number))
                        (Given "https://hianime.to") episode
                        (Given (SubsDict subtitles))
     | SINGLE =>
         exists url,
           d = Single url (title metadata) (Given "https://hianime.to")
                      (Given (year metadata)) Omitted
     end.
Proof.
  unfold HiAnimeScraper.scrape_sources. intros H.
  apply outcome_bind_ok in H as (episode_id & _ & H).
  destruct (HiAnimeFacts.request_total rt (HiAnimeScraper.sources_url rt episode_id))
    as (doc & logs & Hreq & _).
  rewrite Hreq, outcome_bind_run in H.
  apply outcome_bind_ok in H as (failed & _ & H). destruct failed.
  - rewrite outcome_after_log in H. injection H as <-. left; reflexivity.
  - right.
    apply outcome_bind_ok in H as (sources & _ & H).
    apply outcome_bind_ok in H as (first & _ & H).
    apply outcome_bind_ok in H as (video_url & _ & H).
    apply outcome_bind_ok in H as (data & _ & H).
    apply outcome_bind_ok in H as (has_tracks & _ & H).
    apply outcome_bind_ok in H as (subtitles & _ & H).
    destruct (type metadata); simpl is_multi in H; cbv iota in H.
    + injection H as <-. exists video_url. reflexivity.
    + apply outcome_bind_ok in H as (number & Hn & H). rewrite outcome_lift in Hn.
      injection H as <-. exists video_url, number, subtitles.
      split; [apply getitem_field, Hn | reflexivity].
Qed.

(** The sources step needs an object to start from. *)
Lemma scrape_sources_object (rt : Runtime) (metadata : Metadata)
      (episode : option EpisodeSelector) (target : json) (d : Media) :
  outcome (HiAnimeScraper.scrape_sources rt metadata episode target) = Ok d ->
  forall s, target <> JStr s.
Proof.
  intros H s ->. unfold HiAnimeScraper.scrape_sources in H.
  apply outcome_bind_ok in H as (episode_id & He & _). discriminate.
Qed.

(** The title the page step reads. *)
Lemma episode_title_inv (target session label : json) (selector : EpisodeSelector) :
  getitem target "session" = Ok session ->
  dict_get_default target "episode" (JStr ("Episode " ++ str_of_int (episode selector)))
  = Ok label ->
  label = episode_label target selector.
Proof.
  unfold episode_label. destruct target; simpl; try discriminate. intros _.
  destruct (dict_get d "episode"); intros [= <-]; reflexivity.
Qed.

(** A descriptor of the page step: a selector was given, the target is an
    object with a session, and the title of a series ends with the label
    of the target. *)
Lemma scrape_page_inv (rt : Runtime) (metadata : Metadata)
      (episode : option EpisodeSelector) (target : json) (d : Media) :
  outcome (AnimePaheScraper.scrape_page rt metadata episode target) = Ok d ->
  exists selector session url,
    episode = Some selector
    /\ field target "session" = Some session
    /\ d = match type metadata with
           | MULTI =>
               Multi url
                     (JStr (py_str rt (title metadata) ++ " - "
                            ++ py_str rt (episode_label target selector)))
                     Omitted episode (Given (SubsList []))
           | SINGLE =>
               Single url (title metadata) Omitted Omitted (Given (SubsList []))
           end.
Proof.
  unfold AnimePaheScraper.scrape_page. intros H.
  apply outcome_bind_ok in H as (episode_session & Hs & H). rewrite outcome_lift in Hs.
  apply outcome_bind_ok in H as (episode_page_html & _ & H).
  apply outcome_bind_ok in H as (download_options & _ & H).
  apply outcome_bind_ok in H as (embed_sources & _ & H).
  destruct download_options as [| option0 others]; [discriminate |].
  apply outcome_bind_ok in H as (embed_url & _ & H).
  apply outcome_bind_ok in H as (n & Hn & H). rewrite outcome_lift in Hn.
  destruct episode as [selector |]; [| discriminate]. injection Hn as <-.
  apply outcome_bind_ok in H as (episode_title & Ht & H). rewrite outcome_lift in Ht.
  rewrite (episode_title_inv _ _ _ _ Hs Ht) in H.
  exists selector, episode_session, (Html.get option0 "href").
  split; [reflexivity |]. split; [apply getitem_field, Hs |].
  destruct (type metadata); simpl is_multi in H; cbv iota in H; injection H as <-;
    reflexivity.
Qed.

(** A descriptor of the JSON-API adapter is a placeholder, or it was
    resolved from the target of the listing the site served. *)
Lemma hianime_scrape_inv (rt : Runtime) (metadata : Metadata)
      (episode : option EpisodeSelector) (d : Media) :
  outcome (HiAnimeScraper.scrape rt metadata episode) = Ok d ->
  d = HiAnimeScraper.placeholder_single metadata
  \/ d = HiAnimeScraper.placeholder_multi metadata episode
  \/ exists doc target,
       fetch rt (HiAnimeScraper.listing_url rt metadata) [] = inr doc
       /\ hianime_target metadata episode doc target
       /\ match type metadata with
          | MULTI =>
              exists url number subtitles,
                field target "number" = Some number
                /\ eq_int number (requested_episode episode) = true
                /\ d = Multi url
                             (JStr (py_str rt (title metadata) ++ " - Episode "
                                    ++ py_str rt number))
                             (Given "https://hianime.to") episode
                             (Given (SubsDict subtitles))
          | SINGLE =>
              exists url,
                d = Single url (title metadata) (Given "https://hianime.to")
                           (Given (year metadata)) Omitted
          end.
Proof.
  unfold HiAnimeScraper.scrape. intros H.
  destruct (fetch rt (HiAnimeScraper.listing_url rt metadata) []) as [msg | doc] eqn:Hf.
  { rewrite (HiAnimeFacts.request_failed _ _ _ Hf), outcome_bind_run in H.
    rewrite HiAnimeFacts.lacks_fallback, bind_ret_l, outcome_after_log in H.
    injection H as <-. left; reflexivity. }
  rewrite (HiAnimeFacts.request_ok _ _ _ Hf), outcome_bind_run in H.
  apply outcome_bind_ok in H as (failed & _ & H). destruct failed.
  { rewrite outcome_after_log in H. injection H as <-. left; reflexivity. }
  apply outcome_bind_ok in H as (episodes & He & H).
  unfold hianime_target.
  destruct (type metadata) eqn:Hty; simpl is_multi in H; cbv iota in H.
  - destruct (truthy episodes).
    + apply outcome_bind_ok in H as (target & Ht & H). rewrite outcome_lift in Ht.
      pose proof (scrape_sources_object _ _ _ _ _ H) as Hobj.
      apply scrape_sources_inv in H as [-> | H].
      * left. unfold HiAnimeScraper.placeholder. rewrite Hty. reflexivity.
      * rewrite Hty in H. right; right. exists doc, target.
        split; [reflexivity |]. split; [| exact H].
        destruct episodes as [ | | | | s | l | dd]; simpl in Ht; try discriminate.
        -- destruct s as [| c s]; [discriminate |]. injection Ht as <-.
           exfalso. exact (Hobj _ eq_refl).
        -- destruct l as [| x rest]; [discriminate |]. injection Ht as ->.
           exists rest. apply EpisodeFacts.data_of_inv, He.
    + rewrite outcome_after_log in H. injection H as <-. left; reflexivity.
  - apply outcome_bind_ok in H as (items & Hi & H). rewrite outcome_lift in Hi.
    apply outcome_bind_ok in H as (target & Ht & H).
    destruct (truthy target) eqn:Htruthy; simpl negb in H; cbv iota in H.
    + apply scrape_sources_inv in H as [-> | H].
      * right; left. unfold HiAnimeScraper.placeholder. rewrite Hty. reflexivity.
      * rewrite Hty in H. destruct H as (url & number & subtitles & Hn & ->).
        apply hianime_find_episode_inv in Ht
          as [-> | (before & after & number' & -> & Hb & Hn' & Heq)];
          [discriminate |].
        rewrite Hn in Hn'. injection Hn' as <-.
        right; right. exists doc, target. split; [reflexivity |]. split.
        -- exists before, after, number. repeat split; auto.
           apply EpisodeFacts.data_of_inv.
           destruct before as [| b before].
           ++ rewrite (iter_first_object _ _ _ Hi) in He; [exact He |].
              intros s ->. discriminate.
           ++ rewrite (iter_first_object _ _ _ Hi) in He; [exact He |].
              intros s ->. inversion Hb as [| ? ? (v & Hv & _) _]. discriminate.
        -- exists url, number, subtitles. repeat split; auto.
    + rewrite outcome_after_log in H. injection H as <-. right; left; reflexivity.
Qed.

(** A descriptor of the HTML-scraping adapter was resolved from the target
    of the listing the site served, with a selector. *)
Lemma animepahe_scrape_inv (rt : Runtime) (metadata : Metadata)
      (episode : option EpisodeSelector) (d : Media) :
  outcome (AnimePaheScraper.scrape rt metadata episode) = Ok d ->
  exists doc target selector url,
    fetch rt (AnimePaheScraper.listing_url rt metadata) AnimePaheScraper.headers = inr doc
    /\ animepahe_target metadata episode doc target
    /\ episode = Some selector
    /\ d = match type metadata with
           | MULTI =>
               Multi url
                     (JStr (py_str rt (title metadata) ++ " - "
                            ++ py_str rt (episode_label target selector)))
                     Omitted episode (Given (SubsList []))
           | SINGLE =>
               Single url (title metadata) Omitted Omitted (Given (SubsList []))
           end.
Proof.
  unfold AnimePaheScraper.scrape. rewrite AnimePaheFacts.request_run.
  destruct (fetch rt (AnimePaheScraper.listing_url rt metadata) AnimePaheScraper.headers)
    as [msg | doc] eqn:Hf; [discriminate |].
  simpl fetched. rewrite outcome_bind_run. intros H.
  apply outcome_bind_ok in H as (episodes_data & He & H). rewrite outcome_lift in He.
  apply outcome_bind_ok in H as (target & Ht & H).
  destruct (truthy target) eqn:Htruthy; simpl negb in H; cbv iota in H.
  2: { apply outcome_bind_ok in H as (n & _ & H). discriminate. }
  destruct (scrape_page_inv _ _ _ _ _ H) as (selector & session & url & -> & Hs & ->).
  exists doc, target, selector, url.
  split; [reflexivity |]. split; [| split; reflexivity].
  assert (Hdata : forall items, episodes_data = JList items -> items <> [] ->
                                data_list doc = Some items).
  { intros items ->. apply EpisodeFacts.data_list_of_get, He. }
  unfold animepahe_target.
  destruct (type metadata); simpl is_multi in Ht; cbv iota in Ht.
  - destruct (truthy episodes_data).
    + rewrite outcome_lift in Ht.
      destruct episodes_data as [ | | | | s | l | dd]; simpl in Ht; try discriminate.
      * destruct s as [| c s]; [discriminate |]. injection Ht as <-. discriminate.
      * destruct l as [| x rest]; [discriminate |]. injection Ht as ->.
        exists rest. apply Hdata; [reflexivity | discriminate].
    + injection Ht as <-. discriminate.
  - apply outcome_bind_ok in Ht as (items & Hi & Ht). rewrite outcome_lift in Hi.
    apply animepahe_find_episode_inv in Ht as [-> | (before & after & -> & Hb & Hn)];
      [discriminate |].
    exists before, after. repeat split; auto.
    apply Hdata; [| destruct before; discriminate].
    destruct before as [| b before].
    + apply (iter_first_object _ _ _ Hi). intros s ->. discriminate.
    + apply (iter_first_object _ _ _ Hi). intros s ->.
      inversion Hb as [| ? ? (k & Hk & _) _]. discriminate.
Qed.

(** Claim C9 does not hold of the HTML-scraping adapter: the descriptor of
    a resolved film has no referrer, and carries a list of subtitles. *)
Lemma animepahe_descriptor_without_referrer :
  outcome (AnimePaheScraper.scrape animepahe movie (ep 1))
  = Ok (Single (JStr "https://kwik.si/f/x1") (JStr "Your Name") Omitted Omitted
               (Given (SubsList []))).
Proof. vm_compute. reflexivity. Qed.

(** Claim C9, amended.  A descriptor returned by [scrape] of the JSON-API
    adapter that is not one of its placeholders was resolved from the
    target of the listing (the first element for a film, the first element
    with the requested number for a series) and has the referrer
    ["https://hianime.to"]; for a [MULTI] entry it is a [Multi] whose title
    is the title of the entry followed by [" - Episode "] and the number of
    that target, and it carries the dictionary of subtitles; for a [SINGLE]
    entry it is a [Single] with the title of the entry and no subtitles.  A
    descriptor returned by [scrape] of the HTML-scraping adapter was
    resolved, for a selector, from the target of the listing (the first
    element for a film, the first element whose title parses to the
    requested number for a series); it has no referrer and an empty list of
    subtitles, for both kinds; its title is the title of the entry, followed
    for a [MULTI] entry by [" - "] and the label of that target: its
    ["episode"], or ["Episode N"] for the selector's [N] when it has
    none. *)
Theorem resolved_descriptor (rt : Runtime) (metadata : Metadata)
        (episode : option EpisodeSelector) (d : Media) :
  (outcome (HiAnimeScraper.scrape rt metadata episode) = Ok d ->
   d <> HiAnimeScraper.placeholder_single metadata ->
   d <> HiAnimeScraper.placeholder_multi metadata episode ->
   media_referrer d = Given "https://hianime.to"
   /\ exists doc target,
        fetch rt (HiAnimeScraper.listing_url rt metadata) [] = inr doc
        /\ hianime_target metadata episode doc target
        /\ match type metadata with
           | MULTI =>
               exists url number subtitles,
                 field target "number" = Some number
                 /\ eq_int number (requested_episode episode) = true
                 /\ d = Multi url
                              (JStr (py_str rt (title metadata) ++ " - Episode "
                                     ++ py_str rt number))
                              (Given "https://hianime.to") episode
                              (Given (SubsDict subtitles))
           | SINGLE =>
               exists url,
                 d = Single url (title metadata) (Given "https://hianime.to")
                            (Given (year metadata)) Omitted
           end)
  /\ (outcome (AnimePaheScraper.scrape rt metadata episode) = Ok d ->
      media_referrer d = Omitted
      /\ media_subtitles d = Given (SubsList [])
      /\ exists doc target selector url,
           fetch rt (AnimePaheScraper.listing_url rt metadata) AnimePaheScraper.headers
           = inr doc
           /\ animepahe_target metadata episode doc target
           /\ episode = Some selector
           /\ d = match type metadata with
                  | MULTI =>
                      Multi url
                            (JStr (py_str rt (title metadata) ++ " - "
                                   ++ py_str rt (episode_label target selector)))
                            Omitted episode (Given (SubsList []))
                  | SINGLE =>
                      Single url (title metadata) Omitted Omitted (Given (SubsList []))
                  end).
Proof.
  split.
  - intros H Hs Hm.
    destruct (hianime_scrape_inv _ _ _ _ H) as [-> | [-> | Hd]]; try contradiction.
    split; [| exact Hd].
    destruct Hd as (doc & target & _ & _ & Hd). destruct (type metadata).
    + destruct Hd as (url & ->). reflexivity.
    + destruct Hd as (url & number & subtitles & _ & _ & ->). reflexivity.
  - intros H. pose proof (animepahe_scrape_inv _ _ _ _ H) as Hd.
    repeat split; try exact Hd;
      destruct Hd as (doc & target & selector & url & _ & _ & _ & ->);
      destruct (type metadata); reflexivity.
Qed.

Lemma resolved_descriptor_witness :
  (outcome (HiAnimeScraper.scrape hianime_subtitled naruto (ep 2))
   = Ok (Multi (JStr "https://x/vid.m3u8") (JStr "naruto - Episode 2")
               (Given "https://hianime.to") (ep 2)
               (Given (SubsDict [(JStr "English", JStr "https://x/en.vtt");
                                 (JStr "Spanish", JStr "https://x/es.vtt")])))
   /\ exists doc target,
        fetch hianime_subtitled (HiAnimeScraper.listing_url hianime_subtitled naruto) []
        = inr doc
        /\ hianime_target naruto (ep 2) doc target
        /\ exists url number subtitles,
             field target "number" = Some number
             /\ eq_int number (requested_episode (ep 2)) = true
             /\ Multi (JStr "https://x/vid.m3u8") (JStr "naruto - Episode 2")
                      (Given "https://hianime.to") (ep 2)
                      (Given (SubsDict [(JStr "English", JStr "https://x/en.vtt");
                                        (JStr "Spanish", JStr "https://x/es.vtt")]))
                = Multi url
                        (JStr (py_str hianime_subtitled (title naruto) ++ " - Episode "
                               ++ py_str hianime_subtitled number))
                        (Given "https://hianime.to") (ep 2)
                        (Given (SubsDict subtitles)))
  /\ (outcome (AnimePaheScraper.scrape animepahe naruto (ep 2))
      = Ok (Multi (JStr "https://kwik.si/f/x1") (JStr "naruto - Episode 2")
                  Omitted (ep 2) (Given (SubsList [])))
      /\ exists doc target selector url,
           fetch animepahe (AnimePaheScraper.listing_url animepahe naruto)
                 AnimePaheScraper.headers = inr doc
           /\ animepahe_target naruto (ep 2) doc target
           /\ ep 2 = Some selector
           /\ Multi (JStr "https://kwik.si/f/x1") (JStr "naruto - Episode 2")
                    Omitted (ep 2) (Given (SubsList []))
              = Multi url
                      (JStr (py_str animepahe (title naruto) ++ " - "
                             ++ py_str animepahe (episode_label target selector)))
                      Omitted (ep 2) (Given (SubsList []))).
Proof.
  split.
  - split; [vm_compute; reflexivity |].
    refine (proj2 (proj1 (resolved_descriptor hianime_subtitled naruto (ep 2) _) _ _ _));
      [vm_compute; reflexivity | discriminate | discriminate].
  - split; [vm_compute; reflexivity |].
    refine (proj2 (proj2 (proj2 (resolved_descriptor animepahe naruto (ep 2) _) _))).
    vm_compute; reflexivity.
Defined.

End Claims_descriptor.

(** * Further properties *)

(** ** Strings *)

Module StringFacts.

Lemma append_empty_r (s : string) : s ++ "" = s.
Proof. induction s as [| c s IH]; simpl; [| rewrite IH]; reflexivity. Qed.

Lemma chars_append (a b : string) :
  list_ascii_of_string (a ++ b)
  = (list_ascii_of_string a ++ list_ascii_of_string b)%list.
Proof. induction a as [| c a IH]; simpl; [| rewrite IH]; reflexivity. Qed.

Lemma concat_empty_cons (x : string) (xs : list string) :
  concat "" (x :: xs) = x ++ concat "" xs.
Proof. destruct xs; simpl; [rewrite append_empty_r |]; reflexivity. Qed.

Lemma all_chars_append (p : ascii -> bool) (a b : string) :
  Behaviour.all_chars p (a ++ b)
  = Behaviour.all_chars p a && Behaviour.all_chars p b.
Proof. unfold Behaviour.all_chars. rewrite chars_append. apply forallb_app. Qed.

Lemma quote_char_safe (c : ascii) :
  Behaviour.all_chars Behaviour.url_safe (quote_char c) = true.
Proof. destruct c as [[] [] [] [] [] [] [] []]; reflexivity. Qed.

Lemma quote_char_unreserved (c : ascii) :
  is_unreserved c = true -> quote_char c = String c EmptyString.
Proof. intros H. unfold quote_char. rewrite H. reflexivity. Qed.

Lemma quote_plus_cons (c : ascii) (s : string) :
  quote_plus (String c s) = quote_char c ++ quote_plus s.
Proof. unfold quote_plus. simpl map. apply concat_empty_cons. Qed.

Lemma quote_plus_safe (s : string) :
  Behaviour.all_chars Behaviour.url_safe (quote_plus s) = true.
Proof.
  induction s as [| c s IH]; [reflexivity |].
  rewrite quote_plus_cons, all_chars_append, quote_char_safe, IH. reflexivity.
Qed.

Lemma quote_plus_unreserved (s : string) :
  Behaviour.all_chars is_unreserved s = true -> quote_plus s = s.
Proof.
  induction s as [| c s IH]; [reflexivity |].
  unfold Behaviour.all_chars. simpl. intros H.
  apply andb_prop in H as [Hc Hs].
  rewrite quote_plus_cons, (quote_char_unreserved _ Hc), (IH Hs). reflexivity.
Qed.

End StringFacts.

(** ** More runs without requests *)

Module QuietMore.
Import QuietFacts.

Lemma quiet_yield (m : Metadata) : quiet (emit (Yield m)).
Proof. reflexivity. Qed.

Lemma quiet_for_each {A : Type} (items : list A) (body : A -> M unit) :
  (forall a, quiet (body a)) -> quiet (for_each items body).
Proof.
  intros Hbody. induction items as [| a items IH]; simpl.
  - apply quiet_ret.
  - apply quiet_bind; [apply Hbody | intros _; exact IH].
Qed.

Ltac quiet_step :=
  match goal with
  | |- quiet (bind _ _) => apply quiet_bind; [| intro]
  | |- quiet (ret _) => apply quiet_ret
  | |- quiet (raise _) => apply quiet_raise
  | |- quiet (lift _) => apply quiet_lift
  | |- quiet (log _ _) => apply quiet_log
  | |- quiet (emit (Yield _)) => apply quiet_yield
  | |- quiet (for_fold _ _ _) => apply quiet_for_fold; intros
  | |- quiet (for_each _ _) => apply quiet_for_each; intros
  | |- quiet (orelse _ _) => apply quiet_orelse
  | |- quiet (HiAnimeScraper.lacks _ _) => apply quiet_lacks
  | |- quiet (HiAnimeScraper.data_of _ _) => apply quiet_data_of
  | |- quiet (HiAnimeScraper.add_track _ _) => apply quiet_add_track
  | |- quiet (AnimePaheScraper.container _ _ _) => apply quiet_container
  | |- quiet (if ?b then _ else _) => destruct b
  | |- quiet (match ?x with _ => _ end) => destruct x
  end.

Ltac quiet_run := repeat quiet_step.

Lemma quiet_hianime_item (anime : json) : quiet (HiAnimeScraper.search_item anime).
Proof. unfold HiAnimeScraper.search_item. quiet_run. Qed.

Lemma quiet_animepahe_item (anime : json) : quiet (AnimePaheScraper.search_item anime).
Proof. unfold AnimePaheScraper.search_item. quiet_run. Qed.

Lemma quiet_parsed_number (ep : json) : quiet (AnimePaheScraper.parsed_number ep).
Proof. unfold AnimePaheScraper.parsed_number. quiet_run. Qed.

Lemma quiet_hianime_find (items : list json) (n : Z) :
  quiet (HiAnimeScraper.find_episode items n).
Proof.
  induction items as [| ep items IH]; [apply quiet_ret |].
  rewrite SeriesFacts.hianime_find_step.
  apply quiet_bind; [apply quiet_lift | intros v].
  destruct (eq_int v n); [apply quiet_ret | exact IH].
Qed.

Lemma quiet_animepahe_find (items : list json) (n : Z) :
  quiet (AnimePaheScraper.find_episode items n).
Proof.
  induction items as [| ep items IH]; [apply quiet_ret |].
  rewrite SeriesFacts.animepahe_find_step.
  apply quiet_bind; [apply quiet_parsed_number | intros k].
  destruct (k =? n); [apply quiet_ret | exact IH].
Qed.

Lemma quiet_add_number (m : list (json * Z)) (ep : json) :
  quiet (HiAnimeScraper.add_number m ep).
Proof. unfold HiAnimeScraper.add_number. quiet_run. Qed.

Lemma quiet_add_episode (m : list (json * Z)) (ep : json) :
  quiet (AnimePaheScraper.add_episode m ep).
Proof.
  unfold AnimePaheScraper.add_episode.
  apply quiet_bind; [apply quiet_parsed_number | intros n; apply quiet_lift].
Qed.

Ltac quiet_all :=
  repeat first
    [ quiet_step
    | apply quiet_add_number
    | apply quiet_add_episode
    | apply quiet_hianime_item
    | apply quiet_animepahe_item
    | apply quiet_parsed_number
    | apply quiet_hianime_find
    | apply quiet_animepahe_find ].

(** What follows a request in a run. *)
Lemma requests_after_get {A B : Type} (url : string) (hs : list (string * string))
      (logs : list event) (a : A) (f : A -> M B) :
  requests logs = [] -> quiet (f a) ->
  requests (trace (bind (Get url hs :: logs, Ok a) f)) = [url].
Proof.
  intros Hlogs Hq. rewrite bind_ok. unfold trace at 1, fst.
  rewrite <- app_comm_cons, requests_cons_get, requests_app, Hlogs, Hq. reflexivity.
Qed.

(** A request of the HTML-scraping adapter that raised ends the run. *)
Lemma requests_after_fetch {B : Type} (url : string) (hs : list (string * string))
      (r : result json) (f : json -> M B) :
  (forall doc, quiet (f doc)) ->
  requests (trace (bind ([Get url hs], r) f)) = [url].
Proof.
  intros Hq. destruct r as [doc | e]; [| reflexivity].
  apply requests_after_get; [reflexivity | apply Hq].
Qed.

End QuietMore.

(** ** More on search *)

Section Extra_search.
Import Shape Behaviour Fixture Scenario Cases.

(** X1.  A failure of the request or of the decoding does not leave the
    search of the JSON-API adapter: for a non-empty query the run is the
    request, the error record of [_request] and the warning of [search],
    and it yields nothing. *)
Theorem hianime_search_absorbs_failure (rt : Runtime) (q : string)
        (limit : option Z) (msg : string) :
  q <> "" ->
  fetch rt (HiAnimeScraper.search_url ++ "?q=" ++ quote_plus q) [] = inl msg ->
  HiAnimeScraper.search rt q limit
  = ([Get (HiAnimeScraper.search_url ++ "?q=" ++ quote_plus q) [];
      Log ERROR ("Error making request to "
                 ++ (HiAnimeScraper.search_url ++ "?q=" ++ quote_plus q) ++ ": " ++ msg);
      Log WARNING ("No results found for query: " ++ q)],
     Ok tt).
Proof.
  intros Hq Hf. unfold HiAnimeScraper.search.
  rewrite (SearchFacts.query_given _ Hq), (HiAnimeFacts.request_failed _ _ _ Hf), bind_ok.
  rewrite HiAnimeFacts.lacks_fallback, bind_ret_l. reflexivity.
Qed.

Lemma hianime_search_absorbs_failure_witness :
  yielded (trace (HiAnimeScraper.search down "naruto" None)) = []
  /\ outcome (HiAnimeScraper.search down "naruto" None) = Ok tt.
Proof.
  rewrite (hianime_search_absorbs_failure down "naruto" None "404 Not Found");
    [split; reflexivity | discriminate | reflexivity].
Defined.

(** X2.  A search sends one request and no other, whatever the site
    answers: the JSON-API adapter to the search URL with [?q=] and the
    encoded query (for a non-empty query), the HTML-scraping adapter to its
    search URL followed by the encoded query.  The encoded query is made of
    unreserved characters, ["+"] and percent escapes only, so that the
    query adds no parameter to the URL; a query of unreserved characters is
    sent as it is. *)
Theorem search_sends_one_encoded_request (rt : Runtime) (q : string) (limit : option Z) :
  q <> "" ->
  requests (trace (HiAnimeScraper.search rt q limit))
  = [HiAnimeScraper.search_url ++ "?q=" ++ quote_plus q]
  /\ requests (trace (AnimePaheScraper.search rt q limit))
     = [AnimePaheScraper.search_url ++ quote_plus q]
  /\ all_chars url_safe (quote_plus q) = true
  /\ (all_chars is_unreserved q = true -> quote_plus q = q).
Proof.
  intros Hq. repeat apply conj.
  - unfold HiAnimeScraper.search. rewrite (SearchFacts.query_given _ Hq).
    destruct (HiAnimeFacts.request_total rt
                (HiAnimeScraper.search_url ++ "?q=" ++ quote_plus q))
      as (doc & logs & -> & Hlogs).
    apply QuietMore.requests_after_get; [exact Hlogs |]. QuietMore.quiet_all.
  - unfold AnimePaheScraper.search. rewrite AnimePaheFacts.request_run.
    apply QuietMore.requests_after_fetch. intros doc. QuietMore.quiet_all.
  - apply StringFacts.quote_plus_safe.
  - apply StringFacts.quote_plus_unreserved.
Qed.

Lemma search_sends_one_encoded_request_witness :
  requests (trace (HiAnimeScraper.search hianime "one piece & co" (Some 3)))
  = [HiAnimeScraper.search_url ++ "?q=one+piece+%26+co"]
  /\ requests (trace (AnimePaheScraper.search animepahe "naruto" None))
     = [AnimePaheScraper.search_url ++ "naruto"].
Proof.
  destruct (search_sends_one_encoded_request hianime "one piece & co" (Some 3))
    as (Hhi & _); [discriminate |].
  destruct (search_sends_one_encoded_request animepahe "naruto" None)
    as (_ & Hpahe & _); [discriminate |].
  split; [exact Hhi | exact Hpahe].
Defined.

End Extra_search.

Module SearchMore.
Import Shape Behaviour.

(** The slice and the loop of [search], on a list. *)
Lemma loop_over_kept (body : json -> M unit) (limit : option Z) (items : list json) :
  (animes <- match limit with
             | Some k => lift (slice_to (JList items) k)
             | None => ret (JList items)
             end ;;
   items' <- iter animes ;;
   for_each items' body)
  = for_each (kept limit items) body.
Proof.
  destruct limit as [k |]; simpl kept.
  - unfold slice_to. rewrite bind_lift_ok. simpl iter. rewrite bind_lift_ok. reflexivity.
  - rewrite bind_ret_l. simpl iter. rewrite bind_lift_ok. reflexivity.
Qed.

(** A loop that meets an item on which its body raises at once has yielded
    the entries of the items before it. *)
Lemma for_each_until (decode : json -> option entry) (body : json -> M unit)
      (good rest : list json) (bad : json) (entries : list entry) (e : exn) :
  (forall a x, decode a = Some x -> body a = ([Yield (metadata_of x)], Ok tt)) ->
  map decode good = map Some entries ->
  body bad = ([], Raise e) ->
  for_each (good ++ bad :: rest)%list body
  = (map Yield (map metadata_of entries), Raise e).
Proof.
  intros Hbody Hgood Hbad. revert entries Hgood.
  induction good as [| a good IH]; intros [| x entries] H; try discriminate.
  - simpl. rewrite Hbad. reflexivity.
  - injection H as Ha Hrest. simpl app. simpl for_each.
    rewrite (Hbody _ _ Ha), bind_ok, (IH _ Hrest). reflexivity.
Qed.

Lemma hianime_item_raises (anime : json) (e : exn) :
  outcome (HiAnimeScraper.search_item anime) = Raise e ->
  HiAnimeScraper.search_item anime = ([], Raise e).
Proof.
  unfold HiAnimeScraper.search_item.
  destruct (getitem anime "id") as [i | e1];
    [rewrite bind_lift_ok | intros [= ->]; reflexivity].
  destruct (getitem anime "name") as [t | e1];
    [rewrite bind_lift_ok | intros [= ->]; reflexivity].
  destruct (getitem anime "episodes") as [eps | e1];
    [rewrite bind_lift_ok | intros [= ->]; reflexivity].
  destruct (getitem eps "sub") as [sub | e1];
    [rewrite bind_lift_ok | intros [= ->]; reflexivity].
  destruct (gt_int sub 1) as [multi | e1];
    [rewrite bind_lift_ok; discriminate | intros [= ->]; reflexivity].
Qed.

Lemma animepahe_item_raises (anime : json) (e : exn) :
  outcome (AnimePaheScraper.search_item anime) = Raise e ->
  AnimePaheScraper.search_item anime = ([], Raise e).
Proof.
  unfold AnimePaheScraper.search_item.
  destruct (getitem anime "session") as [i | e1];
    [rewrite bind_lift_ok | intros [= ->]; reflexivity].
  destruct (getitem anime "title") as [t | e1];
    [rewrite bind_lift_ok | intros [= ->]; reflexivity].
  destruct (getitem anime "episodes") as [eps | e1];
    [rewrite bind_lift_ok | intros [= ->]; reflexivity].
  destruct (gt_int eps 1) as [multi | e1];
    [rewrite bind_lift_ok; discriminate | intros [= ->]; reflexivity].
Qed.

(** The run of a search over a list of results, as the loop over the
    results it keeps. *)
Lemma hianime_search_loop (rt : Runtime) (q : string) (limit : option Z)
      (doc : json) (animes : list json) :
  q <> "" ->
  fetch rt (HiAnimeScraper.search_url ++ "?q=" ++ quote_plus q) [] = inr doc ->
  listing doc "animes" = Some animes ->
  HiAnimeScraper.search rt q limit
  = (Get (HiAnimeScraper.search_url ++ "?q=" ++ quote_plus q) []
       :: trace (for_each (kept limit animes) HiAnimeScraper.search_item),
     outcome (for_each (kept limit animes) HiAnimeScraper.search_item)).
Proof.
  intros Hq Hf Hl. unfold HiAnimeScraper.search.
  rewrite (SearchFacts.query_given _ Hq), (HiAnimeFacts.request_ok _ _ _ Hf), bind_ok.
  rewrite (HiAnimeFacts.lacks_listing _ _ _ Hl), bind_ret_l.
  rewrite (HiAnimeFacts.data_of_listing _ _ _ Hl), bind_ret_l.
  rewrite loop_over_kept. reflexivity.
Qed.

Lemma animepahe_search_loop (rt : Runtime) (q : string) (limit : option Z)
      (doc : json) (animes : list json) :
  fetch rt (AnimePaheScraper.search_url ++ quote_plus q) AnimePaheScraper.headers = inr doc ->
  data_list doc = Some animes ->
  AnimePaheScraper.search rt q limit
  = (Get (AnimePaheScraper.search_url ++ quote_plus q) AnimePaheScraper.headers
       :: trace (for_each (kept limit animes) AnimePaheScraper.search_item),
     outcome (for_each (kept limit animes) AnimePaheScraper.search_item)).
Proof.
  intros Hf Hl. unfold AnimePaheScraper.search.
  rewrite (AnimePaheFacts.request_decoded _ _ _ Hf), bind_ok.
  rewrite (SearchFacts.data_list_get _ _ Hl), bind_lift_ok.
  rewrite loop_over_kept. reflexivity.
Qed.

Lemma kept_negative {A : Type} (f : json -> A) (g : entry -> A)
      (animes : list json) (entries : list entry) (k : Z) :
  k < 0 ->
  map f animes = map g entries ->
  map f (kept (Some k) animes)
  = map g (firstn (List.length entries - Z.to_nat (- k)) entries).
Proof.
  intros Hk H. unfold kept, slice_len.
  destruct (Z.leb_spec 0 k) as [Hle | _]; [lia |].
  assert (Hlen : List.length animes = List.length entries).
  { rewrite <- (length_map f animes), H. apply length_map. }
  rewrite Hlen.
  replace (Z.to_nat (Z.of_nat (List.length entries) + k))
    with (List.length entries - Z.to_nat (- k))%nat by lia.
  apply SearchFacts.map_firstn_decode, H.
Qed.

End SearchMore.

Section Extra_search_loop.
Import Shape Behaviour Fixture Scenario Cases.

(** X3.  The entries of a search are produced one by one: when the results
    the search keeps are conforming up to one on which the body of the loop
    raises (a missing field, a count that is no number), the entries of the
    results before it have been yielded, in order, and the exception ends
    the iteration after them.  Both adapters. *)
Theorem search_yields_before_malformed (rt : Runtime) (q : string) (limit : option Z) :
  q <> "" ->
  (forall doc animes good bad rest entries e,
     fetch rt (HiAnimeScraper.search_url ++ "?q=" ++ quote_plus q) [] = inr doc ->
     listing doc "animes" = Some animes ->
     kept limit animes = (good ++ bad :: rest)%list ->
     map hianime_entry good = map Some entries ->
     outcome (HiAnimeScraper.search_item bad) = Raise e ->
     yielded (trace (HiAnimeScraper.search rt q limit)) = map metadata_of entries
     /\ outcome (HiAnimeScraper.search rt q limit) = Raise e)
  /\ (forall doc animes good bad rest entries e,
     fetch rt (AnimePaheScraper.search_url ++ quote_plus q) AnimePaheScraper.headers
     = inr doc ->
     data_list doc = Some animes ->
     kept limit animes = (good ++ bad :: rest)%list ->
     map animepahe_entry good = map Some entries ->
     outcome (AnimePaheScraper.search_item bad) = Raise e ->
     yielded (trace (AnimePaheScraper.search rt q limit)) = map metadata_of entries
     /\ outcome (AnimePaheScraper.search rt q limit) = Raise e).
Proof.
  intros Hq. split; intros doc animes good bad rest entries e Hf Hl Hk Hgood Hbad.
  - rewrite (SearchMore.hianime_search_loop _ _ _ _ _ Hq Hf Hl), Hk.
    rewrite (SearchMore.for_each_until hianime_entry _ _ _ _ _ _
               SearchFacts.hianime_item Hgood (SearchMore.hianime_item_raises _ _ Hbad)).
    split; [| reflexivity]. unfold trace, fst. simpl yielded.
    apply SearchFacts.yielded_map_Yield.
  - rewrite (SearchMore.animepahe_search_loop _ _ _ _ _ Hf Hl), Hk.
    rewrite (SearchMore.for_each_until animepahe_entry _ _ _ _ _ _
               SearchFacts.animepahe_item Hgood (SearchMore.animepahe_item_raises _ _ Hbad)).
    split; [| reflexivity]. unfold trace, fst. simpl yielded.
    apply SearchFacts.yielded_map_Yield.
Qed.

Lemma search_yields_before_malformed_witness :
  yielded (trace (HiAnimeScraper.search hianime_second_malformed "naruto" None))
  = [mkMetadata (JStr "naruto-677") (JStr "naruto") MULTI JNull]
  /\ outcome (HiAnimeScraper.search hianime_second_malformed "naruto" None)
     = Raise KeyError.
Proof.
  refine (proj1 (search_yields_before_malformed hianime_second_malformed "naruto" None _)
                _ _ [result_of "naruto-677" "naruto" (JInt 500)]
                (obj [("id", JStr "boruto-1"); ("name", JStr "boruto")])
                [result_of "your-name-10" "Your Name" (JInt 1)]
                [mkEntry (JStr "naruto-677") (JStr "naruto") 500] KeyError _ _ _ _ _);
    [discriminate | reflexivity | reflexivity | reflexivity | reflexivity | reflexivity].
Defined.

(** X4.  A negative limit is a slice from the end: with [limit = k < 0] and
    a conforming answer, the search of either adapter yields the entries of
    all results but the last [-k] (none when there are not that many). *)
Theorem search_negative_limit (rt : Runtime) (q : string) (k : Z) :
  q <> "" ->
  k < 0 ->
  (forall doc animes entries,
     fetch rt (HiAnimeScraper.search_url ++ "?q=" ++ quote_plus q) [] = inr doc ->
     listing doc "animes" = Some animes ->
     map hianime_entry animes = map Some entries ->
     yielded (trace (HiAnimeScraper.search rt q (Some k)))
     = map metadata_of (firstn (List.length entries - Z.to_nat (- k)) entries)
     /\ outcome (HiAnimeScraper.search rt q (Some k)) = Ok tt)
  /\ (forall doc animes entries,
     fetch rt (AnimePaheScraper.search_url ++ quote_plus q) AnimePaheScraper.headers
     = inr doc ->
     data_list doc = Some animes ->
     map animepahe_entry animes = map Some entries ->
     yielded (trace (AnimePaheScraper.search rt q (Some k)))
     = map metadata_of (firstn (List.length entries - Z.to_nat (- k)) entries)
     /\ outcome (AnimePaheScraper.search rt q (Some k)) = Ok tt).
Proof.
  intros Hq Hk. split; intros doc animes entries Hf Hl He.
  - rewrite (SearchMore.hianime_search_loop _ _ _ _ _ Hq Hf Hl).
    rewrite (SearchFacts.for_each_yield hianime_entry _ SearchFacts.hianime_item _ _
               (SearchMore.kept_negative _ _ _ _ _ Hk He)).
    split; [| reflexivity]. unfold trace, fst. simpl yielded.
    apply SearchFacts.yielded_map_Yield.
  - rewrite (SearchMore.animepahe_search_loop _ _ _ _ _ Hf Hl).
    rewrite (SearchFacts.for_each_yield animepahe_entry _ SearchFacts.animepahe_item _ _
               (SearchMore.kept_negative _ _ _ _ _ Hk He)).
    split; [| reflexivity]. unfold trace, fst. simpl yielded.
    apply SearchFacts.yielded_map_Yield.
Qed.

Lemma search_negative_limit_witness :
  yielded (trace (HiAnimeScraper.search hianime_three "naruto" (Some (-1))))
  = [mkMetadata (JStr "naruto-677") (JStr "naruto") MULTI JNull;
     mkMetadata (JStr "boruto-1") (JStr "boruto") MULTI JNull]
  /\ outcome (HiAnimeScraper.search hianime_three "naruto" (Some (-1))) = Ok tt.
Proof.
  refine (proj1 (search_negative_limit hianime_three "naruto" (-1) _ _)
                _ _ three_entries _ _ _);
    [discriminate | lia | reflexivity | reflexivity | reflexivity].
Defined.

End Extra_search_loop.

(** ** More on the JSON-API adapter *)

Section Extra_episode_map.
Import Shape Behaviour Fixture Scenario Cases.

(** X5.  When every item of the listing has a hashable number,
    [scrape_episodes] of the JSON-API adapter returns the mapping built from
    them: every number of the listing is a key that holds 1, and numbers
    that are equal as keys (1 and 1.0) share one key, so that the mapping
    has at most as many keys as the listing has items. *)
Theorem hianime_episode_map_lookup (rt : Runtime) (metadata : Metadata)
        (doc : json) (items numbers : list json) :
  fetch rt (HiAnimeScraper.listing_url rt metadata) [] = inr doc ->
  listing doc "episodes" = Some items ->
  Forall2 (fun ep n => field ep "number" = Some n) items numbers ->
  forallb hashable numbers = true ->
  numbers <> [] ->
  outcome (HiAnimeScraper.scrape_episodes rt metadata) = Ok (number_map numbers)
  /\ (forall n, In n numbers -> dict_lookup (number_map numbers) n = Some 1)
  /\ (List.length (number_map numbers) <= List.length numbers)%nat.
Proof.
  intros Hf Hl Hall Hh Hne. repeat apply conj.
  - unfold HiAnimeScraper.scrape_episodes.
    rewrite (HiAnimeFacts.request_ok _ _ _ Hf), outcome_bind_run.
    rewrite (HiAnimeFacts.lacks_listing _ _ _ Hl), bind_ret_l.
    rewrite (HiAnimeFacts.data_of_listing _ _ _ Hl), bind_ret_l.
    simpl iter. rewrite bind_lift_ok.
    rewrite (DictFacts.hianime_loop _ _ Hall Hh), bind_ret_l.
    fold (number_map numbers).
    destruct (number_map numbers) eqn:E; [| reflexivity].
    exfalso. exact (EpisodeFacts.number_map_nonempty _ Hne E).
  - intros n Hin. apply DictFacts.lookup_number_from; [| left; exact Hin].
    rewrite forallb_forall in Hh. apply Hh, Hin.
  - apply (DictFacts.number_map_length_from numbers []).
Qed.

Lemma hianime_episode_map_lookup_witness :
  outcome (HiAnimeScraper.scrape_episodes hianime_repeated naruto)
  = Ok [(JInt 1, 1); (JInt 2, 1)]
  /\ dict_lookup [(JInt 1, 1); (JInt 2, 1)] (JFloat (S754_finite false 1 0)) = Some 1.
Proof.
  destruct (hianime_episode_map_lookup hianime_repeated naruto
              (obj [("data", obj [("episodes",
                 JList [obj [("number", JInt 1); ("episodeId", JStr "abc")];
                        obj [("number", JInt 2); ("episodeId", JStr "def")];
                        obj [("number", JFloat (S754_finite false 1 0));
                             ("episodeId", JStr "abc-dub")]])])])
              _ [JInt 1; JInt 2; JFloat (S754_finite false 1 0)]
              eq_refl eq_refl) as (Hrun & Hlookup & _).
  - repeat constructor.
  - reflexivity.
  - discriminate.
  - split; [exact Hrun |].
    apply (Hlookup (JFloat (S754_finite false 1 0))). right; right; left; reflexivity.
Defined.

End Extra_episode_map.

Module ResolveFacts.
Import Shape Behaviour.

Lemma add_track_run (subtitles : list (json * json)) (track : json)
      (c : option (json * json)) :
  caption track = Some c ->
  HiAnimeScraper.add_track subtitles track = ret (add_caption subtitles c).
Proof.
  unfold caption, HiAnimeScraper.add_track.
  destruct (field track "kind") as [kind |] eqn:Ek; [| discriminate].
  rewrite (field_getitem _ _ _ Ek), bind_lift_ok.
  destruct (str_eq "captions" kind); [| intros [= <-]; reflexivity].
  destruct (field track "file") as [file |] eqn:Ef; [| discriminate].
  destruct (field track "label") as [label |] eqn:El; [| discriminate].
  destruct (hashable label) eqn:Eh; [| discriminate]. intros [= <-].
  rewrite (field_getitem _ _ _ Ef), bind_lift_ok.
  rewrite (field_getitem _ _ _ El), bind_lift_ok.
  unfold setitem. rewrite Eh. reflexivity.
Qed.

Lemma tracks_loop (tracks : list json) (captions : list (option (json * json))) :
  map caption tracks = map Some captions ->
  forall s,
    for_fold tracks s HiAnimeScraper.add_track = ret (fold_left add_caption captions s).
Proof.
  revert captions. induction tracks as [| track tracks IH]; intros [| c captions] H s;
    try discriminate; [reflexivity |].
  injection H as Hc Hrest. simpl for_fold.
  rewrite (add_track_run _ _ _ Hc), bind_ret_l. simpl fold_left. apply IH, Hrest.
Qed.

Lemma tracks_of_inv (doc : json) (tracks : list json) :
  tracks_of doc = Some tracks ->
  exists d,
    field doc "data" = Some (JDict d)
    /\ (dict_get d "tracks" = None /\ tracks = []
        \/ dict_get d "tracks" = Some (JList tracks)).
Proof.
  unfold tracks_of.
  destruct (field doc "data") as [[ | | | | | | d] |]; try discriminate.
  destruct (dict_get d "tracks") as [[ | | | | | l | ] |] eqn:E; try discriminate;
    intros [= <-]; exists d; rewrite E; split; auto.
Qed.

(** The subtitles part of the resolution, lines 166-171, before what
    follows it. *)
Lemma subtitles_run {B : Type} (d : list (string * json)) (tracks : list json)
      (captions : list (option (json * json))) (k : list (json * json) -> M B) :
  dict_get d "tracks" = None /\ tracks = [] \/ dict_get d "tracks" = Some (JList tracks) ->
  map caption tracks = map Some captions ->
  (has_tracks <- contains "tracks" (JDict d) ;;
   subtitles <- (if (has_tracks : bool) then
                   tracks <- getitem (JDict d) "tracks" ;;
                   items <- iter tracks ;;
                   for_fold items [] HiAnimeScraper.add_track
                 else ret []) ;;
   k subtitles)
  = k (subtitles_of captions).
Proof.
  intros [[Hd ->] | Hd] Hc; simpl contains; rewrite Hd, bind_lift_ok.
  - destruct captions; [apply bind_ret_l | discriminate].
  - simpl getitem. rewrite Hd, bind_lift_ok. simpl iter. rewrite bind_lift_ok.
    rewrite (tracks_loop _ _ Hc). apply bind_ret_l.
Qed.

(** The resolution of a target whose sources document is well formed. *)
Lemma scrape_sources_resolved (rt : Runtime) (metadata : Metadata)
      (episode : option EpisodeSelector) (target episode_id doc first url : json)
      (others tracks : list json) (captions : list (option (json * json))) :
  field target "episodeId" = Some episode_id ->
  fetch rt (HiAnimeScraper.sources_url rt episode_id) [] = inr doc ->
  listing doc "sources" = Some (first :: others) ->
  field first "url" = Some url ->
  tracks_of doc = Some tracks ->
  map caption tracks = map Some captions ->
  outcome (HiAnimeScraper.scrape_sources rt metadata episode target)
  = match type metadata with
    | MULTI =>
        match getitem target "number" with
        | Ok number =>
            Ok (Multi url
                      (JStr (py_str rt (title metadata) ++ " - Episode "
                             ++ py_str rt number))
                      (Given "https://hianime.to") episode
                      (Given (SubsDict (subtitles_of captions))))
        | Raise e => Raise e
        end
    | SINGLE =>
        Ok (Single url (title metadata) (Given "https://hianime.to")
                   (Given (year metadata)) Omitted)
    end.
Proof.
  intros Ht Hf Hl Hu Htr Hc. unfold HiAnimeScraper.scrape_sources.
  rewrite (field_getitem _ _ _ Ht), bind_lift_ok.
  rewrite (HiAnimeFacts.request_ok _ _ _ Hf), outcome_bind_run.
  rewrite (HiAnimeFacts.lacks_listing _ _ _ Hl), bind_ret_l.
  rewrite (HiAnimeFacts.data_of_listing _ _ _ Hl), bind_ret_l.
  simpl getitem0. rewrite bind_lift_ok.
  rewrite (field_getitem _ _ _ Hu), bind_lift_ok.
  destruct (tracks_of_inv _ _ Htr) as (d & Hd & Hcases).
  rewrite (field_getitem _ _ _ Hd), bind_lift_ok.
  rewrite (subtitles_run _ _ _ _ Hcases Hc).
  destruct (type metadata); simpl is_multi; cbv iota; [reflexivity |].
  destruct (getitem target "number"); reflexivity.
Qed.

End ResolveFacts.

Section Extra_resolution.
Import Shape Behaviour Fixture Scenario Cases.

(** X6.  With a sources document of the site's shape, [scrape] of the
    JSON-API adapter resolves its target to the URL of the first source,
    whatever sources follow it.  For a series the subtitles are the caption
    tracks only, label to file in the order of the document (a track of
    another kind adds nothing, and a document without tracks gives no
    subtitles); for a film there are no subtitles. *)
Theorem hianime_scrape_resolves_first_source (rt : Runtime) (metadata : Metadata)
        (episode : option EpisodeSelector) (doc target episode_id sources first url : json)
        (others tracks : list json) (captions : list (option (json * json))) :
  fetch rt (HiAnimeScraper.listing_url rt metadata) [] = inr doc ->
  field target "episodeId" = Some episode_id ->
  fetch rt (HiAnimeScraper.sources_url rt episode_id) [] = inr sources ->
  listing sources "sources" = Some (first :: others) ->
  field first "url" = Some url ->
  tracks_of sources = Some tracks ->
  map caption tracks = map Some captions ->
  (type metadata = SINGLE ->
   forall rest,
     listing doc "episodes" = Some (target :: rest) ->
     outcome (HiAnimeScraper.scrape rt metadata episode)
     = Ok (Single url (title metadata) (Given "https://hianime.to")
                  (Given (year metadata)) Omitted))
  /\ (type metadata = MULTI ->
      forall before after number,
        listing doc "episodes" = Some (before ++ target :: after)%list ->
        Forall (other_number (requested_episode episode)) before ->
        field target "number" = Some number ->
        eq_int number (requested_episode episode) = true ->
        outcome (HiAnimeScraper.scrape rt metadata episode)
        = Ok (Multi url
                    (JStr (py_str rt (title metadata) ++ " - Episode "
                           ++ py_str rt number))
                    (Given "https://hianime.to") episode
                    (Given (SubsDict (subtitles_of captions))))).
Proof.
  intros Hf Ht Hs Hl Hu Htr Hc.
  pose proof (ResolveFacts.scrape_sources_resolved rt metadata episode _ _ _ _ _ _ _ _
                Ht Hs Hl Hu Htr Hc) as Hres.
  split.
  - intros Hty rest Hlist.
    rewrite (hianime_scrape_single _ _ _ _ _ _ Hty Hf Hlist).
    unfold outcome at 1, snd. rewrite Hres, Hty. reflexivity.
  - intros Hty before after number Hlist Hb Hn Heq.
    rewrite (SeriesFacts.hianime_scrape_series_found _ _ _ _ _ _ _ _
               Hty Hf Hlist Hb Hn Heq).
    unfold outcome at 1, snd. rewrite Hres, Hty, (field_getitem _ _ _ Hn). reflexivity.
Qed.

Lemma hianime_scrape_resolves_first_source_witness :
  outcome (HiAnimeScraper.scrape hianime_subtitled naruto (ep 2))
  = Ok (Multi (JStr "https://x/vid.m3u8") (JStr "naruto - Episode 2")
              (Given "https://hianime.to") (ep 2)
              (Given (SubsDict [(JStr "English", JStr "https://x/en.vtt");
                                (JStr "Spanish", JStr "https://x/es.vtt")])))
  /\ outcome (HiAnimeScraper.scrape hianime_subtitled movie None)
     = Ok (Single (JStr "https://x/vid.m3u8") (JStr "Your Name")
                  (Given "https://hianime.to") (Given JNull) Omitted).
Proof.
  split.
  - refine (proj2 (hianime_scrape_resolves_first_source hianime_subtitled naruto (ep 2)
                     (snd naruto_listing)
                     (obj [("number", JInt 2); ("episodeId", JStr "def")]) (JStr "def")
                     subtitled_sources _ (JStr "https://x/vid.m3u8") _ _
                     [Some (JStr "English", JStr "https://x/en.vtt"); None;
                      Some (JStr "Spanish", JStr "https://x/es.vtt")]
                     _ _ _ _ _ _ _) _
                  [obj [("number", JInt 1); ("episodeId", JStr "abc")]] [] (JInt 2)
                  _ _ _ _); try reflexivity.
    repeat constructor. exists (JInt 1). split; reflexivity.
  - refine (proj1 (hianime_scrape_resolves_first_source hianime_subtitled movie None
                     (snd movie_listing)
                     (obj [("number", JInt 1); ("episodeId", JStr "yn1")]) (JStr "yn1")
                     subtitled_sources _ (JStr "https://x/vid.m3u8") _ _
                     [Some (JStr "English", JStr "https://x/en.vtt"); None;
                      Some (JStr "Spanish", JStr "https://x/es.vtt")]
                     _ _ _ _ _ _ _) _ [] _); reflexivity.
Defined.

End Extra_resolution.

Section Extra_hianime_exits.
Import Shape Behaviour Fixture Scenario Cases.

Lemma lacks_falsy (doc : json) (key : string) :
  truthy doc = false -> HiAnimeScraper.lacks doc key = ret true.
Proof.
  intros H. unfold HiAnimeScraper.lacks, orelse. rewrite !bind_ret_l, H. reflexivity.
Qed.

Lemma lacks_number (doc : json) (key : string) :
  truthy doc = true -> to_num doc <> None ->
  HiAnimeScraper.lacks doc key = raise TypeError.
Proof.
  intros H Hn. unfold HiAnimeScraper.lacks, orelse. rewrite !bind_ret_l, H.
  destruct doc; try reflexivity; simpl in Hn; contradiction.
Qed.

Lemma hianime_scrape_series_absent_run (rt : Runtime) (metadata : Metadata)
      (episode : option EpisodeSelector) (doc : json) (items : list json) :
  type metadata = MULTI ->
  fetch rt (HiAnimeScraper.listing_url rt metadata) [] = inr doc ->
  listing doc "episodes" = Some items ->
  Forall (other_number (requested_episode episode)) items ->
  HiAnimeScraper.scrape rt metadata episode
  = ([Get (HiAnimeScraper.listing_url rt metadata) [];
      Log ERROR ("Episode " ++ str_of_int (requested_episode episode)
                 ++ " not found for anime ID: " ++ py_str rt (id metadata))],
     Ok (HiAnimeScraper.placeholder_multi metadata episode)).
Proof.
  intros Hty Hf Hl Hall. unfold HiAnimeScraper.scrape.
  rewrite (HiAnimeFacts.request_ok _ _ _ Hf), bind_ok.
  rewrite (HiAnimeFacts.lacks_listing _ _ _ Hl), bind_ret_l.
  rewrite (HiAnimeFacts.data_of_listing _ _ _ Hl), bind_ret_l.
  rewrite Hty. simpl is_multi. cbv iota. simpl iter. rewrite bind_lift_ok.
  rewrite (SeriesFacts.hianime_find_none _ _ Hall), bind_ret_l. reflexivity.
Qed.

(** X7.  For a series, [scrape] of the JSON-API adapter goes on with the
    first element of the listing whose number equals the requested one
    (elements after it, with the same number or not, are not looked at):
    the run is the listing request followed by the resolution of that
    element, whose sources are the second request. *)
Theorem hianime_series_first_match (rt : Runtime) (metadata : Metadata)
        (episode : option EpisodeSelector) (doc target number : json)
        (before after : list json) :
  type metadata = MULTI ->
  fetch rt (HiAnimeScraper.listing_url rt metadata) [] = inr doc ->
  listing doc "episodes" = Some (before ++ target :: after)%list ->
  Forall (other_number (requested_episode episode)) before ->
  field target "number" = Some number ->
  eq_int number (requested_episode episode) = true ->
  HiAnimeScraper.scrape rt metadata episode
  = (Get (HiAnimeScraper.listing_url rt metadata) []
       :: trace (HiAnimeScraper.scrape_sources rt metadata episode target),
     outcome (HiAnimeScraper.scrape_sources rt metadata episode target))
  /\ forall episode_id,
       field target "episodeId" = Some episode_id ->
       requests (trace (HiAnimeScraper.scrape rt metadata episode))
       = [HiAnimeScraper.listing_url rt metadata;
          HiAnimeScraper.sources_url rt episode_id].
Proof.
  intros Hty Hf Hl Hb Hn Heq.
  pose proof (SeriesFacts.hianime_scrape_series_found _ _ _ _ _ _ _ _
                Hty Hf Hl Hb Hn Heq) as Hrun.
  split; [exact Hrun |]. intros episode_id Hid. rewrite Hrun.
  unfold trace at 1, fst. rewrite QuietFacts.requests_cons_get.
  rewrite (QuietFacts.scrape_sources_requests _ _ _ _ _ Hid). reflexivity.
Qed.

Lemma hianime_series_first_match_witness :
  requests (trace (HiAnimeScraper.scrape hianime_repeated naruto None))
  = [HiAnimeScraper.anime_url ++ "/naruto-677/episodes";
     HiAnimeScraper.episode_url ++ "?animeEpisodeId=abc"].
Proof.
  refine (proj2 (hianime_series_first_match hianime_repeated naruto None _
                   (obj [("number", JInt 1); ("episodeId", JStr "abc")]) (JInt 1)
                   []
                   [obj [("number", JInt 2); ("episodeId", JStr "def")];
                    obj [("number", JFloat (S754_finite false 1 0));
                         ("episodeId", JStr "abc-dub")]]
                   _ _ _ _ _ _) (JStr "abc") _);
    try reflexivity. constructor.
Defined.

(** X8.  The two exits "not found" of [scrape] of the JSON-API adapter.  For
    a series whose listing has no element with the requested number, the
    run is the listing request and one error record naming the number and
    the identifier, and the result is the [Multi] placeholder carrying the
    selector.  For a film whose listing is the empty list, the run is the
    listing request and the record "No episodes found", and the result is
    the [Single] placeholder.  No second request is sent. *)
Theorem hianime_scrape_not_found_exits (rt : Runtime) (metadata : Metadata)
        (episode : option EpisodeSelector) (doc : json) (items : list json) :
  fetch rt (HiAnimeScraper.listing_url rt metadata) [] = inr doc ->
  listing doc "episodes" = Some items ->
  (type metadata = MULTI ->
   Forall (other_number (requested_episode episode)) items ->
   HiAnimeScraper.scrape rt metadata episode
   = ([Get (HiAnimeScraper.listing_url rt metadata) [];
       Log ERROR ("Episode " ++ str_of_int (requested_episode episode)
                  ++ " not found for anime ID: " ++ py_str rt (id metadata))],
      Ok (Multi (JStr "") (title metadata) (Given "") episode (Given SubsNone))))
  /\ (type metadata = SINGLE ->
      items = [] ->
      HiAnimeScraper.scrape rt metadata episode
      = ([Get (HiAnimeScraper.listing_url rt metadata) [];
          Log ERROR ("No episodes found for anime ID: " ++ py_str rt (id metadata))],
         Ok (Single (JStr "") (title metadata) (Given "") (Given (year metadata))
                    Omitted))).
Proof.
  intros Hf Hl. split.
  - intros Hty Hall. apply (hianime_scrape_series_absent_run _ _ _ _ _ Hty Hf Hl Hall).
  - intros Hty ->. unfold HiAnimeScraper.scrape.
    rewrite (HiAnimeFacts.request_ok _ _ _ Hf), bind_ok.
    rewrite (HiAnimeFacts.lacks_listing _ _ _ Hl), bind_ret_l.
    rewrite (HiAnimeFacts.data_of_listing _ _ _ Hl), bind_ret_l.
    rewrite Hty. reflexivity.
Qed.

Lemma hianime_scrape_not_found_exits_witness :
  outcome (HiAnimeScraper.scrape hianime naruto (ep 99))
  = Ok (Multi (JStr "") (JStr "naruto") (Given "") (ep 99) (Given SubsNone))
  /\ outcome (HiAnimeScraper.scrape hianime_scalars movie (ep 1))
     = Ok (Single (JStr "") (JStr "Your Name") (Given "") (Given JNull) Omitted).
Proof.
  split.
  - rewrite (proj1 (hianime_scrape_not_found_exits hianime naruto (ep 99)
                      (snd naruto_listing) _ eq_refl eq_refl) eq_refl);
      [reflexivity |].
    repeat constructor; eexists; split; reflexivity.
  - rewrite (proj2 (hianime_scrape_not_found_exits hianime_scalars movie (ep 1)
                      (obj [("data", obj [("episodes", JList [])])]) _ eq_refl eq_refl)
                   eq_refl eq_refl).
    reflexivity.
Defined.

(** X9.  A decoded document that is no object.  A document that is false
    in a test ([null], [false], 0, the empty string, list or object) is
    taken as "no data" by the JSON-API adapter: the search yields nothing
    after a warning, [scrape_episodes] returns [{None: 1}] and [scrape] the
    [Single] placeholder.  A number other than zero, or [true], gets
    through the first test and the test ["data" not in] raises [TypeError],
    which leaves all three operations. *)
Theorem hianime_document_not_an_object (rt : Runtime) (metadata : Metadata)
        (episode : option EpisodeSelector) (q : string) (limit : option Z) (doc : json) :
  q <> "" ->
  (truthy doc = false ->
   (fetch rt (HiAnimeScraper.search_url ++ "?q=" ++ quote_plus q) [] = inr doc ->
    HiAnimeScraper.search rt q limit
    = ([Get (HiAnimeScraper.search_url ++ "?q=" ++ quote_plus q) [];
        Log WARNING ("No results found for query: " ++ q)], Ok tt))
   /\ (fetch rt (HiAnimeScraper.listing_url rt metadata) [] = inr doc ->
       outcome (HiAnimeScraper.scrape_episodes rt metadata) = Ok HiAnimeScraper.sentinel
       /\ outcome (HiAnimeScraper.scrape rt metadata episode)
          = Ok (HiAnimeScraper.placeholder_single metadata)))
  /\ (truthy doc = true -> to_num doc <> None ->
      (fetch rt (HiAnimeScraper.search_url ++ "?q=" ++ quote_plus q) [] = inr doc ->
       HiAnimeScraper.search rt q limit
       = ([Get (HiAnimeScraper.search_url ++ "?q=" ++ quote_plus q) []], Raise TypeError))
      /\ (fetch rt (HiAnimeScraper.listing_url rt metadata) [] = inr doc ->
          outcome (HiAnimeScraper.scrape_episodes rt metadata) = Raise TypeError
          /\ outcome (HiAnimeScraper.scrape rt metadata episode) = Raise TypeError)).
Proof.
  intros Hq. split.
  - intros Hfalse. split.
    + intros Hf. unfold HiAnimeScraper.search.
      rewrite (SearchFacts.query_given _ Hq), (HiAnimeFacts.request_ok _ _ _ Hf), bind_ok.
      rewrite (lacks_falsy _ _ Hfalse), bind_ret_l. reflexivity.
    + intros Hf. split.
      * unfold HiAnimeScraper.scrape_episodes.
        rewrite (HiAnimeFacts.request_ok _ _ _ Hf), outcome_bind_run.
        rewrite (lacks_falsy _ _ Hfalse), bind_ret_l. reflexivity.
      * unfold HiAnimeScraper.scrape.
        rewrite (HiAnimeFacts.request_ok _ _ _ Hf), outcome_bind_run.
        rewrite (lacks_falsy _ _ Hfalse), bind_ret_l. reflexivity.
  - intros Htrue Hnum. split.
    + intros Hf. unfold HiAnimeScraper.search.
      rewrite (SearchFacts.query_given _ Hq), (HiAnimeFacts.request_ok _ _ _ Hf), bind_ok.
      rewrite (lacks_number _ _ Htrue Hnum). reflexivity.
    + intros Hf. split.
      * unfold HiAnimeScraper.scrape_episodes.
        rewrite (HiAnimeFacts.request_ok _ _ _ Hf), outcome_bind_run.
        rewrite (lacks_number _ _ Htrue Hnum). reflexivity.
      * unfold HiAnimeScraper.scrape.
        rewrite (HiAnimeFacts.request_ok _ _ _ Hf), outcome_bind_run.
        rewrite (lacks_number _ _ Htrue Hnum). reflexivity.
Qed.

Lemma hianime_document_not_an_object_witness :
  yielded (trace (HiAnimeScraper.search hianime_scalars "naruto" None)) = []
  /\ outcome (HiAnimeScraper.search hianime_scalars "naruto" None) = Ok tt
  /\ outcome (HiAnimeScraper.scrape_episodes hianime_scalars naruto) = Raise TypeError
  /\ outcome (HiAnimeScraper.scrape hianime_scalars naruto (ep 1)) = Raise TypeError.
Proof.
  destruct (hianime_document_not_an_object hianime_scalars naruto (ep 1) "naruto" None JNull)
    as ((Hsearch & _) & _); [discriminate | reflexivity |].
  destruct (hianime_document_not_an_object hianime_scalars naruto (ep 1) "naruto" None
              (JInt 404)) as (_ & (_ & Hlisting));
    [discriminate | reflexivity | discriminate |].
  rewrite (Hsearch eq_refl). destruct (Hlisting eq_refl) as (He & Hs).
  repeat split; assumption.
Defined.

End Extra_hianime_exits.

(** ** How many requests a resolution sends *)

Module RequestFacts.
Import Behaviour QuietMore.

Lemma one_more_quiet {A : Type} (P : string -> Prop) (m : M A) :
  quiet m -> one_more P m.
Proof. intros H. left. exact H. Qed.

Lemma one_more_bind {A B : Type} (P : string -> Prop) (m : M A) (f : A -> M B) :
  quiet m -> (forall a, one_more P (f a)) -> one_more P (bind m f).
Proof.
  unfold one_more, quiet. intros Hm Hf. rewrite trace_bind.
  destruct (outcome m) as [a | e]; [| left; exact Hm].
  rewrite requests_app, Hm. exact (Hf a).
Qed.

Lemma scrape_sources_one_more (rt : Runtime) (metadata : Metadata)
      (episode : option EpisodeSelector) (target : json) :
  one_more (is_sources_url rt)
           (HiAnimeScraper.scrape_sources rt metadata episode target).
Proof.
  destruct (getitem target "episodeId") as [episode_id | e] eqn:E.
  - right. exists (HiAnimeScraper.sources_url rt episode_id).
    split; [exists episode_id; reflexivity |].
    apply QuietFacts.scrape_sources_requests, getitem_field, E.
  - left. unfold HiAnimeScraper.scrape_sources. rewrite E. reflexivity.
Qed.

Lemma scrape_page_one_more (rt : Runtime) (metadata : Metadata)
      (episode : option EpisodeSelector) (target : json) :
  one_more (is_page_url rt metadata)
           (AnimePaheScraper.scrape_page rt metadata episode target).
Proof.
  destruct (getitem target "session") as [session | e] eqn:E.
  - right. exists (AnimePaheScraper.page_url rt metadata session).
    split; [exists session; reflexivity |].
    apply QuietFacts.scrape_page_requests, getitem_field, E.
  - left. unfold AnimePaheScraper.scrape_page. rewrite E. reflexivity.
Qed.

Lemma one_more_after_get {A B : Type} (P : string -> Prop) (url : string)
      (hs : list (string * string)) (logs : list event) (a : A) (f : A -> M B) :
  requests logs = [] -> one_more P (f a) ->
  exists rest,
    requests (trace (bind (Get url hs :: logs, Ok a) f)) = url :: rest
    /\ (rest = [] \/ exists u, P u /\ rest = [u]).
Proof.
  intros Hlogs Hf. rewrite bind_ok. unfold trace at 1, fst.
  rewrite <- app_comm_cons, QuietFacts.requests_cons_get, requests_app, Hlogs, app_nil_l.
  eexists. split; [reflexivity | exact Hf].
Qed.

End RequestFacts.

Section Extra_requests.
Import Shape Behaviour Fixture Scenario Cases.

(** X10.  Whatever the site serves and however the run ends, [scrape]
    sends the listing request first and at most one request after it: a
    sources request (JSON-API adapter), the request for a playback page of
    the entry (HTML-scraping adapter). *)
Theorem scrape_sends_at_most_two_requests (rt : Runtime) (metadata : Metadata)
        (episode : option EpisodeSelector) :
  (exists rest,
     requests (trace (HiAnimeScraper.scrape rt metadata episode))
     = HiAnimeScraper.listing_url rt metadata :: rest
     /\ (rest = [] \/ exists url, is_sources_url rt url /\ rest = [url]))
  /\ (exists rest,
     requests (trace (AnimePaheScraper.scrape rt metadata episode))
     = AnimePaheScraper.listing_url rt metadata :: rest
     /\ (rest = [] \/ exists url, is_page_url rt metadata url /\ rest = [url])).
Proof.
  split.
  - unfold HiAnimeScraper.scrape.
    destruct (HiAnimeFacts.request_total rt (HiAnimeScraper.listing_url rt metadata))
      as (doc & logs & -> & Hlogs).
    apply RequestFacts.one_more_after_get; [exact Hlogs |].
    apply RequestFacts.one_more_bind; [QuietMore.quiet_all | intros failed].
    destruct failed; [apply RequestFacts.one_more_quiet; QuietMore.quiet_all |].
    apply RequestFacts.one_more_bind; [QuietMore.quiet_all | intros episodes].
    destruct (is_multi (type metadata)).
    + apply RequestFacts.one_more_bind; [QuietMore.quiet_all | intros items].
      apply RequestFacts.one_more_bind; [QuietMore.quiet_all | intros target].
      destruct (negb (truthy target)).
      * apply RequestFacts.one_more_quiet; QuietMore.quiet_all.
      * apply RequestFacts.scrape_sources_one_more.
    + destruct (truthy episodes).
      * apply RequestFacts.one_more_bind; [QuietMore.quiet_all | intros target].
        apply RequestFacts.scrape_sources_one_more.
      * apply RequestFacts.one_more_quiet; QuietMore.quiet_all.
  - unfold AnimePaheScraper.scrape. rewrite AnimePaheFacts.request_run.
    destruct (fetched (fetch rt (AnimePaheScraper.listing_url rt metadata)
                             AnimePaheScraper.headers)) as [doc | e].
    + apply RequestFacts.one_more_after_get; [reflexivity |].
      apply RequestFacts.one_more_bind; [QuietMore.quiet_all | intros episodes_data].
      apply RequestFacts.one_more_bind; [QuietMore.quiet_all | intros target].
      destruct (negb (truthy target)).
      * apply RequestFacts.one_more_quiet; QuietMore.quiet_all.
      * apply RequestFacts.scrape_page_one_more.
    + exists []. split; [reflexivity | left; reflexivity].
Qed.

End Extra_requests.

(** ** What the selector is read for *)

Module SelectorFacts.
Import Behaviour.

Lemma fmap_bind {A B C : Type} (g : B -> C) (m : M A) (k : A -> M B) :
  fmap g (bind m k) = bind m (fun a => fmap g (k a)).
Proof.
  unfold fmap. rewrite trace_bind, outcome_bind.
  destruct m as [t [a | e]]; [| reflexivity].
  rewrite bind_ok. reflexivity.
Qed.

Lemma bind_ext {A B : Type} (m : M A) (k1 k2 : A -> M B) :
  (forall a, k1 a = k2 a) -> bind m k1 = bind m k2.
Proof.
  intros H. destruct m as [t [a | e]]; [| reflexivity].
  rewrite !bind_ok, H. reflexivity.
Qed.

Lemma fmap_ret {A B : Type} (g : A -> B) (a : A) : fmap g (ret a) = ret (g a).
Proof. reflexivity. Qed.

Lemma fmap_raise {A B : Type} (g : A -> B) (e : exn) : fmap g (raise e) = raise e.
Proof. reflexivity. Qed.

Ltac push := rewrite fmap_bind; apply bind_ext; intros ?.

Tactic Notation "push" "as" ident(x) :=
  rewrite fmap_bind; apply bind_ext; intros x.

Lemma placeholder_with_selector (metadata : Metadata) (e1 e2 : option EpisodeSelector) :
  HiAnimeScraper.placeholder metadata e2
  = with_selector e2 (HiAnimeScraper.placeholder metadata e1).
Proof. unfold HiAnimeScraper.placeholder. destruct (is_multi (type metadata)); reflexivity. Qed.

Lemma scrape_sources_selector (rt : Runtime) (metadata : Metadata)
      (e1 e2 : option EpisodeSelector) (target : json) :
  HiAnimeScraper.scrape_sources rt metadata e2 target
  = fmap (with_selector e2) (HiAnimeScraper.scrape_sources rt metadata e1 target).
Proof.
  unfold HiAnimeScraper.scrape_sources.
  push as episode_id. push as sources_response. push as failed. destruct failed.
  - push. rewrite fmap_ret, <- placeholder_with_selector. reflexivity.
  - do 6 push. destruct (is_multi (type metadata)); [push |]; reflexivity.
Qed.

Lemma hianime_scrape_selector (rt : Runtime) (metadata : Metadata)
      (e1 e2 : option EpisodeSelector) :
  requested_episode e1 = requested_episode e2 ->
  HiAnimeScraper.scrape rt metadata e2
  = fmap (with_selector e2) (HiAnimeScraper.scrape rt metadata e1).
Proof.
  intros Heq. unfold HiAnimeScraper.scrape. rewrite <- Heq.
  push as anime_details. push as failed. destruct failed; [push; reflexivity |].
  push as episodes. destruct (is_multi (type metadata)).
  - push as items. push as target. destruct (negb (truthy target)).
    + push. reflexivity.
    + apply scrape_sources_selector.
  - destruct (truthy episodes).
    + push. apply scrape_sources_selector.
    + push. reflexivity.
Qed.

Lemma scrape_page_selector (rt : Runtime) (metadata : Metadata)
      (e1 e2 : option EpisodeSelector) (target : json) :
  selector_episode e1 = selector_episode e2 ->
  AnimePaheScraper.scrape_page rt metadata e2 target
  = fmap (with_selector e2) (AnimePaheScraper.scrape_page rt metadata e1 target).
Proof.
  intros Heq. unfold AnimePaheScraper.scrape_page. rewrite <- Heq.
  push as episode_session. push as episode_page_html. push as download_options.
  push as embed_sources. destruct download_options as [| option0 others]; [reflexivity |].
  do 3 push. destruct (is_multi (type metadata)); reflexivity.
Qed.

Lemma selector_episode_requested (e1 e2 : option EpisodeSelector) :
  selector_episode e1 = selector_episode e2 ->
  requested_episode e1 = requested_episode e2.
Proof.
  destruct e1 as [s1 |], e2 as [s2 |]; simpl; try discriminate; [| reflexivity].
  intros [= ->]. reflexivity.
Qed.

Lemma animepahe_scrape_selector (rt : Runtime) (metadata : Metadata)
      (e1 e2 : option EpisodeSelector) :
  selector_episode e1 = selector_episode e2 ->
  AnimePaheScraper.scrape rt metadata e2
  = fmap (with_selector e2) (AnimePaheScraper.scrape rt metadata e1).
Proof.
  intros Heq. unfold AnimePaheScraper.scrape.
  rewrite <- (selector_episode_requested _ _ Heq), <- Heq.
  push as response. push as episodes_data. push as target.
  destruct (negb (truthy target)).
  - push. reflexivity.
  - apply scrape_page_selector, Heq.
Qed.

End SelectorFacts.

Section Extra_selector.
Import Shape Behaviour Fixture Scenario Cases.

(** X11.  Of the selector, [scrape] reads the episode number only: the
    season is never looked at.  Two selectors that ask for the same episode
    give the same run (the same requests and log records, the same
    exception if one is raised) and the same descriptor, but for the
    selector it carries.  For the JSON-API adapter this covers the defaults
    too: no selector, episode 0 and episode 1 are one request; for the
    HTML-scraping adapter the selectors have to be both absent or to have
    the same episode. *)
Theorem scrape_reads_only_the_episode (rt : Runtime) (metadata : Metadata)
        (e1 e2 : option EpisodeSelector) :
  (requested_episode e1 = requested_episode e2 ->
   HiAnimeScraper.scrape rt metadata e2
   = fmap (with_selector e2) (HiAnimeScraper.scrape rt metadata e1))
  /\ (selector_episode e1 = selector_episode e2 ->
      AnimePaheScraper.scrape rt metadata e2
      = fmap (with_selector e2) (AnimePaheScraper.scrape rt metadata e1)).
Proof.
  split.
  - apply SelectorFacts.hianime_scrape_selector.
  - apply SelectorFacts.animepahe_scrape_selector.
Qed.

Lemma scrape_reads_only_the_episode_witness :
  HiAnimeScraper.scrape hianime naruto (Some (mkSelector 0 7))
  = fmap (with_selector (Some (mkSelector 0 7))) (HiAnimeScraper.scrape hianime naruto None)
  /\ AnimePaheScraper.scrape animepahe naruto (Some (mkSelector 2 9))
     = fmap (with_selector (Some (mkSelector 2 9)))
            (AnimePaheScraper.scrape animepahe naruto (ep 2)).
Proof.
  split.
  - apply (proj1 (scrape_reads_only_the_episode hianime naruto None
                    (Some (mkSelector 0 7)))). reflexivity.
  - apply (proj2 (scrape_reads_only_the_episode animepahe naruto (ep 2)
                    (Some (mkSelector 2 9)))). reflexivity.
Defined.

End Extra_selector.

(** ** The headers of the requests *)

Module HeaderFacts.
Import Behaviour QuietMore.

Lemma sent_with_quiet (hs : list (string * string)) (t : list event) :
  requests t = [] -> sent_with hs t.
Proof.
  unfold sent_with. induction t as [| ev t IH]; intros H; constructor.
  - destruct ev; [discriminate | exact I | exact I].
  - apply IH. destruct ev; [discriminate | exact H | exact H].
Qed.

Lemma sends_quiet {A : Type} (hs : list (string * string)) (m : M A) :
  quiet m -> sends hs m.
Proof. apply sent_with_quiet. Qed.

Lemma sends_bind {A B : Type} (hs : list (string * string)) (m : M A) (f : A -> M B) :
  sends hs m -> (forall a, sends hs (f a)) -> sends hs (bind m f).
Proof.
  unfold sends, sent_with. intros Hm Hf. rewrite trace_bind.
  destruct (outcome m) as [a | e]; [| exact Hm].
  apply Forall_app. split; [exact Hm | apply Hf].
Qed.

Lemma sends_get {A : Type} (hs : list (string * string)) (url : string) (r : result A) :
  sends hs ([Get url hs], r).
Proof. repeat constructor. Qed.

Lemma sends_hianime_request (rt : Runtime) (url : string) :
  sends [] (HiAnimeScraper._request rt url).
Proof.
  destruct (HiAnimeFacts.request_total rt url) as (doc & logs & -> & Hlogs).
  constructor; [reflexivity | apply sent_with_quiet, Hlogs].
Qed.

Lemma sends_animepahe_request (rt : Runtime) (url : string) :
  sends AnimePaheScraper.headers (AnimePaheScraper._request rt url).
Proof. rewrite AnimePaheFacts.request_run. apply sends_get. Qed.

Lemma sends_request_html (rt : Runtime) (url : string) :
  sends AnimePaheScraper.headers (AnimePaheScraper._request_html rt url).
Proof.
  unfold AnimePaheScraper._request_html. rewrite QuietFacts.http_client_get_run.
  apply sends_get.
Qed.

Ltac sends_all :=
  repeat first
    [ solve [apply sends_quiet; quiet_all]
    | apply sends_hianime_request
    | apply sends_animepahe_request
    | apply sends_request_html
    | apply sends_bind; [| intro]
    | match goal with
      | |- sends _ (if ?b then _ else _) => destruct b
      | |- sends _ (match ?x with _ => _ end) => destruct x
      end ].

Lemma sends_scrape_sources (rt : Runtime) (metadata : Metadata)
      (episode : option EpisodeSelector) (target : json) :
  sends [] (HiAnimeScraper.scrape_sources rt metadata episode target).
Proof. unfold HiAnimeScraper.scrape_sources. sends_all. Qed.

Lemma sends_scrape_page (rt : Runtime) (metadata : Metadata)
      (episode : option EpisodeSelector) (target : json) :
  sends AnimePaheScraper.headers
        (AnimePaheScraper.scrape_page rt metadata episode target).
Proof. unfold AnimePaheScraper.scrape_page. sends_all. Qed.

End HeaderFacts.

Section Extra_headers.
Import Shape Behaviour Fixture Scenario Cases.

(** X12.  Every request of the HTML-scraping adapter carries the header
    [Referer: https://animepahe.ru], in [search], [scrape_episodes],
    [scrape] and [_parse_kwik_link] alike, whatever the site serves; the
    requests of the JSON-API adapter carry no header. *)
Theorem requests_carry_the_referer (rt : Runtime) (metadata : Metadata)
        (episode : option EpisodeSelector) (q url : string) (limit : option Z) :
  AnimePaheScraper.headers = [("Referer", "https://animepahe.ru")]
  /\ sent_with AnimePaheScraper.headers (trace (AnimePaheScraper.search rt q limit))
  /\ sent_with AnimePaheScraper.headers
               (trace (AnimePaheScraper.scrape_episodes rt metadata))
  /\ sent_with AnimePaheScraper.headers
               (trace (AnimePaheScraper.scrape rt metadata episode))
  /\ sent_with AnimePaheScraper.headers (trace (AnimePaheScraper._parse_kwik_link rt url))
  /\ sent_with [] (trace (HiAnimeScraper.search rt q limit))
  /\ sent_with [] (trace (HiAnimeScraper.scrape_episodes rt metadata))
  /\ sent_with [] (trace (HiAnimeScraper.scrape rt metadata episode)).
Proof.
  repeat apply conj.
  - reflexivity.
  - change (sends AnimePaheScraper.headers (AnimePaheScraper.search rt q limit)).
    unfold AnimePaheScraper.search. HeaderFacts.sends_all.
  - change (sends AnimePaheScraper.headers
              (AnimePaheScraper.scrape_episodes rt metadata)).
    unfold AnimePaheScraper.scrape_episodes.
    apply HeaderFacts.sends_bind; [apply HeaderFacts.sends_animepahe_request | intros r].
    apply HeaderFacts.sends_quiet. QuietMore.quiet_all.
  - change (sends AnimePaheScraper.headers
              (AnimePaheScraper.scrape rt metadata episode)).
    unfold AnimePaheScraper.scrape.
    apply HeaderFacts.sends_bind; [apply HeaderFacts.sends_animepahe_request | intros r].
    apply HeaderFacts.sends_bind; [apply HeaderFacts.sends_quiet; QuietMore.quiet_all |].
    intros episodes_data.
    apply HeaderFacts.sends_bind; [apply HeaderFacts.sends_quiet; QuietMore.quiet_all |].
    intros target. destruct (negb (truthy target)).
    + apply HeaderFacts.sends_quiet; QuietMore.quiet_all.
    + apply HeaderFacts.sends_scrape_page.
  - change (sends AnimePaheScraper.headers
              (AnimePaheScraper._parse_kwik_link rt url)).
    unfold AnimePaheScraper._parse_kwik_link.
    apply HeaderFacts.sends_bind; [apply HeaderFacts.sends_request_html | intros html].
    apply HeaderFacts.sends_quiet. QuietMore.quiet_all.
  - change (sends [] (HiAnimeScraper.search rt q limit)).
    unfold HiAnimeScraper.search.
    destruct (negb (truthy (JStr q))); [apply HeaderFacts.sends_quiet; QuietMore.quiet_all |].
    apply HeaderFacts.sends_bind; [apply HeaderFacts.sends_hianime_request | intros r].
    apply HeaderFacts.sends_quiet. QuietMore.quiet_all.
  - change (sends [] (HiAnimeScraper.scrape_episodes rt metadata)).
    unfold HiAnimeScraper.scrape_episodes.
    apply HeaderFacts.sends_bind; [apply HeaderFacts.sends_hianime_request | intros r].
    apply HeaderFacts.sends_quiet. QuietMore.quiet_all.
  - change (sends [] (HiAnimeScraper.scrape rt metadata episode)).
    unfold HiAnimeScraper.scrape.
    apply HeaderFacts.sends_bind; [apply HeaderFacts.sends_hianime_request | intros r].
    apply HeaderFacts.sends_bind; [apply HeaderFacts.sends_quiet; QuietMore.quiet_all |].
    intros failed. destruct failed; [apply HeaderFacts.sends_quiet; QuietMore.quiet_all |].
    apply HeaderFacts.sends_bind; [apply HeaderFacts.sends_quiet; QuietMore.quiet_all |].
    intros episodes. destruct (is_multi (type metadata)).
    + apply HeaderFacts.sends_bind; [apply HeaderFacts.sends_quiet; QuietMore.quiet_all |].
      intros items.
      apply HeaderFacts.sends_bind; [apply HeaderFacts.sends_quiet; QuietMore.quiet_all |].
      intros target. destruct (negb (truthy target)).
      * apply HeaderFacts.sends_quiet; QuietMore.quiet_all.
      * apply HeaderFacts.sends_scrape_sources.
    + destruct (truthy episodes).
      * apply HeaderFacts.sends_bind; [apply HeaderFacts.sends_quiet; QuietMore.quiet_all |].
        intros target. apply HeaderFacts.sends_scrape_sources.
      * apply HeaderFacts.sends_quiet; QuietMore.quiet_all.
Qed.

End Extra_headers.

(** ** More on the HTML-scraping adapter *)

Module PageFacts.
Import Shape Behaviour.

(** [scrape] goes on with its target. *)
Lemma animepahe_scrape_target (rt : Runtime) (metadata : Metadata)
      (episode : option EpisodeSelector) (doc target session : json) :
  fetch rt (AnimePaheScraper.listing_url rt metadata) AnimePaheScraper.headers = inr doc ->
  animepahe_target metadata episode doc target ->
  field target "session" = Some session ->
  AnimePaheScraper.scrape rt metadata episode
  = (Get (AnimePaheScraper.listing_url rt metadata) AnimePaheScraper.headers
       :: trace (AnimePaheScraper.scrape_page rt metadata episode target),
     outcome (AnimePaheScraper.scrape_page rt metadata episode target)).
Proof.
  intros Hf Ht Hs. unfold animepahe_target in Ht.
  destruct (type metadata) eqn:Hty.
  - destruct Ht as (rest & Hl).
    exact (animepahe_scrape_single _ _ _ _ _ _ _ Hty Hf Hl Hs).
  - destruct Ht as (before & after & Hl & Hb & Hn).
    exact (SeriesFacts.animepahe_scrape_series_found _ _ _ _ _ _ _ Hty Hf Hl Hb Hn
             (field_truthy _ _ _ Hs)).
Qed.

(** The page step up to the two containers. *)
Lemma scrape_page_containers (rt : Runtime) (metadata : Metadata)
      (episode : option EpisodeSelector) (target session : json) (html : string) :
  field target "session" = Some session ->
  http_get rt (AnimePaheScraper.page_url rt metadata session) AnimePaheScraper.headers
  = inr html ->
  outcome (AnimePaheScraper.scrape_page rt metadata episode target)
  = outcome
      (download_options <-
         AnimePaheScraper.container (html_parser rt html) "pickDownload" "a" ;;
       embed_sources <-
         AnimePaheScraper.container (html_parser rt html) "resolutionMenu" "button" ;;
       match download_options with
       | [] => raise (ValueError "No download options found")
       | option0 :: _ =>
           embed_url <- match embed_sources with
                        | button0 :: _ => ret (Html.get button0 "data-src")
                        | [] => raise IndexError
                        end ;;
           n <- selector_episode episode ;;
           episode_title <- dict_get_default target "episode"
                              (JStr ("Episode " ++ str_of_int n)) ;;
           if is_multi (type metadata) then
             ret (Multi (Html.get option0 "href")
                        (JStr (py_str rt (title metadata) ++ " - "
                               ++ py_str rt episode_title))
                        Omitted episode (Given (SubsList [])))
           else
             ret (Single (Html.get option0 "href") (title metadata) Omitted Omitted
                         (Given (SubsList [])))
       end).
Proof.
  intros Hs Hh. unfold AnimePaheScraper.scrape_page.
  rewrite (field_getitem _ _ _ Hs), bind_lift_ok.
  unfold AnimePaheScraper._request_html. rewrite QuietFacts.http_client_get_run, Hh.
  rewrite outcome_bind_run. reflexivity.
Qed.

Lemma animepahe_scrape_outcome (rt : Runtime) (metadata : Metadata)
      (episode : option EpisodeSelector) (doc target session : json) :
  fetch rt (AnimePaheScraper.listing_url rt metadata) AnimePaheScraper.headers = inr doc ->
  animepahe_target metadata episode doc target ->
  field target "session" = Some session ->
  outcome (AnimePaheScraper.scrape rt metadata episode)
  = outcome (AnimePaheScraper.scrape_page rt metadata episode target).
Proof.
  intros Hf Ht Hs. rewrite (animepahe_scrape_target _ _ _ _ _ _ Hf Ht Hs). reflexivity.
Qed.

Lemma container_found (soup div : Html.node) (ident tag : string) :
  Html.find soup "div" [("id", ident)] = Some div ->
  AnimePaheScraper.container soup ident tag = ret (Html.findAll div tag []).
Proof. intros H. unfold AnimePaheScraper.container. rewrite H. reflexivity. Qed.

Lemma container_missing (soup : Html.node) (ident tag : string) :
  Html.find soup "div" [("id", ident)] = None ->
  AnimePaheScraper.container soup ident tag = raise AttributeError.
Proof. intros H. unfold AnimePaheScraper.container. rewrite H. reflexivity. Qed.

Lemma episode_title_get (target session : json) (selector : EpisodeSelector) :
  field target "session" = Some session ->
  dict_get_default target "episode" (JStr ("Episode " ++ str_of_int (episode selector)))
  = Ok (episode_label target selector).
Proof.
  unfold episode_label. destruct target; simpl; try discriminate. intros _.
  destruct (dict_get d "episode"); reflexivity.
Qed.

End PageFacts.

Section Extra_page.
Import Shape Behaviour Fixture Scenario Cases.

(** X13.  The HTML-scraping adapter catches nothing: an exception of the
    HTTP client or of the decoder leaves the operation that sent the
    request, after that request and nothing else: the search request of
    [search] (which has yielded nothing), the listing request of
    [scrape_episodes] and of [scrape], and the request for the playback
    page of the target in [scrape]. *)
Theorem animepahe_failure_escapes (rt : Runtime) (metadata : Metadata)
        (episode : option EpisodeSelector) (q : string) (limit : option Z) (msg : string) :
  (fetch rt (AnimePaheScraper.search_url ++ quote_plus q) AnimePaheScraper.headers
   = inl msg ->
   AnimePaheScraper.search rt q limit
   = ([Get (AnimePaheScraper.search_url ++ quote_plus q) AnimePaheScraper.headers],
      Raise (External msg)))
  /\ (fetch rt (AnimePaheScraper.listing_url rt metadata) AnimePaheScraper.headers
      = inl msg ->
      AnimePaheScraper.scrape_episodes rt metadata
      = ([Get (AnimePaheScraper.listing_url rt metadata) AnimePaheScraper.headers],
         Raise (External msg))
      /\ AnimePaheScraper.scrape rt metadata episode
         = ([Get (AnimePaheScraper.listing_url rt metadata) AnimePaheScraper.headers],
            Raise (External msg)))
  /\ (forall doc target session,
        fetch rt (AnimePaheScraper.listing_url rt metadata) AnimePaheScraper.headers
        = inr doc ->
        animepahe_target metadata episode doc target ->
        field target "session" = Some session ->
        http_get rt (AnimePaheScraper.page_url rt metadata session)
                 AnimePaheScraper.headers = inl msg ->
        AnimePaheScraper.scrape rt metadata episode
        = ([Get (AnimePaheScraper.listing_url rt metadata) AnimePaheScraper.headers;
            Get (AnimePaheScraper.page_url rt metadata session) AnimePaheScraper.headers],
           Raise (External msg))).
Proof.
  repeat apply conj.
  - intros Hf. unfold AnimePaheScraper.search.
    rewrite AnimePaheFacts.request_run, Hf. reflexivity.
  - intros Hf. split.
    + unfold AnimePaheScraper.scrape_episodes.
      rewrite AnimePaheFacts.request_run, Hf. reflexivity.
    + unfold AnimePaheScraper.scrape.
      rewrite AnimePaheFacts.request_run, Hf. reflexivity.
  - intros doc target session Hf Ht Hs Hh.
    rewrite (PageFacts.animepahe_scrape_target _ _ _ _ _ _ Hf Ht Hs).
    unfold AnimePaheScraper.scrape_page.
    rewrite (field_getitem _ _ _ Hs), bind_lift_ok.
    unfold AnimePaheScraper._request_html.
    rewrite QuietFacts.http_client_get_run, Hh. reflexivity.
Qed.

Lemma animepahe_failure_escapes_witness :
  AnimePaheScraper.search down "naruto" None
  = ([Get (AnimePaheScraper.search_url ++ "naruto") AnimePaheScraper.headers],
     Raise (External "404 Not Found"))
  /\ outcome (AnimePaheScraper.scrape animepahe naruto (ep 3))
     = Raise (External "404 Not Found").
Proof.
  split.
  - apply (proj1 (animepahe_failure_escapes down naruto None "naruto" None
                    "404 Not Found")). reflexivity.
  - rewrite (proj2 (proj2 (animepahe_failure_escapes animepahe naruto (ep 3) "" None
                             "404 Not Found"))
               (snd (pahe_listing "naruto-677"
                       [obj [("session", JStr "e2"); ("episode", JStr "Episode 2")];
                        obj [("session", JStr "e3"); ("episode", JStr "Episode 3")]]))
               (obj [("session", JStr "e3"); ("episode", JStr "Episode 3")])
               (JStr "e3")); try reflexivity.
    exists [obj [("session", JStr "e2"); ("episode", JStr "Episode 2")]], [].
    repeat split. repeat constructor. exists 2. split; [reflexivity | discriminate].
Defined.

(** X14.  When the playback page of the target has both containers, an
    anchor in the first and a button in the second, and a selector is
    given, [scrape] of the HTML-scraping adapter returns a descriptor whose
    URL is the [href] of the first anchor of the download container, as it
    is in the page ([None] when the anchor has none): the extraction of the
    stream is the identity.  The title of a series ends with the label of
    the target (["Episode N"] for the selector's [N] when the target has no
    label); the button is read but not used. *)
Theorem animepahe_scrape_returns_download_link (rt : Runtime) (metadata : Metadata)
        (selector : EpisodeSelector) (doc target session : json) (html : string)
        (downloads menu link button : Html.node) (links buttons : list Html.node) :
  fetch rt (AnimePaheScraper.listing_url rt metadata) AnimePaheScraper.headers = inr doc ->
  animepahe_target metadata (Some selector) doc target ->
  field target "session" = Some session ->
  http_get rt (AnimePaheScraper.page_url rt metadata session) AnimePaheScraper.headers
  = inr html ->
  Html.find (html_parser rt html) "div" [("id", "pickDownload")] = Some downloads ->
  Html.findAll downloads "a" [] = link :: links ->
  Html.find (html_parser rt html) "div" [("id", "resolutionMenu")] = Some menu ->
  Html.findAll menu "button" [] = button :: buttons ->
  outcome (AnimePaheScraper.scrape rt metadata (Some selector))
  = Ok match type metadata with
       | MULTI =>
           Multi (Html.get link "href")
                 (JStr (py_str rt (title metadata) ++ " - "
                        ++ py_str rt (episode_label target selector)))
                 Omitted (Some selector) (Given (SubsList []))
       | SINGLE =>
           Single (Html.get link "href") (title metadata) Omitted Omitted
                  (Given (SubsList []))
       end.
Proof.
  intros Hf Ht Hs Hh Hd Hlinks Hm Hbuttons.
  rewrite (PageFacts.animepahe_scrape_outcome _ _ _ _ _ _ Hf Ht Hs).
  rewrite (PageFacts.scrape_page_containers _ _ _ _ _ _ Hs Hh).
  rewrite (PageFacts.container_found _ _ _ _ Hd), bind_ret_l, Hlinks.
  rewrite (PageFacts.container_found _ _ _ _ Hm), bind_ret_l, Hbuttons.
  rewrite bind_ret_l. simpl selector_episode. rewrite bind_lift_ok.
  rewrite (PageFacts.episode_title_get _ _ _ Hs), bind_lift_ok.
  destruct (type metadata); reflexivity.
Qed.

Lemma animepahe_scrape_returns_download_link_witness :
  outcome (AnimePaheScraper.scrape animepahe_partial movie (ep 4))
  = Ok (Single (JStr "https://kwik.si/f/x1") (JStr "Your Name") Omitted Omitted
               (Given (SubsList []))).
Proof.
  refine (animepahe_scrape_returns_download_link animepahe_partial movie (mkSelector 4 1)
            (snd (pahe_listing "your-name-10" [obj [("session", JStr "m1")]]))
            (obj [("session", JStr "m1")]) (JStr "m1")
            (AnimePaheScraper.play_url ++ "/your-name-10/m1")
            download_div resolution_div
            (Html.Tag "a" [("href", "https://kwik.si/f/x1")] [Html.Text "720p"])
            (Html.Tag "button" [("data-src", "https://kwik.si/e/x1")] [Html.Text "720p"])
            [] [] _ _ _ _ _ _ _ _); try reflexivity.
  exists []. reflexivity.
Defined.

(** X15.  The errors of the playback page, in the order the code meets
    them.  A page without the download container, or with it and without
    the resolution menu, ends [scrape] with [AttributeError], before the
    download options are looked at; with both containers, a download
    container without anchors gives the error "No download options found";
    and with an anchor, a resolution menu without buttons gives
    [IndexError], although the button is not used for the result. *)
Theorem animepahe_page_errors (rt : Runtime) (metadata : Metadata)
        (episode : option EpisodeSelector) (doc target session : json) (html : string) :
  fetch rt (AnimePaheScraper.listing_url rt metadata) AnimePaheScraper.headers = inr doc ->
  animepahe_target metadata episode doc target ->
  field target "session" = Some session ->
  http_get rt (AnimePaheScraper.page_url rt metadata session) AnimePaheScraper.headers
  = inr html ->
  (Html.find (html_parser rt html) "div" [("id", "pickDownload")] = None ->
   outcome (AnimePaheScraper.scrape rt metadata episode) = Raise AttributeError)
  /\ (forall downloads,
        Html.find (html_parser rt html) "div" [("id", "pickDownload")] = Some downloads ->
        Html.find (html_parser rt html) "div" [("id", "resolutionMenu")] = None ->
        outcome (AnimePaheScraper.scrape rt metadata episode) = Raise AttributeError)
  /\ (forall downloads menu,
        Html.find (html_parser rt html) "div" [("id", "pickDownload")] = Some downloads ->
        Html.find (html_parser rt html) "div" [("id", "resolutionMenu")] = Some menu ->
        (Html.findAll downloads "a" [] = [] ->
         outcome (AnimePaheScraper.scrape rt metadata episode)
         = Raise (ValueError "No download options found"))
        /\ (Html.findAll downloads "a" [] <> [] ->
            Html.findAll menu "button" [] = [] ->
            outcome (AnimePaheScraper.scrape rt metadata episode) = Raise IndexError)).
Proof.
  intros Hf Ht Hs Hh.
  rewrite (PageFacts.animepahe_scrape_outcome _ _ _ _ _ _ Hf Ht Hs).
  rewrite (PageFacts.scrape_page_containers _ _ _ _ _ _ Hs Hh).
  split; [| split].
  - intros Hd. rewrite (PageFacts.container_missing _ _ _ Hd). reflexivity.
  - intros downloads Hd Hm.
    rewrite (PageFacts.container_found _ _ _ _ Hd), bind_ret_l.
    rewrite (PageFacts.container_missing _ _ _ Hm). reflexivity.
  - intros downloads menu Hd Hm.
    rewrite (PageFacts.container_found _ _ _ _ Hd), bind_ret_l.
    rewrite (PageFacts.container_found _ _ _ _ Hm), bind_ret_l.
    split.
    + intros Hempty. rewrite Hempty. reflexivity.
    + intros Hlinks Hbuttons. rewrite Hbuttons.
      destruct (Html.findAll downloads "a" []); [contradiction | reflexivity].
Qed.

Lemma animepahe_page_errors_witness :
  outcome (AnimePaheScraper.scrape animepahe_partial naruto (ep 1))
  = Raise (ValueError "No download options found")
  /\ outcome (AnimePaheScraper.scrape animepahe_partial naruto (ep 2)) = Raise IndexError.
Proof.
  split.
  - refine (proj1 (proj2 (proj2 (animepahe_page_errors animepahe_partial naruto (ep 1)
              (snd (pahe_listing "naruto-677"
                 [obj [("session", JStr "e1"); ("episode", JStr "Episode 1")];
                  obj [("session", JStr "e2"); ("episode", JStr "Episode 2")];
                  obj [("session", JStr "e3"); ("episode", JStr "Episode 3")]]))
              (obj [("session", JStr "e1"); ("episode", JStr "Episode 1")]) (JStr "e1")
              (AnimePaheScraper.play_url ++ "/naruto-677/e1") _ _ _ _))
              empty_download_div resolution_div _ _) _); try reflexivity.
    exists [], [obj [("session", JStr "e2"); ("episode", JStr "Episode 2")];
                obj [("session", JStr "e3"); ("episode", JStr "Episode 3")]].
    repeat split. constructor.
  - refine (proj2 (proj2 (proj2 (animepahe_page_errors animepahe_partial naruto (ep 2)
              (snd (pahe_listing "naruto-677"
                 [obj [("session", JStr "e1"); ("episode", JStr "Episode 1")];
                  obj [("session", JStr "e2"); ("episode", JStr "Episode 2")];
                  obj [("session", JStr "e3"); ("episode", JStr "Episode 3")]]))
              (obj [("session", JStr "e2"); ("episode", JStr "Episode 2")]) (JStr "e2")
              (AnimePaheScraper.play_url ++ "/naruto-677/e2") _ _ _ _))
              download_div empty_resolution_div _ _) _ _); try reflexivity;
      try discriminate.
    exists [obj [("session", JStr "e1"); ("episode", JStr "Episode 1")]],
           [obj [("session", JStr "e3"); ("episode", JStr "Episode 3")]].
    repeat split. repeat constructor. exists 1. split; [reflexivity | discriminate].
Defined.

End Extra_page.

(** ** Episode labels and links *)

Module LabelFacts.
Import Behaviour.

Lemma take_digits_all (s : string) : all_chars is_digit (take_digits s) = true.
Proof.
  unfold all_chars. induction s as [| c s IH]; simpl; [reflexivity |].
  destruct (is_digit c) eqn:E; simpl; [rewrite E; exact IH | reflexivity].
Qed.

Lemma take_digits_id (s : string) : all_chars is_digit s = true -> take_digits s = s.
Proof.
  unfold all_chars. induction s as [| c s IH]; simpl; [reflexivity |].
  intros H. apply andb_prop in H as [Hc Hs]. rewrite Hc, (IH Hs). reflexivity.
Qed.

Lemma search_episode_step (c : ascii) (s : string) :
  search_episode (String c s)
  = match match strip_prefix "Episode " (String c s) with
          | Some rest => match take_digits rest with
                         | EmptyString => None
                         | String d r => Some (String d r)
                         end
          | None => None
          end
    with
    | Some ds => Some ds
    | None => search_episode s
    end.
Proof. reflexivity. Qed.

Lemma search_episode_digits (s ds : string) :
  search_episode s = Some ds -> all_chars is_digit ds = true.
Proof.
  induction s as [| c s IH]; [discriminate |].
  rewrite search_episode_step.
  generalize (strip_prefix "Episode " (String c s)). intros [rest |]; [| exact IH].
  destruct (take_digits rest) as [| d r] eqn:E; [exact IH |].
  intros [= <-]. rewrite <- E. apply take_digits_all.
Qed.

Lemma digit_val_nonneg (c : ascii) : is_digit c = true -> 0 <= digit_val c.
Proof.
  unfold is_digit, digit_val. cbv zeta. intros H. apply andb_prop in H as [H _].
  apply Nat.leb_le in H. lia.
Qed.

Lemma fold_digits_nonneg (l : list ascii) :
  forallb is_digit l = true ->
  forall acc, 0 <= acc -> 0 <= fold_left (fun a c => 10 * a + digit_val c) l acc.
Proof.
  induction l as [| c l IH]; cbn [fold_left forallb]; intros H acc Hacc; [exact Hacc |].
  apply andb_prop in H as [Hc Hl]. apply IH; [exact Hl |].
  pose proof (digit_val_nonneg _ Hc). lia.
Qed.

(** A number parsed out of a label is never negative. *)
Lemma episode_number_nonneg (v : json) (n : Z) : episode_number v = Ok n -> 0 <= n.
Proof.
  unfold episode_number. destruct v; try discriminate.
  destruct (search_episode s) as [ds |] eqn:E; [| discriminate].
  unfold int_of_str. destruct (int_max_str_digits <? String.length ds)%nat; [discriminate |].
  intros [= <-]. apply fold_digits_nonneg; [| lia].
  exact (search_episode_digits _ _ E).
Qed.

Lemma parsed_number_nonneg (ep : json) (n : Z) :
  AnimePaheScraper.parsed_number ep = ret n -> 0 <= n.
Proof.
  unfold AnimePaheScraper.parsed_number.
  destruct (dict_get_default ep "episode" (JStr "Episode 1")) as [label | e];
    [rewrite bind_lift_ok | discriminate].
  intros H. apply (episode_number_nonneg label). injection H as H. exact H.
Qed.

Ltac digit :=
  match goal with
  | |- context [digit_val ?c] =>
      let v := eval vm_compute in (digit_val c) in change (digit_val c) with v
  end.

(** The decimal digits of a number, read back. *)
Lemma fold_uint_acc (d : Decimal.uint) (p : positive) :
  fold_left (fun a c => 10 * a + digit_val c)
            (list_ascii_of_string (NilEmpty.string_of_uint d)) (Z.pos p)
  = Z.pos (Pos.of_uint_acc d p).
Proof.
  revert p. induction d; intros p;
    cbn [NilEmpty.string_of_uint list_ascii_of_string fold_left Pos.of_uint_acc];
    try reflexivity; rewrite <- IHd; f_equal; digit; lia.
Qed.

Lemma fold_uint (d : Decimal.uint) :
  fold_left (fun a c => 10 * a + digit_val c)
            (list_ascii_of_string (NilEmpty.string_of_uint d)) 0
  = Z.of_N (Pos.of_uint d).
Proof.
  induction d;
    cbn [NilEmpty.string_of_uint list_ascii_of_string fold_left Pos.of_uint];
    try reflexivity; digit; cbn [Z.mul Z.add Z.of_N];
    [exact IHd | apply fold_uint_acc ..].
Qed.

Lemma uint_digits (d : Decimal.uint) :
  all_chars is_digit (NilEmpty.string_of_uint d) = true.
Proof. unfold all_chars. induction d; simpl; auto. Qed.

Lemma str_of_int_pos (p : positive) :
  str_of_int (Z.pos p) = NilEmpty.string_of_uint (Pos.to_uint p).
Proof.
  unfold str_of_int. simpl. unfold NilZero.string_of_uint.
  pose proof (DecimalPos.Unsigned.to_uint_nonnil p) as H.
  destruct (Pos.to_uint p); [contradiction | reflexivity ..].
Qed.

Lemma str_of_int_digits (n : Z) :
  0 <= n -> all_chars is_digit (str_of_int n) = true /\ str_of_int n <> "".
Proof.
  intros Hn. destruct n as [| p | p]; [split; [reflexivity | discriminate] | | lia].
  rewrite str_of_int_pos. split; [apply uint_digits |].
  pose proof (DecimalPos.Unsigned.to_uint_nonnil p) as H.
  destruct (Pos.to_uint p); [contradiction | discriminate ..].
Qed.

Lemma int_of_digits_str (n : Z) : 0 <= n -> int_of_digits (str_of_int n) = n.
Proof.
  intros Hn. destruct n as [| p | p]; [reflexivity | | lia].
  rewrite str_of_int_pos. unfold int_of_digits.
  rewrite fold_uint, DecimalPos.Unsigned.of_to. reflexivity.
Qed.

Lemma search_episode_label (ds : string) :
  all_chars is_digit ds = true -> ds <> "" ->
  search_episode ("Episode " ++ ds) = Some ds.
Proof.
  intros Hd Hne.
  change (search_episode ("Episode " ++ ds))
    with (match match take_digits ds with
                | EmptyString => None
                | String c r => Some (String c r)
                end
          with
          | Some x => Some x
          | None => search_episode ("pisode " ++ ds)
          end).
  rewrite (take_digits_id _ Hd). destruct ds; [contradiction | reflexivity].
Qed.

End LabelFacts.

Module KwikFacts.
Import Behaviour.

Lemma take_word_all (s : string) : all_chars is_word (take_word s) = true.
Proof.
  unfold all_chars. induction s as [| c s IH]; simpl; [reflexivity |].
  destruct (is_word c) eqn:E; simpl; [rewrite E; exact IH | reflexivity].
Qed.

Lemma take_word_prefix (s : string) : String.prefix (take_word s) s = true.
Proof.
  induction s as [| c s IH]; simpl; [reflexivity |].
  destruct (is_word c); [| reflexivity]. simpl.
  destruct (ascii_dec c c); [exact IH | contradiction].
Qed.

Lemma strip_prefix_app (p s r : string) : strip_prefix p s = Some r -> s = p ++ r.
Proof.
  revert s. induction p as [| a p IH]; intros s; simpl.
  - intros [= ->]. reflexivity.
  - destruct s as [| b s]; [discriminate |].
    destruct (Ascii.eqb_spec a b) as [-> | _]; [| discriminate].
    intros H. rewrite (IH _ H). reflexivity.
Qed.

Lemma prefix_app_same (p a b : string) :
  String.prefix (p ++ a) (p ++ b) = String.prefix a b.
Proof.
  induction p as [| c p IH]; simpl; [reflexivity |].
  destruct (ascii_dec c c); [exact IH | contradiction].
Qed.

Lemma search_kwik_step (c : ascii) (s : string) :
  search_kwik (String c s)
  = match match strip_prefix kwik_prefix (String c s) with
          | Some rest => match take_word rest with
                         | EmptyString => None
                         | String d r => Some (kwik_prefix ++ String d r)
                         end
          | None => None
          end
    with
    | Some m => Some m
    | None => search_kwik s
    end.
Proof. reflexivity. Qed.

Lemma is_infix_cons (m : string) (c : ascii) (s : string) :
  is_infix m s = true -> is_infix m (String c s) = true.
Proof.
  intros H. change (is_infix m (String c s))
    with (starts_with m (String c s) || is_infix m s).
  rewrite H. apply orb_true_r.
Qed.

Lemma is_infix_prefix (m s : string) : String.prefix m s = true -> is_infix m s = true.
Proof.
  intros H.
  assert (E : is_infix m s
              = starts_with m s
                || match s with EmptyString => false | String _ s' => is_infix m s' end)
    by (destruct s; reflexivity).
  rewrite E. unfold starts_with. rewrite H. reflexivity.
Qed.

(** What the search finds is the fixed prefix followed by a non-empty run
    of word characters, and it is part of the text. *)
Lemma search_kwik_inv (s m : string) :
  search_kwik s = Some m ->
  exists w,
    m = kwik_prefix ++ w /\ w <> "" /\ all_chars is_word w = true
    /\ is_infix m s = true.
Proof.
  induction s as [| c s IH]; [discriminate |].
  rewrite search_kwik_step.
  destruct (strip_prefix kwik_prefix (String c s)) as [rest |] eqn:Es.
  - destruct (take_word rest) as [| d r] eqn:Ew.
    + intros H. destruct (IH H) as (w & -> & Hne & Hw & Hin).
      exists w. repeat split; auto using is_infix_cons.
    + intros H.
      assert (Hm : m = kwik_prefix ++ take_word rest)
        by (rewrite Ew; injection H; intros <-; reflexivity).
      clear H IH. subst m. exists (take_word rest).
      repeat split.
      * rewrite Ew. discriminate.
      * apply take_word_all.
      * apply is_infix_prefix.
        rewrite (strip_prefix_app _ _ _ Es), prefix_app_same. apply take_word_prefix.
  - intros H. destruct (IH H) as (w & -> & Hne & Hw & Hin).
    exists w. repeat split; auto using is_infix_cons.
Qed.

(** [_parse_kwik_link] after its request. *)
Lemma parse_kwik_link_run (rt : Runtime) (url html : string) :
  http_get rt url AnimePaheScraper.headers = inr html ->
  AnimePaheScraper._parse_kwik_link rt url
  = ([Get url AnimePaheScraper.headers],
     match Html.find (html_parser rt html) "script" [] with
     | None => Raise AttributeError
     | Some script_tag =>
         match Html.node_string script_tag with
         | None => Raise TypeError
         | Some text =>
             Ok match search_kwik text with
                | Some link => JStr link
                | None => JNull
                end
         end
     end).
Proof.
  intros Hh. unfold AnimePaheScraper._parse_kwik_link, AnimePaheScraper._request_html.
  rewrite QuietFacts.http_client_get_run, Hh, bind_ok.
  destruct (Html.find (html_parser rt html) "script" []) as [script |]; [| reflexivity].
  destruct (Html.node_string script); reflexivity.
Qed.

Lemma parse_kwik_link_failed (rt : Runtime) (url msg : string) :
  http_get rt url AnimePaheScraper.headers = inl msg ->
  AnimePaheScraper._parse_kwik_link rt url
  = ([Get url AnimePaheScraper.headers], Raise (External msg)).
Proof.
  intros Hh. unfold AnimePaheScraper._parse_kwik_link, AnimePaheScraper._request_html.
  rewrite QuietFacts.http_client_get_run, Hh. reflexivity.
Qed.

End KwikFacts.

Section Extra_kwik.
Import Shape Behaviour Fixture Scenario Cases.

(** X16.  [_parse_kwik_link] sends one request, for the URL it is given.
    What it returns is [None] or a string that occurs in the text of the
    first script of the page and is ["https://kwik.si/f/"] followed by one
    or more word characters: the link ends at the first character that is
    not one. *)
Theorem parse_kwik_link_result (rt : Runtime) (url : string) :
  requests (trace (AnimePaheScraper._parse_kwik_link rt url)) = [url]
  /\ forall v,
       outcome (AnimePaheScraper._parse_kwik_link rt url) = Ok v ->
       v = JNull
       \/ exists html script text w,
            http_get rt url AnimePaheScraper.headers = inr html
            /\ Html.find (html_parser rt html) "script" [] = Some script
            /\ Html.node_string script = Some text
            /\ v = JStr ("https://kwik.si/f/" ++ w)
            /\ w <> ""
            /\ all_chars is_word w = true
            /\ is_infix ("https://kwik.si/f/" ++ w) text = true.
Proof.
  destruct (http_get rt url AnimePaheScraper.headers) as [msg | html] eqn:Hh.
  - rewrite (KwikFacts.parse_kwik_link_failed _ _ _ Hh). split; [reflexivity |].
    discriminate.
  - rewrite (KwikFacts.parse_kwik_link_run _ _ _ Hh). split; [reflexivity |].
    intros v. unfold outcome, snd.
    destruct (Html.find (html_parser rt html) "script" []) as [script |] eqn:Ef;
      [| discriminate].
    destruct (Html.node_string script) as [text |] eqn:Et; [| discriminate].
    destruct (search_kwik text) as [link |] eqn:Ek; intros [= <-]; [| left; reflexivity].
    right. destruct (KwikFacts.search_kwik_inv _ _ Ek) as (w & -> & Hne & Hw & Hin).
    exists html, script, text, w. repeat split; assumption.
Qed.

(** X17.  [_parse_kwik_link] reads the first script of the page and no
    other.  A page without a script ends it with [AttributeError]; a first
    script that has no text of its own (an external script, an empty one)
    ends it with [TypeError], whatever the scripts after it hold; and a
    first script whose text has no link gives [None], without an error. *)
Theorem parse_kwik_link_first_script (rt : Runtime) (url html : string) :
  http_get rt url AnimePaheScraper.headers = inr html ->
  (Html.find (html_parser rt html) "script" [] = None ->
   outcome (AnimePaheScraper._parse_kwik_link rt url) = Raise AttributeError)
  /\ (forall script,
        Html.find (html_parser rt html) "script" [] = Some script ->
        Html.node_string script = None ->
        outcome (AnimePaheScraper._parse_kwik_link rt url) = Raise TypeError)
  /\ (forall script text,
        Html.find (html_parser rt html) "script" [] = Some script ->
        Html.node_string script = Some text ->
        search_kwik text = None ->
        outcome (AnimePaheScraper._parse_kwik_link rt url) = Ok JNull).
Proof.
  intros Hh. rewrite (KwikFacts.parse_kwik_link_run _ _ _ Hh). unfold outcome, snd.
  repeat split.
  - intros ->. reflexivity.
  - intros script -> ->. reflexivity.
  - intros script text -> -> ->. reflexivity.
Qed.

Lemma parse_kwik_link_first_script_witness :
  outcome (AnimePaheScraper._parse_kwik_link kwik_pages "https://pahe.win/c")
  = Raise AttributeError
  /\ outcome (AnimePaheScraper._parse_kwik_link kwik_pages "https://pahe.win/b")
     = Raise TypeError.
Proof.
  split.
  - apply (proj1 (parse_kwik_link_first_script kwik_pages "https://pahe.win/c"
                    "https://pahe.win/c" eq_refl)). reflexivity.
  - apply (proj1 (proj2 (parse_kwik_link_first_script kwik_pages "https://pahe.win/b"
                           "https://pahe.win/b" eq_refl))
                 (Html.Tag "script" [("src", "/app.js")] [])); reflexivity.
Defined.

End Extra_kwik.

Section Extra_labels.
Import Shape Behaviour Fixture Scenario Cases.

Lemma animepahe_absent_run (rt : Runtime) (metadata : Metadata)
      (selector : EpisodeSelector) (doc : json) (items : list json) :
  type metadata = MULTI ->
  fetch rt (AnimePaheScraper.listing_url rt metadata) AnimePaheScraper.headers = inr doc ->
  data_list doc = Some items ->
  Forall (other_episode (requested_episode (Some selector))) items ->
  AnimePaheScraper.scrape rt metadata (Some selector)
  = ([Get (AnimePaheScraper.listing_url rt metadata) AnimePaheScraper.headers],
     Raise (ValueError ("Episode " ++ str_of_int (episode selector) ++ " not found"))).
Proof.
  intros Hty Hf Hl Hall. unfold AnimePaheScraper.scrape.
  rewrite (AnimePaheFacts.request_decoded _ _ _ Hf), bind_ok.
  rewrite (SearchFacts.data_list_get _ _ Hl), bind_lift_ok.
  rewrite Hty. simpl is_multi. cbv iota. simpl iter. rewrite bind_lift_ok.
  rewrite (SeriesFacts.animepahe_find_none _ _ Hall), bind_ret_l. reflexivity.
Qed.

(** X18.  The label the code writes is the label it reads: for a number
    [n >= 0] of at most 4300 digits, a listing element whose ["episode"] is
    ["Episode "] followed by the decimal digits of [n] parses to [n]. *)
Theorem episode_label_round_trip (n : Z) (d : list (string * json)) :
  0 <= n ->
  (String.length (str_of_int n) <= int_max_str_digits)%nat ->
  dict_get d "episode" = Some (JStr ("Episode " ++ str_of_int n)) ->
  AnimePaheScraper.parsed_number (JDict d) = ret n.
Proof.
  intros Hn Hlen Hd. unfold AnimePaheScraper.parsed_number, dict_get_default.
  rewrite Hd, bind_lift_ok. unfold episode_number.
  destruct (LabelFacts.str_of_int_digits n Hn) as (Hdigits & Hne).
  rewrite (LabelFacts.search_episode_label _ Hdigits Hne).
  unfold int_of_str.
  destruct (Nat.ltb_spec int_max_str_digits (String.length (str_of_int n))) as [Hlt | _];
    [lia |].
  rewrite (LabelFacts.int_of_digits_str n Hn). reflexivity.
Qed.

Lemma episode_label_round_trip_witness :
  AnimePaheScraper.parsed_number
    (obj [("session", JStr "e12"); ("episode", JStr "Episode 12")]) = ret 12.
Proof.
  apply (episode_label_round_trip 12); [lia | vm_compute; lia | reflexivity].
Defined.

(** X19.  A number parsed from a label is never negative, so that a request
    for a negative episode matches nothing: for a series, a selector with a
    negative episode and a listing whose elements all parse, [scrape] of the
    HTML-scraping adapter ends with the error "not found" after the listing
    request, whatever the listing holds. *)
Theorem animepahe_negative_episode_not_found (rt : Runtime) (metadata : Metadata)
        (selector : EpisodeSelector) (doc : json) (items : list json) :
  type metadata = MULTI ->
  episode selector < 0 ->
  fetch rt (AnimePaheScraper.listing_url rt metadata) AnimePaheScraper.headers = inr doc ->
  data_list doc = Some items ->
  Forall (fun ep => exists k, AnimePaheScraper.parsed_number ep = ret k) items ->
  Forall (fun ep => forall k, AnimePaheScraper.parsed_number ep = ret k -> 0 <= k) items
  /\ AnimePaheScraper.scrape rt metadata (Some selector)
     = ([Get (AnimePaheScraper.listing_url rt metadata) AnimePaheScraper.headers],
        Raise (ValueError ("Episode " ++ str_of_int (episode selector) ++ " not found"))).
Proof.
  intros Hty Hneg Hf Hl Hall. split.
  - apply Forall_forall. intros ep _ k. apply LabelFacts.parsed_number_nonneg.
  - apply (animepahe_absent_run _ _ _ _ _ Hty Hf Hl).
    apply Forall_forall. intros ep Hin.
    rewrite Forall_forall in Hall. destruct (Hall ep Hin) as (k & Hk).
    exists k. split; [exact Hk |].
    pose proof (LabelFacts.parsed_number_nonneg _ _ Hk).
    simpl. destruct (Z.eqb_spec (episode selector) 0); lia.
Qed.

Lemma animepahe_negative_episode_not_found_witness :
  outcome (AnimePaheScraper.scrape animepahe naruto (ep (-2)))
  = Raise (ValueError "Episode -2 not found").
Proof.
  unfold ep.
  assert (Hall : Forall (fun e => exists k, AnimePaheScraper.parsed_number e = ret k)
                   [obj [("session", JStr "e2"); ("episode", JStr "Episode 2")];
                    obj [("session", JStr "e3"); ("episode", JStr "Episode 3")]])
    by (repeat constructor; eexists; reflexivity).
  rewrite (proj2 (animepahe_negative_episode_not_found animepahe naruto (mkSelector (-2) 1)
             (snd (pahe_listing "naruto-677"
                     [obj [("session", JStr "e2"); ("episode", JStr "Episode 2")];
                      obj [("session", JStr "e3"); ("episode", JStr "Episode 3")]]))
             _ eq_refl eq_refl eq_refl eq_refl Hall)).
  reflexivity.
Defined.

(** X20.  For a series, [scrape] of the HTML-scraping adapter goes on with
    the first element of the listing whose title parses to the requested
    number: the run is the listing request followed by the page step of
    that element, and the second request is for the playback page named by
    the identifier of the entry and the session of the element. *)
Theorem animepahe_series_first_match (rt : Runtime) (metadata : Metadata)
        (episode : option EpisodeSelector) (doc target session : json)
        (before after : list json) :
  type metadata = MULTI ->
  fetch rt (AnimePaheScraper.listing_url rt metadata) AnimePaheScraper.headers = inr doc ->
  data_list doc = Some (before ++ target :: after)%list ->
  Forall (other_episode (requested_episode episode)) before ->
  AnimePaheScraper.parsed_number target = ret (requested_episode episode) ->
  field target "session" = Some session ->
  AnimePaheScraper.scrape rt metadata episode
  = (Get (AnimePaheScraper.listing_url rt metadata) AnimePaheScraper.headers
       :: trace (AnimePaheScraper.scrape_page rt metadata episode target),
     outcome (AnimePaheScraper.scrape_page rt metadata episode target))
  /\ requests (trace (AnimePaheScraper.scrape rt metadata episode))
     = [AnimePaheScraper.listing_url rt metadata;
        AnimePaheScraper.page_url rt metadata session].
Proof.
  intros Hty Hf Hl Hb Hn Hs.
  pose proof (SeriesFacts.animepahe_scrape_series_found _ _ _ _ _ _ _ Hty Hf Hl Hb Hn
                (field_truthy _ _ _ Hs)) as Hrun.
  split; [exact Hrun |]. rewrite Hrun.
  unfold trace at 1, fst. rewrite QuietFacts.requests_cons_get.
  rewrite (QuietFacts.scrape_page_requests _ _ _ _ _ Hs). reflexivity.
Qed.

Lemma animepahe_series_first_match_witness :
  requests (trace (AnimePaheScraper.scrape animepahe_partial naruto (ep 2)))
  = [AnimePaheScraper.release_url ++ "naruto-677&sort=episode_asc&page=1";
     AnimePaheScraper.play_url ++ "/naruto-677/e2"].
Proof.
  refine (proj2 (animepahe_series_first_match animepahe_partial naruto (ep 2) _
                   (obj [("session", JStr "e2"); ("episode", JStr "Episode 2")])
                   (JStr "e2")
                   [obj [("session", JStr "e1"); ("episode", JStr "Episode 1")]]
                   [obj [("session", JStr "e3"); ("episode", JStr "Episode 3")]]
                   _ _ _ _ _ _)); try reflexivity.
  repeat constructor. exists 1. split; [reflexivity | discriminate].
Defined.

(** X21.  The exits "not found" of [scrape] of the HTML-scraping adapter,
    with a selector: for a series whose listing has no element of the
    requested number, and for a film whose listing is empty or whose
    document has no ["data"], the run is the listing request and the error
    [ValueError("Episode N not found")].  [N] is the episode of the selector
    as it was given: for the selector 0 the number looked for is 1 and the
    message names 0. *)
Theorem animepahe_scrape_not_found_exits (rt : Runtime) (metadata : Metadata)
        (selector : EpisodeSelector) (doc : json) :
  fetch rt (AnimePaheScraper.listing_url rt metadata) AnimePaheScraper.headers = inr doc ->
  (type metadata = MULTI ->
   forall items,
     data_list doc = Some items ->
     Forall (other_episode (if episode selector =? 0 then 1 else episode selector)) items ->
     AnimePaheScraper.scrape rt metadata (Some selector)
     = ([Get (AnimePaheScraper.listing_url rt metadata) AnimePaheScraper.headers],
        Raise (ValueError ("Episode " ++ str_of_int (episode selector) ++ " not found"))))
  /\ (type metadata = SINGLE ->
      no_data doc = true \/ data_list doc = Some [] ->
      AnimePaheScraper.scrape rt metadata (Some selector)
      = ([Get (AnimePaheScraper.listing_url rt metadata) AnimePaheScraper.headers],
         Raise (ValueError ("Episode " ++ str_of_int (episode selector) ++ " not found")))).
Proof.
  intros Hf. split.
  - intros Hty items Hl Hall. exact (animepahe_absent_run _ _ _ _ _ Hty Hf Hl Hall).
  - intros Hty Hd. unfold AnimePaheScraper.scrape.
    rewrite (AnimePaheFacts.request_decoded _ _ _ Hf), bind_ok.
    assert (Hget : dict_get_default doc "data" (JList []) = Ok (JList [])).
    { destruct Hd as [Hd | Hd];
        [apply SearchFacts.no_data_get | apply SearchFacts.data_list_get]; exact Hd. }
    rewrite Hget, bind_lift_ok, Hty. reflexivity.
Qed.

Lemma animepahe_scrape_not_found_exits_witness :
  outcome (AnimePaheScraper.scrape animepahe naruto (ep 0))
  = Raise (ValueError "Episode 0 not found")
  /\ outcome (AnimePaheScraper.scrape animepahe_bare movie (ep 1))
     = Raise (ValueError "Episode 1 not found").
Proof.
  unfold ep. split.
  - rewrite (proj1 (animepahe_scrape_not_found_exits animepahe naruto (mkSelector 0 1)
               (snd (pahe_listing "naruto-677"
                       [obj [("session", JStr "e2"); ("episode", JStr "Episode 2")];
                        obj [("session", JStr "e3"); ("episode", JStr "Episode 3")]]))
               eq_refl) eq_refl _ eq_refl); [reflexivity |].
    repeat constructor; eexists; (split; [reflexivity | discriminate]).
  - rewrite (proj2 (animepahe_scrape_not_found_exits animepahe_bare movie (mkSelector 1 1)
               (obj [("total", JInt 0)]) eq_refl) eq_refl (or_introl eq_refl)).
    reflexivity.
Defined.

End Extra_labels.
